(** * Outfit-Simulator: colour analysis and the outfit rule engine

    A shallow embedding of [src/core/color_analyzer.py] and
    [src/core/rule_engine.py], with the class names of
    [src/core/model_utils.py] and the recommendation table of
    [src/web/app.py], and the properties of the specification checked
    against it.

    Numeric conventions.  A Python [int] is a [Z].  A Python [float] is an
    exact rational [Q]: the decimal literals of the source ([0.299], [0.7],
    [1.15] ...) denote the rationals they spell, and [+], [*], [/] are exact;
    the rounding of IEEE doubles is not modelled.  Where a property compares
    a computed float with an exact value, its statement allows for the
    rounding error ([tolerance]).
    [math.sqrt] of an integer is kept symbolic (type [Dist]); it is only ever
    compared, and [sqrt n < k] is decided as [n < k * k].

    Strings are the byte strings of the source (UTF-8), so that the colour,
    tone and style names are literally the ones the program uses. *)

From Stdlib Require Import ZArith QArith Qround Lia Lqa.
From stdpp Require Import base option list functions gmap strings pretty.

Local Open Scope Z_scope.

(** ** Python numerics *)

Module py.

(** [x < y] on floats, as a boolean. *)
Definition Qltb (x y : Q) : bool := negb (Qle_bool y x).

(** [x >= y] on floats. *)
Definition Qgeb (x y : Q) : bool := Qle_bool y x.

(** [max(x, y)] on floats: [y] when it is strictly greater, else [x]. *)
Definition Qmax (x y : Q) : Q := if Qltb x y then y else x.

(** [round(x)] for a float: to the nearest integer, ties to the even one. *)
Definition round_half_even (x : Q) : Z :=
  let f := Qfloor x in
  let frac := (x - inject_Z f)%Q in
  match (frac ?= 1 # 2)%Q with
  | Lt => f
  | Gt => f + 1
  | Eq => if Z.even f then f else f + 1
  end.

(** [round(x, ndigits)] for a float [x] and [ndigits >= 0]. *)
Definition round (x : Q) (ndigits : nat) : Q :=
  let p := 10 ^ Z.of_nat ndigits in
  (inject_Z (round_half_even (x * inject_Z p)) / inject_Z p)%Q.

(** [sum(xs)] over floats ([0] at the start, added left to right). *)
Definition sum (xs : list Q) : Q := fold_left Qplus xs 0%Q.

(** [xs.count(x)] on a list of strings. *)
Definition count (x : string) (xs : list string) : Z :=
  Z.of_nat (length (filter (λ y, y = x) xs)).

(** [len(xs)]. *)
Definition len {A} (xs : list A) : Z := Z.of_nat (length xs).

End py.

(** ** color_analyzer.py *)

Module color_analyzer.

(** An RGB tuple of Python ints. *)
Definition Color : Type := Z * Z * Z.

(** The dictionary [{'name': ..., 'tone': ...}]. *)
Record ColorInfo := mkColorInfo { name : string; tone : string }.

Global Instance ColorInfo_eq_dec : EqDecision ColorInfo.
Proof. solve_decision. Defined.

(** The palette: the name strings of the implementation, bound to the
    English names the specification uses for them. *)
Definition black : string := "黑".
Definition white : string := "白".
Definition gray : string := "灰".
Definition brown : string := "棕".
Definition orange : string := "橙".
Definition pale_yellow : string := "浅黄".
Definition yellow : string := "黄".
Definition pink : string := "粉".
Definition deep_red : string := "深红".
Definition red : string := "红".
Definition pale_green : string := "浅绿".
Definition deep_green : string := "深绿".
Definition green : string := "绿".
Definition pale_blue : string := "浅蓝".
Definition deep_blue : string := "深蓝".
Definition blue : string := "蓝".
Definition pale_purple : string := "浅紫".
Definition deep_purple : string := "深紫".
Definition purple : string := "紫".

Definition warm : string := "暖色".
Definition cold : string := "冷色".
Definition neutral : string := "中性".

(** [0.299 * r + 0.587 * g + 0.114 * b]. *)
Definition brightness_of (r g b : Z) : Q :=
  (0.299 * inject_Z r + 0.587 * inject_Z g + 0.114 * inject_Z b)%Q.

Definition classify_color_type (rgb : Color) : ColorInfo :=
  let '(r, g, b) := rgb in
  let brightness := brightness_of r g b in
  let max_val := Z.max (Z.max r g) b in
  let min_val := Z.min (Z.min r g) b in
  let diff := max_val - min_val in
  if diff <? 30 then
    if py.Qltb brightness 30 then mkColorInfo black neutral
    else if py.Qltb 225 brightness then mkColorInfo white neutral
    else mkColorInfo gray neutral
  else
  let total := r + g + b in
  if total =? 0 then mkColorInfo black neutral else
  let r_ratio := (inject_Z r / inject_Z total)%Q in
  let g_ratio := (inject_Z g / inject_Z total)%Q in
  let b_ratio := (inject_Z b / inject_Z total)%Q in
  if py.Qltb brightness 150 && (50 <? r) && (30 <? g)
     && py.Qltb (inject_Z b) (inject_Z (Z.min r g) * 0.7)
     && (b <? r) && (b <? g)
  then mkColorInfo brown warm else
  if py.Qltb 0.35 r_ratio && py.Qltb 0.3 g_ratio && (b <? r) && (b <? g) then
    if py.Qltb (inject_Z g * 1.15) (inject_Z r) && (100 <? g)
    then mkColorInfo orange warm
    else if py.Qltb 200 brightness then mkColorInfo pale_yellow warm
    else mkColorInfo yellow warm
  else
  if py.Qltb 0.4 r_ratio && (g <? r) && (b <? r) then
    if py.Qltb 200 brightness then mkColorInfo pink warm
    else if py.Qltb brightness 80 then mkColorInfo deep_red warm
    else mkColorInfo red warm
  else
  if py.Qltb 0.35 g_ratio && (r <? g) && (b <? g) then
    if py.Qltb 200 brightness then mkColorInfo pale_green cold
    else if py.Qltb brightness 100 then mkColorInfo deep_green cold
    else mkColorInfo green cold
  else
  if py.Qltb 0.4 b_ratio && (r <? b) && (g <? b) then
    if py.Qltb 200 brightness then mkColorInfo pale_blue cold
    else if py.Qltb brightness 100 then mkColorInfo deep_blue cold
    else mkColorInfo blue cold
  else
  if py.Qltb 0.3 r_ratio && py.Qltb 0.3 b_ratio && (g <? r) && (g <? b) then
    if py.Qltb 200 brightness then mkColorInfo pale_purple cold
    else if py.Qltb brightness 100 then mkColorInfo deep_purple cold
    else mkColorInfo purple cold
  else
  if max_val =? r then mkColorInfo red warm
  else if max_val =? g then mkColorInfo green cold
  else mkColorInfo blue cold.

(** The value of [math.sqrt(n)], kept symbolic, together with
    [float('inf')]. *)
Inductive Dist := Sqrt (n : Z) | Inf.

Definition Dist_min (a b : Dist) : Dist :=
  match a, b with
  | Sqrt x, Sqrt y => if y <? x then Sqrt y else Sqrt x
  | Inf, d => d
  | d, Inf => d
  end.

Definition Dist_max (a b : Dist) : Dist :=
  match a, b with
  | Sqrt x, Sqrt y => if x <? y then Sqrt y else Sqrt x
  | Inf, _ | _, Inf => Inf
  end.

(** [d < k] and [d > k] for an integer literal [k >= 0]. *)
Definition Dist_ltb (d : Dist) (k : Z) : bool :=
  match d with Sqrt n => n <? k * k | Inf => false end.
Definition Dist_gtb (d : Dist) (k : Z) : bool :=
  match d with Sqrt n => k * k <? n | Inf => true end.

Definition calculate_color_distance (color1 color2 : Color) : Dist :=
  let '(r1, g1, b1) := color1 in
  let '(r2, g2, b2) := color2 in
  Sqrt ((r1 - r2) ^ 2 + (g1 - g2) ^ 2 + (b1 - b2) ^ 2).

(** The dictionary [analysis]; a key that the function does not set is
    [None]. *)
Record Analysis := mkAnalysis {
  color_count : option Z;
  color_types : option (list string);
  tones : option (list string);
  contrast_scores : option (list Dist) }.

(** The dictionary returned by [evaluate_color_combo].  [score] is a Python
    int on every path ([round(score, 1)] of an int is that int). *)
Record ComboResult := mkComboResult {
  score : Z;
  suggestions : list string;
  analysis : Analysis }.

(** The contrasts in the order of the loops
    [for i in range(n): for j in range(i + 1, n)]. *)
Fixpoint pairwise_contrasts (colors_list : list Color) : list Dist :=
  match colors_list with
  | [] => []
  | c :: rest => map (calculate_color_distance c) rest ++ pairwise_contrasts rest
  end.

Definition complementary_pairs : list (list string * list string) :=
  [ ([red; deep_red; pink], [green; deep_green; pale_green]);
    ([blue; deep_blue; pale_blue], [orange; yellow; pale_yellow]);
    ([yellow; pale_yellow], [purple; deep_purple; pale_purple]) ].

(** [any(c in pair for c in color_types)]. *)
Definition any_in (pair : list string) (color_types : list string) : bool :=
  existsb (λ c, bool_decide (c ∈ pair)) color_types.

(** The loop that sets [has_complementary]. *)
Definition has_complementary (color_types : list string) : bool :=
  existsb (λ p, any_in p.1 color_types && any_in p.2 color_types)
          complementary_pairs.

Definition evaluate_color_combo (colors_list : list Color) : ComboResult :=
  match colors_list with
  | [] =>
      mkComboResult 0 ["请提供至少一种颜色"] (mkAnalysis None None None None)
  | [_] =>
      mkComboResult 100 ["单色搭配，简洁优雅"]
                    (mkAnalysis (Some 1) None None None)
  | _ =>
    let n := py.len colors_list in
    let score := 100 in
    let suggestions : list string := [] in
    (* 1. three-colour principle *)
    let '(score, suggestions) :=
      if 3 <? n then
        (score - 20,
         suggestions ++ ["建议主色调不超过3种，当前有" +:+ pretty n +:+ "种颜色"])
      else if n =? 3 then (score, suggestions ++ ["符合三色原则，搭配协调"])
      else (score, suggestions) in
    (* 2. classification *)
    let color_types := map (λ color, name (classify_color_type color)) colors_list in
    let tones := map (λ color, tone (classify_color_type color)) colors_list in
    let warm_count := py.count warm tones in
    let cold_count := py.count cold tones in
    let neutral_count := py.count neutral tones in
    (* 3. tone harmony *)
    let '(score, suggestions) :=
      if (0 <? warm_count) && (0 <? cold_count) then
        if neutral_count =? 0 then
          (score - 15,
           suggestions ++ ["冷暖色搭配时，建议加入中性色（黑/白/灰）作为过渡"])
        else (score, suggestions ++ ["冷暖色搭配良好，中性色起到了很好的过渡作用"])
      else (score, suggestions) in
    (* 4. contrast *)
    let contrasts := pairwise_contrasts colors_list in
    let min_contrast := fold_left Dist_min contrasts Inf in
    let max_contrast := fold_left Dist_max contrasts (Sqrt 0) in
    let '(score, suggestions) :=
      if Dist_ltb min_contrast 50 then
        (score - 20, suggestions ++ ["部分颜色过于相似，缺乏层次感，建议增加对比度"])
      else if Dist_ltb min_contrast 100 then
        (score - 10, suggestions ++ ["部分颜色对比度较低，可考虑增加一些对比"])
      else (score, suggestions) in
    let '(score, suggestions) :=
      if Dist_gtb max_contrast 400 then
        (score - 10,
         suggestions ++ ["部分颜色对比度过高，可能显得刺眼，建议适当降低对比度"])
      else (score, suggestions) in
    (* 5. complementary colours *)
    let '(score, suggestions) :=
      if has_complementary color_types && (neutral_count =? 0) then
        (score - 15,
         suggestions ++ ["检测到互补色搭配，建议加入中性色（黑/白/灰）来平衡"])
      else if has_complementary color_types then
        (score, suggestions ++ ["互补色搭配得当，中性色起到了很好的平衡作用"])
      else (score, suggestions) in
    (* 6. neutral colours *)
    let suggestions :=
      if neutral_count =? n then suggestions ++ ["中性色搭配，经典且安全"]
      else if (0 <? neutral_count) && (neutral_count <? n) then
        suggestions ++ ["中性色与彩色搭配，平衡且优雅"]
      else suggestions in
    let score := Z.max 0 (Z.min 100 score) in
    let suggestions :=
      if (80 <=? score) && bool_decide (suggestions = []) then
        suggestions ++ ["颜色搭配协调，评分优秀"]
      else suggestions in
    mkComboResult score suggestions
      (mkAnalysis (Some n) (Some color_types) (Some tones) (Some contrasts))
  end.

End color_analyzer.


(** ** rule_engine.py *)

Module rule_engine.

Inductive RuleSeverity := INFO | WARNING | ERROR.

Global Instance RuleSeverity_eq_dec : EqDecision RuleSeverity.
Proof. solve_decision. Defined.

(** [severity.value]. *)
Definition RuleSeverity_value (s : RuleSeverity) : string :=
  match s with INFO => "info" | WARNING => "warning" | ERROR => "error" end.

(** The text of [RuleResult.message].  Two messages of the source are
    kept structured, because their text is not a function of the values the
    model has: one formats two floats with [:.1f], the other joins Python
    sets, whose iteration order is not fixed. *)
Inductive Message :=
| Text (s : string)
| LightTopDarkBottomViolated (top_brightness bottom_brightness : Q)
| ForbiddenCombosFound (violations : list (gset string * gset string)).

Module RuleResult.
Record t := mk {
  passed : bool;
  score : Q;
  message : Message;
  suggestion : option string;
  severity : RuleSeverity;
  weight : Q }.
End RuleResult.

(** An element of a colour list: an RGB tuple, or anything else, which the
    rules read through [str(color)]. *)
Inductive ColorItem :=
| Tuple (rgb : color_analyzer.Color)
| Str (s : string).

(** The dictionary [outfit_data]; the rules read it with [.get(key, default)],
    a missing key is [None]. *)
Module OutfitData.
Record t := mk {
  colors : option (list ColorItem);
  styles : option (gmap string string);
  context : option (gmap string string);
  top_colors : option (list ColorItem);
  bottom_colors : option (list ColorItem) }.
End OutfitData.

(** [not xs] for a list. *)
Definition is_empty {A} (xs : list A) : bool :=
  match xs with [] => true | _ => false end.

(** *** The abstract rule classes *)

Definition ColorRule_skipped : RuleResult.t :=
  RuleResult.mk true 100 (Text "未提供颜色信息，跳过颜色规则检查") None INFO 1.

Definition ColorRule_evaluate
    (_evaluate_colors : list ColorItem → OutfitData.t → RuleResult.t)
    (outfit_data : OutfitData.t) : RuleResult.t :=
  let colors := default [] (OutfitData.colors outfit_data) in
  if is_empty colors then ColorRule_skipped
  else _evaluate_colors colors outfit_data.

Definition StyleRule_skipped : RuleResult.t :=
  RuleResult.mk true 100 (Text "未提供款式信息，跳过款式规则检查") None INFO 1.

Definition StyleRule_evaluate
    (_evaluate_styles : gmap string string → OutfitData.t → RuleResult.t)
    (outfit_data : OutfitData.t) : RuleResult.t :=
  let styles := default ∅ (OutfitData.styles outfit_data) in
  if bool_decide (styles = ∅) then StyleRule_skipped
  else _evaluate_styles styles outfit_data.

Definition ContextRule_skipped : RuleResult.t :=
  RuleResult.mk true 100 (Text "未提供场景信息，跳过场景规则检查") None INFO 1.

Definition ContextRule_evaluate
    (_evaluate_context : gmap string string → OutfitData.t → RuleResult.t)
    (outfit_data : OutfitData.t) : RuleResult.t :=
  let context := default ∅ (OutfitData.context outfit_data) in
  if bool_decide (context = ∅) then ContextRule_skipped
  else _evaluate_context context outfit_data.

(** *** ThreeColorRule *)

Definition neutral_colors : gset string := {[ "黑"; "白"; "灰" ]}.

(** The name a rule gives to an element of the colour list. *)
Definition color_name_of (color : ColorItem) : string :=
  match color with
  | Tuple rgb => color_analyzer.name (color_analyzer.classify_color_type rgb)
  | Str s => s
  end.

(** The loop that collects [main_colors]. *)
Definition main_colors_of (colors : list ColorItem) : list string :=
  fold_left
    (λ main_colors color,
       let color_name := color_name_of color in
       if negb (bool_decide (color_name ∈ neutral_colors)) then
         if negb (bool_decide (color_name ∈ main_colors))
         then main_colors ++ [color_name] else main_colors
       else main_colors)
    colors [].

Definition ThreeColorRule_evaluate_colors (max_colors : Z) (self_weight : Q)
    (colors : list ColorItem) (outfit_data : OutfitData.t) : RuleResult.t :=
  let num_main_colors := py.len (main_colors_of colors) in
  if num_main_colors <=? max_colors then
    RuleResult.mk true 100
      (Text ("符合三色原则，主色调有" +:+ pretty num_main_colors +:+ "种"))
      None INFO self_weight
  else
    RuleResult.mk false
      (inject_Z (Z.max 0 (100 - (num_main_colors - max_colors) * 20)))
      (Text ("违反三色原则，主色调有" +:+ pretty num_main_colors
             +:+ "种（建议不超过" +:+ pretty max_colors +:+ "种）"))
      (Some ("建议减少主色调数量，保留" +:+ pretty max_colors
             +:+ "种主要颜色，其他使用中性色（黑/白/灰）"))
      WARNING self_weight.

(** *** LightTopDarkBottomRule *)

Definition brightness_map : gmap string Q :=
  list_to_map
    [ ("黑", 0%Q); ("深蓝", 50%Q); ("深绿", 50%Q); ("深红", 50%Q); ("深紫", 50%Q);
      ("灰", 128%Q); ("棕", 100%Q);
      ("蓝", 150%Q); ("绿", 150%Q); ("红", 150%Q); ("紫", 150%Q);
      ("浅蓝", 200%Q); ("浅绿", 200%Q); ("粉", 220%Q); ("浅紫", 200%Q);
      ("白", 255%Q); ("浅黄", 240%Q); ("黄", 220%Q); ("橙", 200%Q) ].

Definition get_brightness (color : ColorItem) : Q :=
  match color with
  | Tuple (r, g, b) => color_analyzer.brightness_of r g b
  | Str s => default 128%Q (brightness_map !! s)
  end.

(** [sum(get_brightness(c) for c in cs) / len(cs)]. *)
Definition average_brightness (cs : list ColorItem) : Q :=
  (py.sum (map get_brightness cs) / inject_Z (py.len cs))%Q.

Definition LightTopDarkBottomRule_evaluate_colors (self_weight : Q)
    (colors : list ColorItem) (outfit_data : OutfitData.t) : RuleResult.t :=
  let top_colors := default [] (OutfitData.top_colors outfit_data) in
  let bottom_colors := default [] (OutfitData.bottom_colors outfit_data) in
  if is_empty top_colors || is_empty bottom_colors then
    RuleResult.mk true 100 (Text "未提供上下装颜色信息，跳过检查") None INFO self_weight
  else
    let top_brightness := average_brightness top_colors in
    let bottom_brightness := average_brightness bottom_colors in
    if py.Qgeb top_brightness bottom_brightness then
      RuleResult.mk true 100 (Text "符合上浅下深原则") None INFO self_weight
    else
      let diff := (bottom_brightness - top_brightness)%Q in
      RuleResult.mk false (py.Qmax 0 (100 - diff / 2))
        (LightTopDarkBottomViolated top_brightness bottom_brightness)
        (Some "建议选择更浅的上衣颜色或更深的下装颜色")
        WARNING self_weight.

(** *** ForbiddenColorComboRule *)

Definition forbidden_combos : list (gset string * gset string) :=
  [ ({[ "红"; "深红"; "粉" ]}, {[ "绿"; "深绿"; "浅绿" ]});
    ({[ "紫"; "深紫"; "浅紫" ]}, {[ "黄"; "浅黄"; "橙" ]});
    ({[ "蓝"; "深蓝"; "浅蓝" ]}, {[ "橙"; "黄"; "浅黄" ]}) ].

(** The loop that collects [violations]. *)
Definition violations_of (color_set : gset string)
    : list (gset string * gset string) :=
  filter (λ combo, color_set ∩ combo.1 ≠ ∅ ∧ color_set ∩ combo.2 ≠ ∅)
         forbidden_combos.

Definition ForbiddenColorComboRule_evaluate_colors (self_weight : Q)
    (colors : list ColorItem) (outfit_data : OutfitData.t) : RuleResult.t :=
  let color_names := map color_name_of colors in
  let color_set : gset string := list_to_set color_names in
  let violations := violations_of color_set in
  if is_empty violations then
    RuleResult.mk true 100 (Text "未发现禁忌颜色组合") None INFO self_weight
  else
    RuleResult.mk false 50 (ForbiddenCombosFound violations)
      (Some "建议避免互补色直接搭配，可以使用中性色（黑/白/灰）作为过渡")
      ERROR self_weight.

(** *** StyleCoordinationRule *)

Definition formal_styles : gset string := {[ "衬衫"; "外套"; "皮鞋" ]}.
Definition casual_styles : gset string :=
  {[ "T恤"; "卫衣"; "牛仔裤"; "休闲裤"; "运动鞋" ]}.

Definition get_style_type (style : string) : string :=
  if bool_decide (style ∈ formal_styles) then "formal"
  else if bool_decide (style ∈ casual_styles) then "casual"
  else "unknown".

(** [types], the style types of the three slots that are not ['unknown']. *)
Definition known_types (styles : gmap string string) : list string :=
  let top_style := default "" (styles !! "top") in
  let bottom_style := default "" (styles !! "bottom") in
  let shoe_style := default "" (styles !! "shoes") in
  let top_type := get_style_type top_style in
  let bottom_type := get_style_type bottom_style in
  let shoe_type := get_style_type shoe_style in
  filter (λ t, t ≠ "unknown") [top_type; bottom_type; shoe_type].

Definition StyleCoordinationRule_evaluate_styles (self_weight : Q)
    (styles : gmap string string) (outfit_data : OutfitData.t) : RuleResult.t :=
  let types := known_types styles in
  if is_empty types then
    RuleResult.mk true 100 (Text "无法判断款式风格") None INFO self_weight
  else
    let unique_types : gset string := list_to_set types in
    if (size unique_types =? 1)%nat then
      RuleResult.mk true 100 (Text "款式风格协调统一") None INFO self_weight
    else if (size unique_types =? 2)%nat then
      RuleResult.mk true 70 (Text "款式风格部分混合，基本协调")
        (Some "建议统一风格以获得更好的视觉效果") WARNING self_weight
    else
      RuleResult.mk false 40 (Text "款式风格不协调，正装与休闲混搭")
        (Some "建议统一风格：正装配正装，休闲装配休闲装") ERROR self_weight.

(** *** ContextAppropriateRule *)

Definition context_styles : gmap string (gset string) :=
  list_to_map
    [ ("正式场合", {[ "formal" ]}); ("商务", {[ "formal" ]});
      ("工作", {[ "formal"; "casual" ]}); ("休闲", {[ "casual" ]});
      ("运动", {[ "casual" ]}); ("聚会", {[ "casual"; "formal" ]}) ].

Definition ContextAppropriateRule_evaluate_context (self_weight : Q)
    (context : gmap string string) (outfit_data : OutfitData.t) : RuleResult.t :=
  let context_type := default "" (context !! "type") in
  let styles := default ∅ (OutfitData.styles outfit_data) in
  if bool_decide (context_type = "") then
    RuleResult.mk true 100 (Text "未指定场景类型") None INFO self_weight
  else
    let recommended_styles := default ∅ (context_styles !! context_type) in
    if bool_decide (recommended_styles = ∅) then
      RuleResult.mk true 100
        (Text ("场景 '" +:+ context_type +:+ "' 无特定风格要求")) None INFO self_weight
    else
      let top_style := default "" (styles !! "top") in
      let bottom_style := default "" (styles !! "bottom") in
      let shoe_style := default "" (styles !! "shoes") in
      let current_formal :=
        existsb (λ s, bool_decide (s ∈ formal_styles))
                [top_style; bottom_style; shoe_style] in
      let current_casual :=
        existsb (λ s, bool_decide (s ∈ casual_styles))
                [top_style; bottom_style; shoe_style] in
      let is_formal_ok :=
        bool_decide ("formal" ∈ recommended_styles) && current_formal in
      let is_casual_ok :=
        bool_decide ("casual" ∈ recommended_styles) && current_casual in
      if is_formal_ok || is_casual_ok then
        RuleResult.mk true 100 (Text ("穿搭风格适合" +:+ context_type +:+ "场景"))
          None INFO self_weight
      else if bool_decide ("formal" ∈ recommended_styles) then
        RuleResult.mk false 60
          (Text (context_type +:+ "场景建议穿正装，当前穿搭过于休闲"))
          (Some "建议选择衬衫、外套、皮鞋等正装单品") WARNING self_weight
      else
        RuleResult.mk false 60
          (Text (context_type +:+ "场景建议穿休闲装，当前穿搭过于正式"))
          (Some "建议选择T恤、牛仔裤、运动鞋等休闲单品") WARNING self_weight.

(** *** Rule objects *)

(** The class of a rule object, with the attributes that the class adds.
    The last four stand for classes written by a user of the library: a
    subclass of one of the three abstract classes gives its
    [_evaluate_...] method, a direct subclass of [BaseRule] its [evaluate];
    each may read the weight of the object. *)
Inductive RuleClass :=
| ThreeColorRule (max_colors : Z)
| LightTopDarkBottomRule
| ForbiddenColorComboRule
| StyleCoordinationRule
| ContextAppropriateRule
| ColorRuleSubclass
    (_evaluate_colors : Q → list ColorItem → OutfitData.t → RuleResult.t)
| StyleRuleSubclass
    (_evaluate_styles : Q → gmap string string → OutfitData.t → RuleResult.t)
| ContextRuleSubclass
    (_evaluate_context : Q → gmap string string → OutfitData.t → RuleResult.t)
| BaseRuleSubclass (evaluate : Q → OutfitData.t → RuleResult.t).

Module BaseRule.
Record t := mk {
  name : string;
  description : string;
  weight : Q;
  enabled : bool;
  class : RuleClass }.

Definition set_enabled (b : bool) (self : t) : t :=
  mk (name self) (description self) (weight self) b (class self).

Definition set_weight (w : Q) (self : t) : t :=
  mk (name self) (description self) w (enabled self) (class self).
End BaseRule.

(** [rule.evaluate(outfit_data)], by the class of the object. *)
Definition evaluate (self : BaseRule.t) (outfit_data : OutfitData.t)
    : RuleResult.t :=
  let w := BaseRule.weight self in
  match BaseRule.class self with
  | ThreeColorRule max_colors =>
      ColorRule_evaluate (ThreeColorRule_evaluate_colors max_colors w) outfit_data
  | LightTopDarkBottomRule =>
      ColorRule_evaluate (LightTopDarkBottomRule_evaluate_colors w) outfit_data
  | ForbiddenColorComboRule =>
      ColorRule_evaluate (ForbiddenColorComboRule_evaluate_colors w) outfit_data
  | StyleCoordinationRule =>
      StyleRule_evaluate (StyleCoordinationRule_evaluate_styles w) outfit_data
  | ContextAppropriateRule =>
      ContextRule_evaluate (ContextAppropriateRule_evaluate_context w) outfit_data
  | ColorRuleSubclass f => ColorRule_evaluate (f w) outfit_data
  | StyleRuleSubclass f => StyleRule_evaluate (f w) outfit_data
  | ContextRuleSubclass f => ContextRule_evaluate (f w) outfit_data
  | BaseRuleSubclass f => f w outfit_data
  end.

(** [isinstance(rule, ColorRule)]. *)
Definition is_ColorRule (c : RuleClass) : bool :=
  match c with
  | ThreeColorRule _ | LightTopDarkBottomRule | ForbiddenColorComboRule
  | ColorRuleSubclass _ => true
  | _ => false
  end.

(** The classes that the module defines itself. *)
Definition is_concrete (c : RuleClass) : bool :=
  match c with
  | ThreeColorRule _ | LightTopDarkBottomRule | ForbiddenColorComboRule
  | StyleCoordinationRule | ContextAppropriateRule => true
  | _ => false
  end.

(** The constructors of the five concrete classes. *)
Definition new_ThreeColorRule (max_colors : Z) (weight : Q) : BaseRule.t :=
  BaseRule.mk "三色原则" ("全身主色调不超过" +:+ pretty max_colors +:+ "种")
              weight true (ThreeColorRule max_colors).
Definition new_LightTopDarkBottomRule (weight : Q) : BaseRule.t :=
  BaseRule.mk "上浅下深原则" "上衣颜色应该比下装颜色浅" weight true
              LightTopDarkBottomRule.
Definition new_ForbiddenColorComboRule (weight : Q) : BaseRule.t :=
  BaseRule.mk "禁忌颜色组合" "避免互补色直接搭配（如红绿、紫黄）" weight true
              ForbiddenColorComboRule.
Definition new_StyleCoordinationRule (weight : Q) : BaseRule.t :=
  BaseRule.mk "款式协调" "上下装和鞋子的风格应该协调" weight true
              StyleCoordinationRule.
Definition new_ContextAppropriateRule (weight : Q) : BaseRule.t :=
  BaseRule.mk "场景适宜" "根据场景选择合适的穿搭风格" weight true
              ContextAppropriateRule.

(** *** The object store

    Rule objects are shared by reference: a library holds references, and
    [enable_rule], [disable_rule] and [configure_rule] update the object, for
    every holder of a reference to it.  [object h l] is the object at
    address [l]; [next h] is the first address not yet handed out. *)

Definition loc : Type := nat.

Module Heap.
Record t := mk { next : loc; object : loc → BaseRule.t }.

(** A new object. *)
Definition alloc (r : BaseRule.t) (h : t) : loc * t :=
  (next h, mk (S (next h)) (<[next h := r]> (object h))).

(** An attribute assignment on the object at [l]. *)
Definition update (l : loc) (f : BaseRule.t → BaseRule.t) (h : t) : t :=
  mk (next h) (<[l := f (object h l)]> (object h)).

(** The store before any rule object exists; what it holds at the
    addresses from [next] on is never read. *)
Definition empty : t :=
  mk 0%nat (λ _, BaseRule.mk "" "" 1 false
                   (BaseRuleSubclass (λ _ _, RuleResult.mk true 100 (Text "") None INFO 1))).
End Heap.

(** *** RuleLibrary *)

Module RuleLibrary.
Record t := mk { rules : list loc }.

Definition add_rule (rule : loc) (self : t) : t := mk (rules self ++ [rule]).

Definition _load_default_rules (self : t) (h : Heap.t) : t * Heap.t :=
  let '(r, h) := Heap.alloc (new_ThreeColorRule 3 1.5) h in
  let self := mk (rules self ++ [r]) in
  let '(r, h) := Heap.alloc (new_LightTopDarkBottomRule 1.2) h in
  let self := mk (rules self ++ [r]) in
  let '(r, h) := Heap.alloc (new_ForbiddenColorComboRule 1.8) h in
  let self := mk (rules self ++ [r]) in
  let '(r, h) := Heap.alloc (new_StyleCoordinationRule 1.5) h in
  let self := mk (rules self ++ [r]) in
  let '(r, h) := Heap.alloc (new_ContextAppropriateRule 1.3) h in
  let self := mk (rules self ++ [r]) in
  (self, h).

Definition __init__ (h : Heap.t) : t * Heap.t := _load_default_rules (mk []) h.

Definition remove_rule (rule_name : string) (self : t) (h : Heap.t) : t :=
  mk (filter (λ r, BaseRule.name (Heap.object h r) ≠ rule_name) (rules self)).

Definition get_rule (rule_name : string) (self : t) (h : Heap.t) : option loc :=
  List.find (λ rule, bool_decide (BaseRule.name (Heap.object h rule) = rule_name))
            (rules self).

Definition enable_rule (rule_name : string) (self : t) (h : Heap.t) : Heap.t :=
  match get_rule rule_name self h with
  | Some rule => Heap.update rule (BaseRule.set_enabled true) h
  | None => h
  end.

Definition disable_rule (rule_name : string) (self : t) (h : Heap.t) : Heap.t :=
  match get_rule rule_name self h with
  | Some rule => Heap.update rule (BaseRule.set_enabled false) h
  | None => h
  end.

Definition get_enabled_rules (self : t) (h : Heap.t) : list loc :=
  filter (λ r, BaseRule.enabled (Heap.object h r) = true) (rules self).
End RuleLibrary.

(** *** The evaluation report *)

Module ResultEntry.
Record t := mk {
  rule_name : string;
  rule_description : string;
  passed : bool;
  score : Q;
  message : Message;
  suggestion : option string;
  severity : string;
  weight : Q }.
End ResultEntry.

Module SuggestionEntry.
Record t := mk { rule : string; suggestion : string; severity : string }.
End SuggestionEntry.

Module Summary.
Record t := mk {
  total_rules : Z;
  passed_rules : Z;
  failed_rules : Z;
  errors : Z;
  warnings : Z }.
End Summary.

Module Report.
Record t := mk {
  score : Q;
  passed : bool;
  results : list ResultEntry.t;
  suggestions : list SuggestionEntry.t;
  summary : Summary.t }.
End Report.

(** [x or d] for an optional list [x]: [d] when [x] is [None] or empty. *)
Definition or_list {A} (x : option (list A)) (d : list A) : list A :=
  match x with
  | Some ((_ :: _) as l) => l
  | _ => d
  end.

(** *** RuleEvaluator *)

Module RuleEvaluator.
Record t := mk { rule_library : RuleLibrary.t }.

Definition __init__ (rule_library : option RuleLibrary.t) (h : Heap.t)
    : t * Heap.t :=
  match rule_library with
  | Some l => (mk l, h)
  | None => let '(l, h) := RuleLibrary.__init__ h in (mk l, h)
  end.

(** One turn of the loop over the enabled rules. *)
Definition evaluate_rule (h : Heap.t) (outfit_data : OutfitData.t)
    (acc : list ResultEntry.t * Q * Q) (rule : loc)
    : list ResultEntry.t * Q * Q :=
  let '(rule_results, total_weighted_score, total_weight) := acc in
  let self := Heap.object h rule in
  let result := evaluate self outfit_data in
  let result_weight := BaseRule.weight self in
  (rule_results ++
     [ResultEntry.mk (BaseRule.name self) (BaseRule.description self)
        (RuleResult.passed result) (RuleResult.score result)
        (RuleResult.message result) (RuleResult.suggestion result)
        (RuleSeverity_value (RuleResult.severity result)) result_weight],
   (total_weighted_score + RuleResult.score result * result_weight)%Q,
   (total_weight + result_weight)%Q).

(** One turn of the loop that collects the suggestions and counts. *)
Definition collect (acc : list SuggestionEntry.t * Z * Z) (result : ResultEntry.t)
    : list SuggestionEntry.t * Z * Z :=
  let '(suggestions, error_count, warning_count) := acc in
  let suggestions :=
    match ResultEntry.suggestion result with
    | Some s =>
        if bool_decide (s = "") then suggestions
        else suggestions ++
               [SuggestionEntry.mk (ResultEntry.rule_name result) s
                                   (ResultEntry.severity result)]
    | None => suggestions
    end in
  if bool_decide (ResultEntry.severity result = "error")
  then (suggestions, error_count + 1, warning_count)
  else if bool_decide (ResultEntry.severity result = "warning")
  then (suggestions, error_count, warning_count + 1)
  else (suggestions, error_count, warning_count).

(** The dictionary [outfit_data] that [evaluate_outfit] builds first. *)
Definition build_outfit_data
    (colors : option (list ColorItem))
    (styles : option (gmap string string))
    (context : option (gmap string string))
    (top_colors bottom_colors : option (list ColorItem)) : OutfitData.t :=
  OutfitData.mk (Some (or_list colors []))
                (Some (default ∅ styles))
                (Some (default ∅ context))
                (Some (or_list top_colors (or_list colors [])))
                (Some (or_list bottom_colors (or_list colors []))).

Definition evaluate_outfit (self : t) (h : Heap.t)
    (colors : option (list ColorItem))
    (styles : option (gmap string string))
    (context : option (gmap string string))
    (top_colors bottom_colors : option (list ColorItem)) : Report.t :=
  let outfit_data :=
    build_outfit_data colors styles context top_colors bottom_colors in
  let '(rule_results, total_weighted_score, total_weight) :=
    fold_left (evaluate_rule h outfit_data)
              (RuleLibrary.get_enabled_rules (rule_library self) h)
              ([], 0%Q, 0%Q) in
  let overall_score :=
    if py.Qltb 0 total_weight then (total_weighted_score / total_weight)%Q
    else 0%Q in
  let '(suggestions, error_count, warning_count) :=
    fold_left collect rule_results ([], 0, 0) in
  let passed := error_count =? 0 in
  let summary :=
    Summary.mk (py.len rule_results)
               (py.len (filter (λ r, ResultEntry.passed r = true) rule_results))
               (py.len (filter (λ r, ResultEntry.passed r = false) rule_results))
               error_count warning_count in
  Report.mk (py.round overall_score 2) passed rule_results suggestions summary.

Definition add_custom_rule (rule : loc) (self : t) : t :=
  mk (RuleLibrary.add_rule rule (rule_library self)).

Definition configure_rule (rule_name : string) (weight : option Q)
    (enabled : option bool) (self : t) (h : Heap.t) : Heap.t :=
  match RuleLibrary.get_rule rule_name (rule_library self) h with
  | Some rule =>
      let h := match weight with
               | Some w => Heap.update rule (BaseRule.set_weight w) h
               | None => h
               end in
      match enabled with
      | Some b => Heap.update rule (BaseRule.set_enabled b) h
      | None => h
      end
  | None => h
  end.
End RuleEvaluator.

Definition create_evaluator (h : Heap.t) : RuleEvaluator.t * Heap.t :=
  RuleEvaluator.__init__ None h.

(** The module-level [evaluate_outfit(colors, styles, context, **kwargs)]. *)
Definition evaluate_outfit (h : Heap.t)
    (colors : option (list ColorItem))
    (styles : option (gmap string string))
    (context : option (gmap string string))
    (top_colors bottom_colors : option (list ColorItem)) : Report.t :=
  let '(evaluator, h) := create_evaluator h in
  RuleEvaluator.evaluate_outfit evaluator h colors styles context
                                top_colors bottom_colors.

End rule_engine.

(** ** model_utils: the classes of the style classifier

    Of [src/core/model_utils.py] only the table of class names and its
    lookup are embedded; the network and the image pipeline are not. *)

Module model_utils.

Definition CLASS_NAMES : list string :=
  [ "T恤"; "衬衫"; "卫衣"; "外套"; "牛仔裤"; "休闲裤"; "运动鞋"; "皮鞋" ].

Definition NUM_CLASSES : Z := py.len CLASS_NAMES.

(** A returned value, or the exception raised: [ValueError] with its
    message, or the [IndexError] of a list index out of range. *)
Inductive Result (A : Type) :=
| Return (value : A)
| ValueError (message : string)
| IndexError.
Arguments Return {A} value.
Arguments ValueError {A} message.
Arguments IndexError {A}.

Definition get_class_name (class_index : Z) : Result string :=
  if bool_decide (0 ≤ class_index) && bool_decide (class_index < py.len CLASS_NAMES)
  then
    match CLASS_NAMES !! Z.to_nat class_index with
    | Some name => Return name
    | None => IndexError
    end
  else
    ValueError ("无效的类别索引: " +:+ pretty class_index +:+ ", 应该在0-"
                +:+ pretty (py.len CLASS_NAMES - 1) +:+ "之间").

End model_utils.

(** ** web/app: the recommendations by context

    Of [src/web/app.py] the table of [recommend] and its lookup are
    embedded: [context_recommendations] and [rec].  Reading the request,
    loading the models and encoding the response are not. *)

Module app.

Module Recommendation.
Record t := mk {
  colors : list string;
  styles : gmap string string;
  tips : list string
}.
End Recommendation.

Definition context_recommendations : gmap string Recommendation.t :=
  list_to_map
    [ ("正式场合",
       Recommendation.mk ["黑"; "白"; "灰"; "深蓝"; "深灰"]
         (list_to_map [("top", "衬衫"); ("bottom", "休闲裤"); ("shoes", "皮鞋")])
         ["选择经典的黑白灰配色"; "正装风格，避免过于花哨";
          "皮鞋是正式场合的最佳选择"; "保持整体简洁大气"]);
      ("商务",
       Recommendation.mk ["深蓝"; "深灰"; "白"; "黑"]
         (list_to_map [("top", "衬衫"); ("bottom", "休闲裤"); ("shoes", "皮鞋")])
         ["商务场合以稳重为主"; "深色系更显专业";
          "保持整洁干净的形象"; "避免过于鲜艳的颜色"]);
      ("工作",
       Recommendation.mk ["白"; "蓝"; "灰"; "黑"]
         (list_to_map [("top", "衬衫"); ("bottom", "休闲裤"); ("shoes", "皮鞋")])
         ["工作场合要专业但不失活力"; "可以选择一些亮色作为点缀";
          "舒适度也很重要"; "选择透气性好的面料"]);
      ("休闲",
       Recommendation.mk ["白"; "蓝"; "灰"; "黑"; "棕"]
         (list_to_map [("top", "T恤"); ("bottom", "牛仔裤"); ("shoes", "运动鞋")])
         ["休闲场合可以更自由"; "选择舒适的单品";
          "颜色可以更丰富"; "搭配要协调即可"]);
      ("运动",
       Recommendation.mk ["黑"; "白"; "灰"; "蓝"; "红"]
         (list_to_map [("top", "T恤"); ("bottom", "休闲裤"); ("shoes", "运动鞋")])
         ["运动场合以舒适为主"; "选择透气性好的材质";
          "颜色可以更鲜艳"; "运动鞋是必备单品"]) ].

(** [rec = context_recommendations.get(context_type,
    context_recommendations['休闲'])]; [None] stands for the [KeyError] of
    the subscript. *)
Definition rec (context_type : string) : option Recommendation.t :=
  match context_recommendations !! "休闲" with
  | Some casual => Some (default casual (context_recommendations !! context_type))
  | None => None
  end.

End app.

(** * The vocabulary of the properties *)

Section vocabulary.
Import rule_engine.

(** Some name of the list lies in the set. *)
Definition meets (names : list string) (family : list string) : Prop :=
  ∃ c, c ∈ names ∧ c ∈ family.

(** The number of distinct style types of the slots that are not unknown. *)
Definition distinct_types (styles : gmap string string) : nat :=
  size (list_to_set (known_types styles) : gset string).


(** The names of the registered rules, in registration order. *)
Definition names (lib : RuleLibrary.t) (h : Heap.t) : list string :=
  map (λ r, BaseRule.name (Heap.object h r)) (RuleLibrary.rules lib).

(** The invariant of the specification: names are unique in the library. *)
Definition names_unique (lib : RuleLibrary.t) (h : Heap.t) : Prop :=
  NoDup (names lib h).

(** The score and the configured weight of each rule of a list, on an
    outfit. *)
Definition scored (h : Heap.t) (outfit_data : OutfitData.t) (rs : list loc)
    : list (Q * Q) :=
  map (λ r, (RuleResult.score (evaluate (Heap.object h r) outfit_data),
             BaseRule.weight (Heap.object h r))) rs.

(** The sums of the specification: sum of score_i * weight_i and sum of
    weight_i. *)
Fixpoint weighted_sum (sw : list (Q * Q)) : Q :=
  match sw with
  | [] => 0
  | (s, w) :: rest => s * w + weighted_sum rest
  end.

Fixpoint total_weight (sw : list (Q * Q)) : Q :=
  match sw with
  | [] => 0
  | (_, w) :: rest => w + total_weight rest
  end.

Definition weighted_average (sw : list (Q * Q)) : Q :=
  weighted_sum sw / total_weight sw.

(** The entry of [results] for one rule: the outcome of its [evaluate],
    under the name, the description and the configured weight of the rule. *)
Definition entry_of (h : Heap.t) (d : OutfitData.t) (r : loc) : ResultEntry.t :=
  let self := Heap.object h r in
  let result := evaluate self d in
  ResultEntry.mk (BaseRule.name self) (BaseRule.description self)
    (RuleResult.passed result) (RuleResult.score result)
    (RuleResult.message result) (RuleResult.suggestion result)
    (RuleSeverity_value (RuleResult.severity result)) (BaseRule.weight self).

Definition in_0_100 (result : RuleResult.t) : Prop :=
  (0 <= RuleResult.score result)%Q ∧ (RuleResult.score result <= 100)%Q.

(** The program computes with doubles, the model with exact rationals.  A
    property that compares a computed float with an exact value allows for
    the rounding error of the double arithmetic; on brightnesses up to 255
    and scores up to 100 that error is far below this bound. *)
Definition tolerance : Q := 1 # 1000000.

(** [y] lies within [eps] of [x]. *)
Definition near (eps x y : Q) : Prop := (x - eps <= y)%Q ∧ (y <= x + eps)%Q.


End vocabulary.

Section vocabulary_colors.
Import color_analyzer.

(** The palette of the classifier: every name with its tone. *)
Definition palette : list ColorInfo :=
  [ mkColorInfo black neutral; mkColorInfo white neutral;
    mkColorInfo gray neutral;
    mkColorInfo brown warm; mkColorInfo orange warm;
    mkColorInfo pale_yellow warm; mkColorInfo yellow warm;
    mkColorInfo pink warm; mkColorInfo deep_red warm; mkColorInfo red warm;
    mkColorInfo pale_green cold; mkColorInfo deep_green cold;
    mkColorInfo green cold;
    mkColorInfo pale_blue cold; mkColorInfo deep_blue cold;
    mkColorInfo blue cold;
    mkColorInfo pale_purple cold; mkColorInfo deep_purple cold;
    mkColorInfo purple cold ].

(** A colour whose three channels are in 0..255. *)
Definition in_range (c : Color) : Prop :=
  let '(r, g, b) := c in
  0 ≤ r ≤ 255 ∧ 0 ≤ g ≤ 255 ∧ 0 ≤ b ≤ 255.

End vocabulary_colors.

Section vocabulary_combo.

(** What holds of the running score and suggestions of
    [evaluate_color_combo] after each of its checks: the score is a multiple
    of 5 between a lower bound and 100, and every deduction has left a
    suggestion. *)
Definition combo_state (low : Z) (score : Z) (suggestions : list string)
    : Prop :=
  low ≤ score ≤ 100 ∧ score mod 5 = 0 ∧ (score < 100 → suggestions ≠ []).

End vocabulary_combo.

Section vocabulary_rules.
Import rule_engine.

(** An element of a colour list that is a name, or an RGB tuple with its
    channels in 0..255. *)
Definition item_in_range (c : ColorItem) : Prop :=
  match c with
  | Tuple rgb => in_range rgb
  | Str _ => True
  end.

End vocabulary_rules.

Section vocabulary_report.
Import rule_engine.

(** The entry of [suggestions] that a result gives, if its suggestion is
    neither [None] nor empty. *)
Definition suggestion_of (e : ResultEntry.t) : option SuggestionEntry.t :=
  match ResultEntry.suggestion e with
  | Some s =>
      if bool_decide (s = "") then None
      else Some (SuggestionEntry.mk (ResultEntry.rule_name e) s
                                    (ResultEntry.severity e))
  | None => None
  end.

(** The number of results of one severity. *)
Definition count_severity (v : string) (entries : list ResultEntry.t) : Z :=
  py.len (filter (λ e, ResultEntry.severity e = v) entries).

End vocabulary_report.

Section vocabulary_results.
Import rule_engine.

(** What the results of the concrete rules have in common: severity info
    goes with a passing full score and no suggestion; any other severity
    comes with a suggestion that is not empty; a result that does not pass
    is not of severity info; the score lies in 0..100. *)
Definition consistent_result (r : RuleResult.t) : Prop :=
  (RuleResult.severity r = INFO ↔ RuleResult.suggestion r = None)
  ∧ (RuleResult.severity r = INFO →
     RuleResult.passed r = true ∧ RuleResult.score r = 100%Q)
  ∧ (RuleResult.passed r = false → RuleResult.severity r ≠ INFO)
  ∧ (0 <= RuleResult.score r)%Q ∧ (RuleResult.score r <= 100)%Q
  ∧ (∀ s, RuleResult.suggestion r = Some s → s ≠ "").

End vocabulary_results.

Section vocabulary_default.
Import rule_engine.

(** The five rule objects of a library as constructed. *)
Definition default_rules : list BaseRule.t :=
  [ new_ThreeColorRule 3 1.5; new_LightTopDarkBottomRule 1.2;
    new_ForbiddenColorComboRule 1.8; new_StyleCoordinationRule 1.5;
    new_ContextAppropriateRule 1.3 ].

(** No colours, styles or context: absent, or empty. *)
Definition no_list {A} (x : option (list A)) : Prop := x = None ∨ x = Some [].
Definition no_dict (x : option (gmap string string)) : Prop :=
  x = None ∨ x = Some ∅.

End vocabulary_default.

Section vocabulary_weights.
Import rule_engine.

(** The store after the weight of every rule object has been set anew: to
    [f l] for the object at [l]. *)
Definition reweight (f : loc → Q) (h : Heap.t) : Heap.t :=
  Heap.mk (Heap.next h)
    (λ l, BaseRule.set_weight (f l) (Heap.object h l)).

(** The outcome of a rule without the weight that it carries. *)
Definition outcome (r : RuleResult.t)
    : bool * Q * Message * option string * RuleSeverity :=
  (RuleResult.passed r, RuleResult.score r, RuleResult.message r,
   RuleResult.suggestion r, RuleResult.severity r).

(** An entry of the results with another weight. *)
Definition with_weight (w : Q) (e : ResultEntry.t) : ResultEntry.t :=
  ResultEntry.mk (ResultEntry.rule_name e) (ResultEntry.rule_description e)
    (ResultEntry.passed e) (ResultEntry.score e) (ResultEntry.message e)
    (ResultEntry.suggestion e) (ResultEntry.severity e) w.

End vocabulary_weights.

(** * Properties *)

(** ** Python numerics *)

Lemma Qltb_true (x y : Q) : py.Qltb x y = true ↔ (x < y)%Q.
Proof.
  unfold py.Qltb. rewrite negb_true_iff.
  destruct (Qle_bool y x) eqn:E.
  - apply Qle_bool_iff in E. split; [discriminate | intros H].
    exfalso. exact (Qlt_not_le _ _ H E).
  - split; [intros _ | reflexivity].
    apply Qnot_le_lt. intros H. apply Qle_bool_iff in H. congruence.
Qed.

Lemma Qltb_false (x y : Q) : py.Qltb x y = false ↔ (y <= x)%Q.
Proof.
  unfold py.Qltb. rewrite negb_false_iff. apply Qle_bool_iff.
Qed.

(** ** color_analyzer *)

Section color_analyzer_properties.
Import color_analyzer.

(** C1: on pure red and pure blue the classifier does not answer "red" and
    "blue": their brightness (76.245 and 29.07) is under the thresholds 80
    and 100 of the deep variants, so it answers "deep-red"/warm and
    "deep-blue"/cold.  Black is classified as the claim says. *)
Theorem classify_primaries_evaluated :
  classify_color_type (255, 0, 0) = mkColorInfo deep_red warm
  ∧ classify_color_type (255, 0, 0) ≠ mkColorInfo red warm
  ∧ classify_color_type (0, 0, 255) = mkColorInfo deep_blue cold
  ∧ classify_color_type (0, 0, 255) ≠ mkColorInfo blue cold
  ∧ classify_color_type (0, 0, 0) = mkColorInfo black neutral.
Proof.
  repeat split; try (vm_compute; reflexivity); vm_compute; discriminate.
Qed.

(** C4: red, green, blue score 70: three colours (no deduction for the
    count), warm and cold tones without a neutral one (-15), a colour of the
    red family with one of the green family and no neutral (-15), and every
    pairwise distance is sqrt(130050), about 360.6, between 100 and 400. *)
Theorem evaluate_rgb_scores_70 :
  let colors_list := [(255, 0, 0); (0, 255, 0); (0, 0, 255)] in
  let result := evaluate_color_combo colors_list in
  score result = 70
  ∧ score result = 100 - 15 - 15
  ∧ py.len colors_list = 3
  ∧ color_types (analysis result) = Some [deep_red; green; deep_blue]
  ∧ tones (analysis result) = Some [warm; cold; cold]
  ∧ has_complementary [deep_red; green; deep_blue] = true
  ∧ deep_red ∈ [red; deep_red; pink]
  ∧ green ∈ [green; deep_green; pale_green]
  ∧ contrast_scores (analysis result)
    = Some [Sqrt 130050; Sqrt 130050; Sqrt 130050]
  ∧ Dist_ltb (Sqrt 130050) 100 = false
  ∧ Dist_gtb (Sqrt 130050) 400 = false
  ∧ 3606 ^ 2 < 130050 * 10 ^ 2 < 3607 ^ 2
  ∧ suggestions result
    = [ "符合三色原则，搭配协调";
        "冷暖色搭配时，建议加入中性色（黑/白/灰）作为过渡";
        "检测到互补色搭配，建议加入中性色（黑/白/灰）来平衡" ].
Proof.
  cbv zeta.
  repeat match goal with |- _ ∧ _ => split end;
    try (vm_compute; reflexivity).
  - unfold deep_red, red, pink. set_solver.
  - unfold green, deep_green, pale_green. set_solver.
Qed.

(** C8: no colour gives score 0 and the one suggestion that asks for a
    colour; a single colour gives score 100 and the one suggestion
    "minimalist, elegant", nothing is deducted. *)
Theorem evaluate_color_combo_edge_cases :
  score (evaluate_color_combo []) = 0
  ∧ suggestions (evaluate_color_combo []) = ["请提供至少一种颜色"]
  ∧ (1 ≤ length (suggestions (evaluate_color_combo [])))%nat
  ∧ ∀ c : Color,
      score (evaluate_color_combo [c]) = 100
      ∧ suggestions (evaluate_color_combo [c]) = ["单色搭配，简洁优雅"]
      ∧ analysis (evaluate_color_combo [c]) = mkAnalysis (Some 1) None None None.
Proof.
  repeat split; simpl; lia.
Qed.

(** The score of [evaluate_color_combo] is clamped. *)
Lemma evaluate_color_combo_score_bounds (colors_list : list Color) :
  0 ≤ score (evaluate_color_combo colors_list) ≤ 100.
Proof.
  destruct colors_list as [|c [|c' l]]; simpl; [lia | lia |].
  repeat match goal with
         | |- context [let '(_, _) := ?e in _] => destruct e
         end.
  simpl. lia.
Qed.

End color_analyzer_properties.

(** ** rule_engine: the forbidden combinations *)

Section forbidden_combo_properties.
Import rule_engine.

Lemma any_in_meets (pair names : list string) :
  color_analyzer.any_in pair names = true ↔ meets names pair.
Proof.
  unfold color_analyzer.any_in, meets. rewrite existsb_exists.
  split; intros (c & Hc & Hp); exists c.
  - apply list_elem_of_In in Hc. apply bool_decide_eq_true in Hp. done.
  - rewrite <- list_elem_of_In, bool_decide_eq_true. done.
Qed.

Lemma inter_nonempty_meets (names family : list string) :
  (list_to_set names : gset string) ∩ list_to_set family ≠ ∅
  ↔ meets names family.
Proof.
  unfold meets. split.
  - intros H. apply set_choose_L in H as [c Hc]. exists c. set_solver.
  - intros (c & ? & ?). set_solver.
Qed.

Lemma is_empty_filter_false {A} (P : A → Prop) `{∀ x, Decision (P x)}
    (l : list A) :
  is_empty (filter P l) = false ↔ ∃ x, x ∈ l ∧ P x.
Proof.
  induction l as [|a l IH]; simpl.
  - split; [discriminate | intros (x & Hx & _); inversion Hx].
  - rewrite filter_cons. destruct (decide (P a)) as [Ha | Ha]; simpl.
    + split; [intros _; exists a; split; [left | done] | done].
    + rewrite IH. split.
      * intros (x & Hx & HP). exists x. split; [by right | done].
      * intros (x & Hx & HP). apply elem_of_cons in Hx as [-> | Hx]; [done |].
        by exists x.
Qed.

(** The rule reports a violation exactly when one of its three pairs has a
    name of the list on each side. *)
Lemma violations_of_nonempty (names : list string) :
  is_empty (violations_of (list_to_set names)) = false
  ↔ (meets names ["红"; "深红"; "粉"] ∧ meets names ["绿"; "深绿"; "浅绿"])
    ∨ (meets names ["紫"; "深紫"; "浅紫"] ∧ meets names ["黄"; "浅黄"; "橙"])
    ∨ (meets names ["蓝"; "深蓝"; "浅蓝"] ∧ meets names ["橙"; "黄"; "浅黄"]).
Proof.
  unfold violations_of. rewrite is_empty_filter_false.
  rewrite <- !inter_nonempty_meets. unfold forbidden_combos. simpl.
  rewrite !(right_id_L ∅ (∪)).
  split.
  - intros (combo & Hin & H1 & H2).
    repeat (apply elem_of_cons in Hin as [-> | Hin]); simpl in *;
      [ left | right; left | right; right | inversion Hin ]; done.
  - intros [[H1 H2] | [[H1 H2] | [H1 H2]]];
      eexists (_, _); simpl; (split; [ | split; [exact H1 | exact H2]]);
      set_solver.
Qed.

(** The check of [evaluate_color_combo] succeeds exactly when one of its
    three pairs has a name of the list on each side. *)
Lemma has_complementary_meets (names : list string) :
  color_analyzer.has_complementary names = true
  ↔ (meets names ["红"; "深红"; "粉"] ∧ meets names ["绿"; "深绿"; "浅绿"])
    ∨ (meets names ["蓝"; "深蓝"; "浅蓝"] ∧ meets names ["橙"; "黄"; "浅黄"])
    ∨ (meets names ["黄"; "浅黄"] ∧ meets names ["紫"; "深紫"; "浅紫"]).
Proof.
  unfold color_analyzer.has_complementary, color_analyzer.complementary_pairs.
  simpl. rewrite !orb_true_iff, !andb_true_iff, !any_in_meets.
  unfold color_analyzer.red, color_analyzer.deep_red, color_analyzer.pink,
    color_analyzer.green, color_analyzer.deep_green, color_analyzer.pale_green,
    color_analyzer.blue, color_analyzer.deep_blue, color_analyzer.pale_blue,
    color_analyzer.orange, color_analyzer.yellow, color_analyzer.pale_yellow,
    color_analyzer.purple, color_analyzer.deep_purple,
    color_analyzer.pale_purple.
  intuition discriminate.
Qed.

Lemma meets_yellow_or_orange (names : list string) :
  meets names ["黄"; "浅黄"; "橙"] ↔ meets names ["黄"; "浅黄"] ∨ "橙" ∈ names.
Proof.
  unfold meets. split.
  - intros (c & Hc & Hf). rewrite !elem_of_cons, elem_of_nil in Hf.
    destruct Hf as [E | [E | [E | []]]]; subst c;
      [ left; exists "黄" | left; exists "浅黄" | by right ]; set_solver.
  - intros [(c & Hc & Hf) | Ho]; [exists c | exists "橙"];
      (split; [done |]); rewrite !elem_of_cons in *; tauto.
Qed.

(** What [ForbiddenColorComboRule] decides on a list of RGB colours, against
    the check of [evaluate_color_combo] on the same names. *)
Lemma forbidden_iff_complementary_or_purple_orange (names : list string) :
  is_empty (violations_of (list_to_set names)) = false
  ↔ color_analyzer.has_complementary names = true
    ∨ (meets names ["紫"; "深紫"; "浅紫"] ∧ "橙" ∈ names).
Proof.
  rewrite violations_of_nonempty, has_complementary_meets.
  rewrite meets_yellow_or_orange. tauto.
Qed.

Lemma forbidden_rule_passed (w : Q) (colors : list ColorItem)
    (styles context : option (gmap string string))
    (top bottom : option (list ColorItem)) :
  RuleResult.passed
    (evaluate (new_ForbiddenColorComboRule w)
              (OutfitData.mk (Some colors) styles context top bottom))
  = is_empty (violations_of (list_to_set (map color_name_of colors))).
Proof.
  unfold evaluate, ColorRule_evaluate,
    ForbiddenColorComboRule_evaluate_colors; simpl.
  destruct colors as [|c l]; [reflexivity |]. simpl is_empty at 1. cbv iota.
  destruct (is_empty _) eqn:E; reflexivity.
Qed.

End forbidden_combo_properties.

Section forbidden_combo_claims.
Import rule_engine.

(** C3 (as stated, refuted): on a deep purple with an orange the rule finds a
    forbidden combination, while the complementary check of
    [evaluate_color_combo] on the same two names finds no pair. *)
Lemma forbidden_rule_differs_on_purple_orange :
  let colors_list := [(128, 0, 128); (255, 165, 0)] in
  let names :=
    map (λ c, color_analyzer.name (color_analyzer.classify_color_type c))
        colors_list in
  names = [color_analyzer.deep_purple; color_analyzer.orange]
  ∧ RuleResult.passed
      (evaluate (new_ForbiddenColorComboRule 1.8)
                (OutfitData.mk (Some (map Tuple colors_list)) None None None None))
    = false
  ∧ color_analyzer.has_complementary names = false
  ∧ ¬ (RuleResult.passed
         (evaluate (new_ForbiddenColorComboRule 1.8)
            (OutfitData.mk (Some (map Tuple colors_list)) None None None None))
       = false
       ↔ color_analyzer.has_complementary names = true).
Proof.
  cbv zeta.
  assert (H1 : RuleResult.passed
      (evaluate (new_ForbiddenColorComboRule 1.8)
         (OutfitData.mk (Some (map Tuple [(128, 0, 128); (255, 165, 0)]))
                        None None None None)) = false)
    by (vm_compute; reflexivity).
  assert (H2 : color_analyzer.has_complementary
      (map (λ c, color_analyzer.name (color_analyzer.classify_color_type c))
           [(128, 0, 128); (255, 165, 0)]) = false)
    by (vm_compute; reflexivity).
  split; [vm_compute; reflexivity |]. split; [exact H1 |].
  split; [exact H2 |]. rewrite H1, H2. intros [H _].
  specialize (H eq_refl). discriminate.
Qed.

(** C3 (amended): for every list of RGB colours, the rule finds a forbidden
    combination exactly when the complementary check of
    [evaluate_color_combo] detects a pair among the same names, or the names
    hold a colour of the purple family together with orange; in particular
    whatever the check detects, the rule finds. *)
Theorem forbidden_rule_vs_complementary_check
    (colors_list : list color_analyzer.Color) (w : Q)
    (styles context : option (gmap string string))
    (top bottom : option (list ColorItem)) :
  let names :=
    map (λ c, color_analyzer.name (color_analyzer.classify_color_type c))
        colors_list in
  let result :=
    evaluate (new_ForbiddenColorComboRule w)
      (OutfitData.mk (Some (map Tuple colors_list)) styles context top bottom) in
  (RuleResult.passed result = false
   ↔ color_analyzer.has_complementary names = true
     ∨ (color_analyzer.any_in
          [color_analyzer.purple; color_analyzer.deep_purple;
           color_analyzer.pale_purple] names = true
        ∧ color_analyzer.orange ∈ names))
  ∧ (color_analyzer.has_complementary names = true
     → RuleResult.passed result = false).
Proof.
  cbv zeta. rewrite forbidden_rule_passed, map_map. simpl.
  rewrite forbidden_iff_complementary_or_purple_orange, any_in_meets.
  split; [reflexivity | tauto].
Qed.

End forbidden_combo_claims.

Lemma forbidden_rule_vs_complementary_check_witness :
  let colors_list := [(255, 0, 0); (0, 255, 0)] in
  color_analyzer.has_complementary
    (map (λ c, color_analyzer.name (color_analyzer.classify_color_type c))
         colors_list) = true
  ∧ rule_engine.RuleResult.passed
      (rule_engine.evaluate (rule_engine.new_ForbiddenColorComboRule 1.8)
         (rule_engine.OutfitData.mk (Some (map rule_engine.Tuple colors_list))
                                    None None None None)) = false.
Proof.
  split; [vm_compute; reflexivity |].
  apply (forbidden_rule_vs_complementary_check
           [(255, 0, 0); (0, 255, 0)] 1.8 None None None None).
  vm_compute; reflexivity.
Defined.

(** ** rule_engine: style coordination *)

Section style_coordination_properties.
Import rule_engine.

Lemma get_style_type_cases (style : string) :
  get_style_type style = "formal" ∨ get_style_type style = "casual"
  ∨ get_style_type style = "unknown".
Proof.
  unfold get_style_type.
  destruct (bool_decide _); [by left |].
  destruct (bool_decide _); [right; by left | right; by right].
Qed.

Ltac style_cases styles :=
  unfold distinct_types, StyleCoordinationRule_evaluate_styles, known_types;
  destruct (get_style_type_cases (default "" (styles !! "top"))) as [-> | [-> | ->]];
  destruct (get_style_type_cases (default "" (styles !! "bottom"))) as [-> | [-> | ->]];
  destruct (get_style_type_cases (default "" (styles !! "shoes"))) as [-> | [-> | ->]].

(** What [_evaluate_styles] returns, by the number of distinct types. *)
Lemma style_result_by_distinct_types (w : Q) (styles : gmap string string)
    (d : OutfitData.t) :
  let result := StyleCoordinationRule_evaluate_styles w styles d in
  (distinct_types styles = 0%nat
   ∧ result = RuleResult.mk true 100 (Text "无法判断款式风格") None INFO w)
  ∨ (distinct_types styles = 1%nat
     ∧ result = RuleResult.mk true 100 (Text "款式风格协调统一") None INFO w)
  ∨ (distinct_types styles = 2%nat
     ∧ result = RuleResult.mk true 70 (Text "款式风格部分混合，基本协调")
                  (Some "建议统一风格以获得更好的视觉效果") WARNING w).
Proof.
  cbv zeta. style_cases styles;
    first [ left; split; vm_compute; reflexivity
          | right; left; split; vm_compute; reflexivity
          | right; right; split; vm_compute; reflexivity ].
Qed.

Lemma two_types_iff_formal_and_casual (styles : gmap string string) :
  distinct_types styles = 2%nat
  ↔ "formal" ∈ known_types styles ∧ "casual" ∈ known_types styles.
Proof.
  style_cases styles;
    match goal with
    | |- size (list_to_set ?l) = _ ↔ _ =>
        let l' := eval vm_compute in l in
        let n := eval vm_compute in (size (list_to_set l : gset string)) in
        change l with l';
        change (size (list_to_set l' : gset string)) with n
    end;
    rewrite ?elem_of_cons, ?elem_of_nil;
    split; intros H; try discriminate H; try reflexivity;
    intuition (try discriminate; auto).
Qed.


End style_coordination_properties.

Section style_coordination_claims.
Import rule_engine.



End style_coordination_claims.

(** ** rule_engine: the rule library *)

Section rule_library_properties.
Import rule_engine.

Lemma object_update (l l' : loc) (f : BaseRule.t → BaseRule.t) (h : Heap.t) :
  Heap.object (Heap.update l f h) l'
  = if decide (l = l') then f (Heap.object h l) else Heap.object h l'.
Proof.
  unfold Heap.update. simpl. destruct (decide (l = l')) as [-> | Hne].
  - apply fn_lookup_insert.
  - by apply fn_lookup_insert_ne.
Qed.

Lemma name_update_enabled (l l' : loc) (b : bool) (h : Heap.t) :
  BaseRule.name (Heap.object (Heap.update l (BaseRule.set_enabled b) h) l')
  = BaseRule.name (Heap.object h l').
Proof.
  rewrite object_update. destruct (decide (l = l')) as [-> | ?]; reflexivity.
Qed.

Lemma names_enable_rule (x : string) (lib : RuleLibrary.t) (h : Heap.t) :
  names lib (RuleLibrary.enable_rule x lib h) = names lib h.
Proof.
  unfold RuleLibrary.enable_rule, names.
  destruct (RuleLibrary.get_rule x lib h); [| reflexivity].
  apply map_ext. intros r. apply name_update_enabled.
Qed.

Lemma names_disable_rule (x : string) (lib : RuleLibrary.t) (h : Heap.t) :
  names lib (RuleLibrary.disable_rule x lib h) = names lib h.
Proof.
  unfold RuleLibrary.disable_rule, names.
  destruct (RuleLibrary.get_rule x lib h); [| reflexivity].
  apply map_ext. intros r. apply name_update_enabled.
Qed.

Lemma names_remove_rule (x : string) (lib : RuleLibrary.t) (h : Heap.t) :
  names (RuleLibrary.remove_rule x lib h) h = filter (λ n, n ≠ x) (names lib h).
Proof.
  unfold names, RuleLibrary.remove_rule. simpl.
  induction (RuleLibrary.rules lib) as [|r l IH]; [reflexivity |].
  rewrite filter_cons. simpl. rewrite filter_cons.
  destruct (decide (BaseRule.name (Heap.object h r) ≠ x)); simpl;
    by rewrite IH.
Qed.

Lemma names_add_rule (r : loc) (lib : RuleLibrary.t) (h : Heap.t) :
  names (RuleLibrary.add_rule r lib) h
  = names lib h ++ [BaseRule.name (Heap.object h r)].
Proof. unfold names, RuleLibrary.add_rule. simpl. by rewrite map_app. Qed.

(** The five objects that the constructor of the library creates. *)
Lemma default_library (h : Heap.t) :
  let n := Heap.next h in
  let '(lib, h') := RuleLibrary.__init__ h in
  RuleLibrary.rules lib = [n; S n; S (S n); S (S (S n)); S (S (S (S n)))]
  ∧ Heap.object h' n = new_ThreeColorRule 3 1.5
  ∧ Heap.object h' (S n) = new_LightTopDarkBottomRule 1.2
  ∧ Heap.object h' (S (S n)) = new_ForbiddenColorComboRule 1.8
  ∧ Heap.object h' (S (S (S n))) = new_StyleCoordinationRule 1.5
  ∧ Heap.object h' (S (S (S (S n)))) = new_ContextAppropriateRule 1.3.
Proof.
  unfold RuleLibrary.__init__, RuleLibrary._load_default_rules, Heap.alloc.
  simpl. split; [reflexivity |].
  repeat split;
    repeat first [ apply fn_lookup_insert
                 | rewrite fn_lookup_insert_ne by lia ].
Qed.

Lemma names_default_library (h : Heap.t) :
  names (RuleLibrary.__init__ h).1 (RuleLibrary.__init__ h).2
  = ["三色原则"; "上浅下深原则"; "禁忌颜色组合"; "款式协调"; "场景适宜"].
Proof.
  pose proof (default_library h) as H. cbv zeta in H.
  destruct (RuleLibrary.__init__ h) as [lib h'].
  destruct H as (Hr & H1 & H2 & H3 & H4 & H5).
  unfold names. simpl. rewrite Hr. simpl.
  rewrite H1, H2, H3, H4, H5. reflexivity.
Qed.

Lemma get_rule_Some (x : string) (lib : RuleLibrary.t) (h : Heap.t) (r : loc) :
  RuleLibrary.get_rule x lib h = Some r →
  r ∈ RuleLibrary.rules lib ∧ BaseRule.name (Heap.object h r) = x.
Proof.
  unfold RuleLibrary.get_rule. intros H. apply find_some in H as [Hin Hn].
  apply list_elem_of_In in Hin. apply bool_decide_eq_true in Hn. done.
Qed.

Lemma names_unique_rules (lib : RuleLibrary.t) (h : Heap.t) :
  names_unique lib h → NoDup (RuleLibrary.rules lib).
Proof. unfold names_unique, names. apply NoDup_fmap_1. Qed.

Lemma filter_ext_elem_of {A} (P P' : A → Prop)
    `{∀ x, Decision (P x)} `{∀ x, Decision (P' x)} (l : list A) :
  (∀ x, x ∈ l → (P x ↔ P' x)) → filter P l = filter P' l.
Proof.
  induction l as [|a l IH]; intros Hiff; [reflexivity |].
  rewrite !filter_cons.
  rewrite IH by (intros x Hx; apply Hiff; by right).
  destruct (decide (P a)) as [Hp | Hp].
  - rewrite decide_True; [done | apply Hiff; [left | done]].
  - rewrite decide_False; [done |]. rewrite <- Hiff; [done | left].
Qed.

(** Flipping a predicate at one element that occurs once. *)
Lemma length_filter_flip {A} (P P' : A → Prop)
    `{∀ x, Decision (P x)} `{∀ x, Decision (P' x)} (l : list A) (r : A) :
  NoDup l → r ∈ l → (∀ x, x ≠ r → (P x ↔ P' x)) → P r → ¬ P' r →
  length (filter P l) = S (length (filter P' l)).
Proof.
  intros Hnd Hin Hother Hr Hr'.
  induction l as [|a l IH]; [inversion Hin |].
  apply NoDup_cons in Hnd as [Ha Hnd]. rewrite !filter_cons.
  apply elem_of_cons in Hin as [<- | Hin].
  - rewrite decide_True by done. rewrite (decide_False (P:=P' r)) by done.
    simpl. f_equal. f_equal. apply filter_ext_elem_of.
    intros x Hx. apply Hother. intros ->. done.
  - assert (Hne : a ≠ r) by (intros ->; done).
    specialize (IH Hnd Hin).
    destruct (decide (P a)) as [Hp | Hp].
    + rewrite decide_True by (by apply Hother). simpl. by rewrite IH.
    + rewrite decide_False by (by rewrite <- Hother). done.
Qed.

End rule_library_properties.

Section rule_library_claims.
Import rule_engine.

(** C7 (as stated, refuted): in the library as constructed the names are
    unique, and [add_rule] with a second three-colour rule leaves two rules
    of the same name in it. *)
Lemma add_rule_duplicates_a_name :
  let lib := (RuleLibrary.__init__ Heap.empty).1 in
  let h := (RuleLibrary.__init__ Heap.empty).2 in
  let r := (Heap.alloc (new_ThreeColorRule 3 1.5) h).1 in
  let h' := (Heap.alloc (new_ThreeColorRule 3 1.5) h).2 in
  names_unique lib h'
  ∧ names (RuleLibrary.add_rule r lib) h'
    = ["三色原则"; "上浅下深原则"; "禁忌颜色组合"; "款式协调"; "场景适宜"; "三色原则"]
  ∧ ¬ names_unique (RuleLibrary.add_rule r lib) h'.
Proof.
  cbv zeta. unfold names_unique. split; [| split].
  - apply (bool_decide_unpack _). vm_compute. exact I.
  - vm_compute. reflexivity.
  - intros H. apply (bool_decide_pack _) in H. vm_compute in H. exact H.
Qed.

(** C7 (amended): the constructor yields unique names, and [remove_rule],
    [enable_rule] and [disable_rule] keep the names unique; [add_rule] keeps
    them unique exactly when the name of the added rule is not yet in the
    library. *)
Theorem library_operations_and_unique_names (lib : RuleLibrary.t) (h : Heap.t)
    (Huniq : names_unique lib h) :
  (∀ h0, names_unique (RuleLibrary.__init__ h0).1 (RuleLibrary.__init__ h0).2)
  ∧ (∀ x, names_unique (RuleLibrary.remove_rule x lib h) h)
  ∧ (∀ x, names_unique lib (RuleLibrary.enable_rule x lib h))
  ∧ (∀ x, names_unique lib (RuleLibrary.disable_rule x lib h))
  ∧ (∀ r, names_unique (RuleLibrary.add_rule r lib) h
          ↔ BaseRule.name (Heap.object h r) ∉ names lib h).
Proof.
  unfold names_unique in *. repeat split.
  - intros h0. rewrite names_default_library.
    apply (bool_decide_unpack _). vm_compute. exact I.
  - intros x. rewrite names_remove_rule. by apply NoDup_filter.
  - intros x. by rewrite names_enable_rule.
  - intros x. by rewrite names_disable_rule.
  - rewrite names_add_rule. intros Hnd Hin.
    apply NoDup_app in Hnd as (_ & Hdisj & _).
    apply (Hdisj _ Hin). by left.
  - intros Hnew. rewrite names_add_rule. apply NoDup_app.
    split; [done |]. split; [| apply NoDup_singleton].
    intros n Hn Hn'. apply list_elem_of_singleton in Hn'. by subst n.
Qed.

Lemma library_operations_and_unique_names_witness :
  let lib := (RuleLibrary.__init__ Heap.empty).1 in
  let h := (RuleLibrary.__init__ Heap.empty).2 in
  names_unique lib h
  ∧ names_unique (RuleLibrary.remove_rule "款式协调" lib h) h
  ∧ names_unique lib (RuleLibrary.disable_rule "款式协调" lib h).
Proof.
  cbv zeta.
  assert (H : names_unique (RuleLibrary.__init__ Heap.empty).1
                           (RuleLibrary.__init__ Heap.empty).2).
  { unfold names_unique. apply (bool_decide_unpack _). vm_compute.
    exact I. }
  split; [exact H |].
  split; apply (library_operations_and_unique_names _ _ H).
Defined.

(** C9 (as stated, refuted): in the library as constructed, disabling a name
    that no rule has changes nothing; disabling a rule that is already
    disabled changes nothing, and enabling it afterwards does not restore the
    enabled rules; and when one rule object is registered twice, disabling it
    changes the number of enabled rules by two. *)
Lemma disable_rule_not_always_one :
  let lib := (RuleLibrary.__init__ Heap.empty).1 in
  let h := (RuleLibrary.__init__ Heap.empty).2 in
  let enabled_count lib h := length (RuleLibrary.get_enabled_rules lib h) in
  (enabled_count lib h = 5%nat
   ∧ enabled_count lib (RuleLibrary.disable_rule "五色原则" lib h) = 5%nat)
  ∧ (let h1 := RuleLibrary.disable_rule "三色原则" lib h in
     enabled_count lib h1 = 4%nat
     ∧ enabled_count lib (RuleLibrary.disable_rule "三色原则" lib h1) = 4%nat
     ∧ RuleLibrary.get_enabled_rules lib
         (RuleLibrary.enable_rule "三色原则" lib
            (RuleLibrary.disable_rule "三色原则" lib h1))
       ≠ RuleLibrary.get_enabled_rules lib h1)
  ∧ (let lib2 := RuleLibrary.add_rule 0%nat lib in
     enabled_count lib2 h = 6%nat
     ∧ enabled_count lib2 (RuleLibrary.disable_rule "三色原则" lib2 h) = 4%nat).
Proof.
  cbv zeta. repeat split; try (vm_compute; reflexivity).
  vm_compute. discriminate.
Qed.

End rule_library_claims.

Section toggle_properties.
Import rule_engine.

Lemma get_rule_update_enabled (x : string) (lib : RuleLibrary.t) (h : Heap.t)
    (l : loc) (b : bool) :
  RuleLibrary.get_rule x lib (Heap.update l (BaseRule.set_enabled b) h)
  = RuleLibrary.get_rule x lib h.
Proof.
  unfold RuleLibrary.get_rule.
  induction (RuleLibrary.rules lib) as [|a rs IH]; [reflexivity |].
  cbn [List.find]. rewrite name_update_enabled, IH. reflexivity.
Qed.

Lemma enabled_update (l l' : loc) (b : bool) (h : Heap.t) :
  BaseRule.enabled (Heap.object (Heap.update l (BaseRule.set_enabled b) h) l')
  = if decide (l = l') then b else BaseRule.enabled (Heap.object h l').
Proof.
  rewrite object_update. destruct (decide (l = l')); reflexivity.
Qed.

(** Setting the flag of an object to the opposite value and back gives the
    object back. *)
Lemma set_enabled_back (b : bool) (r : loc) (h : Heap.t) (l : loc) :
  BaseRule.enabled (Heap.object h r) = b →
  Heap.object
    (Heap.update r (BaseRule.set_enabled b)
       (Heap.update r (BaseRule.set_enabled (negb b)) h)) l
  = Heap.object h l.
Proof.
  intros Hb. rewrite !object_update.
  destruct (decide (r = l)) as [-> | Hne]; [| reflexivity].
  rewrite decide_True by reflexivity.
  destruct (Heap.object h l) as [n d w e c]. simpl in Hb. subst e.
  reflexivity.
Qed.

(** One call that flips the flag of the rule found, in a library with unique
    names, and the opposite call after it. *)
Lemma flip_and_back (b : bool) (lib : RuleLibrary.t) (h : Heap.t) (x : string)
    (r : loc) :
  RuleLibrary.get_rule x lib h = Some r →
  names_unique lib h →
  BaseRule.enabled (Heap.object h r) = b →
  let h1 := Heap.update r (BaseRule.set_enabled (negb b)) h in
  let h2 := Heap.update r (BaseRule.set_enabled b) h1 in
  (if b
   then length (RuleLibrary.get_enabled_rules lib h)
        = S (length (RuleLibrary.get_enabled_rules lib h1))
   else length (RuleLibrary.get_enabled_rules lib h1)
        = S (length (RuleLibrary.get_enabled_rules lib h)))
  ∧ RuleLibrary.get_enabled_rules lib h2 = RuleLibrary.get_enabled_rules lib h
  ∧ ∀ l, Heap.object h2 l = Heap.object h l.
Proof.
  intros Hget Huniq Hb h1 h2.
  apply get_rule_Some in Hget as [Hin Hname].
  apply names_unique_rules in Huniq.
  assert (Hback : ∀ l, Heap.object h2 l = Heap.object h l)
    by (intros l; by apply set_enabled_back).
  split; [| split; [| exact Hback]].
  - unfold RuleLibrary.get_enabled_rules. destruct b; simpl in h1.
    + apply (length_filter_flip _ _ _ r); try done.
      * intros l Hl. unfold h1. rewrite enabled_update.
        by rewrite decide_False.
      * unfold h1. rewrite enabled_update. rewrite decide_True by done.
        discriminate.
    + apply (length_filter_flip _ _ _ r); try done.
      * intros l Hl. unfold h1. rewrite enabled_update.
        by rewrite decide_False.
      * unfold h1. rewrite enabled_update. by rewrite decide_True.
      * rewrite Hb. discriminate.
  - unfold RuleLibrary.get_enabled_rules. apply filter_ext_elem_of.
    intros l _. by rewrite Hback.
Qed.

End toggle_properties.

Section toggle_claims.
Import rule_engine.

(** C9 (amended): in a library whose rule names are unique, for the name of
    a registered rule: if that rule is enabled, disabling it makes the list
    of enabled rules one shorter, and enabling it afterwards restores the
    list and every rule object; if that rule is disabled, enabling it makes
    the list one longer, and disabling it afterwards restores the list and
    every rule object. *)
Theorem toggle_rule_and_back (lib : RuleLibrary.t) (h : Heap.t) (x : string)
    (r : loc)
    (Hget : RuleLibrary.get_rule x lib h = Some r)
    (Huniq : names_unique lib h) :
  (BaseRule.enabled (Heap.object h r) = true →
   let h1 := RuleLibrary.disable_rule x lib h in
   let h2 := RuleLibrary.enable_rule x lib h1 in
   length (RuleLibrary.get_enabled_rules lib h)
   = S (length (RuleLibrary.get_enabled_rules lib h1))
   ∧ RuleLibrary.get_enabled_rules lib h2 = RuleLibrary.get_enabled_rules lib h
   ∧ ∀ l, Heap.object h2 l = Heap.object h l)
  ∧ (BaseRule.enabled (Heap.object h r) = false →
     let h1 := RuleLibrary.enable_rule x lib h in
     let h2 := RuleLibrary.disable_rule x lib h1 in
     length (RuleLibrary.get_enabled_rules lib h1)
     = S (length (RuleLibrary.get_enabled_rules lib h))
     ∧ RuleLibrary.get_enabled_rules lib h2
       = RuleLibrary.get_enabled_rules lib h
     ∧ ∀ l, Heap.object h2 l = Heap.object h l).
Proof.
  split; intros Hb; cbv zeta;
    unfold RuleLibrary.enable_rule, RuleLibrary.disable_rule;
    rewrite ?get_rule_update_enabled, Hget;
    rewrite ?get_rule_update_enabled, Hget.
  - exact (flip_and_back true lib h x r Hget Huniq Hb).
  - exact (flip_and_back false lib h x r Hget Huniq Hb).
Qed.

Lemma toggle_rule_and_back_witness :
  let lib := (RuleLibrary.__init__ Heap.empty).1 in
  let h := (RuleLibrary.__init__ Heap.empty).2 in
  let h1 := RuleLibrary.disable_rule "三色原则" lib h in
  (RuleLibrary.get_rule "三色原则" lib h = Some 0%nat
   ∧ names_unique lib h
   ∧ BaseRule.enabled (Heap.object h 0%nat) = true)
  ∧ length (RuleLibrary.get_enabled_rules lib h)
    = S (length (RuleLibrary.get_enabled_rules lib h1))
  ∧ RuleLibrary.get_enabled_rules lib (RuleLibrary.enable_rule "三色原则" lib h1)
    = RuleLibrary.get_enabled_rules lib h.
Proof.
  cbv zeta.
  assert (Hget : RuleLibrary.get_rule "三色原则"
                   (RuleLibrary.__init__ Heap.empty).1
                   (RuleLibrary.__init__ Heap.empty).2 = Some 0%nat)
    by (vm_compute; reflexivity).
  assert (Huniq : names_unique (RuleLibrary.__init__ Heap.empty).1
                               (RuleLibrary.__init__ Heap.empty).2).
  { unfold names_unique. apply (bool_decide_unpack _). vm_compute. exact I. }
  assert (Hen : BaseRule.enabled
                  (Heap.object (RuleLibrary.__init__ Heap.empty).2 0%nat) = true)
    by (vm_compute; reflexivity).
  split; [split; [exact Hget | split; [exact Huniq | exact Hen]] |].
  destruct (toggle_rule_and_back _ _ _ _ Hget Huniq) as [Hdis _].
  destruct (Hdis Hen) as (Hlen & Hsame & _).
  split; [exact Hlen | exact Hsame].
Defined.

End toggle_claims.

(** ** Rounding *)

Section rounding_properties.

Lemma round_half_even_comp (x y : Q) :
  (x == y)%Q → py.round_half_even x = py.round_half_even y.
Proof.
  intros E. unfold py.round_half_even.
  assert (Ef : Qfloor x = Qfloor y).
  { apply Z.le_antisymm; apply Qfloor_resp_le; rewrite E; apply Qle_refl. }
  rewrite Ef.
  assert (Ec : ((x - inject_Z (Qfloor y)) ?= 1 # 2)%Q
               = ((y - inject_Z (Qfloor y)) ?= 1 # 2)%Q)
    by (apply Qcompare_comp; [rewrite E |]; reflexivity).
  rewrite Ec. reflexivity.
Qed.

Lemma round_comp (x y : Q) (ndigits : nat) :
  (x == y)%Q → py.round x ndigits = py.round y ndigits.
Proof.
  intros E. unfold py.round.
  rewrite (round_half_even_comp (x * inject_Z (10 ^ Z.of_nat ndigits))
                                (y * inject_Z (10 ^ Z.of_nat ndigits)));
    [reflexivity |].
  rewrite E. reflexivity.
Qed.

(** Rounding to an integer stays between integer bounds. *)
Lemma round_half_even_bounds (a b : Z) (x : Q) :
  (inject_Z a <= x)%Q → (x <= inject_Z b)%Q →
  a ≤ py.round_half_even x ≤ b.
Proof.
  intros Ha Hb.
  assert (Hfa : a ≤ Qfloor x)
    by (rewrite <- (Qfloor_Z a); by apply Qfloor_resp_le).
  assert (Hfb : Qfloor x ≤ b)
    by (rewrite <- (Qfloor_Z b); by apply Qfloor_resp_le).
  assert (Hup : (0 < x - inject_Z (Qfloor x))%Q → Qfloor x + 1 ≤ b).
  { intros Hpos. cut (Qfloor x < b); [lia |]. rewrite Zlt_Qlt.
    apply Qlt_le_trans with x; [| exact Hb]. lra. }
  unfold py.round_half_even.
  destruct (Qcompare_spec (x - inject_Z (Qfloor x)) (1 # 2)) as [E | L | G].
  - destruct (Z.even (Qfloor x)); [lia |].
    split; [lia |]. apply Hup. rewrite E. reflexivity.
  - lia.
  - split; [lia |]. apply Hup. lra.
Qed.

Lemma round_bounds_0_100 (x : Q) :
  (0 <= x)%Q → (x <= 100)%Q →
  (0 <= py.round x 2)%Q ∧ (py.round x 2 <= 100)%Q.
Proof.
  intros H0 H100. unfold py.round.
  change (10 ^ Z.of_nat 2) with 100.
  destruct (round_half_even_bounds 0 10000 (x * inject_Z 100)) as [Hlo Hhi].
  - change (inject_Z 0) with 0%Q. change (inject_Z 100) with 100%Q. lra.
  - change (inject_Z 10000) with 10000%Q. change (inject_Z 100) with 100%Q.
    lra.
  - rewrite Zle_Qle in Hlo, Hhi.
    set (n := inject_Z (py.round_half_even (x * inject_Z 100))) in *.
    change (inject_Z 0) with 0%Q in Hlo.
    change (inject_Z 10000) with 10000%Q in Hhi.
    change (inject_Z 100) with 100%Q.
    split.
    + apply Qle_shift_div_l; lra.
    + apply Qle_shift_div_r; lra.
Qed.



Lemma round_zero : (py.round 0 2 == 0)%Q.
Proof. vm_compute. reflexivity. Qed.

Lemma Qltb_comp (x y y' : Q) : (y == y')%Q → py.Qltb x y = py.Qltb x y'.
Proof.
  intros E. destruct (py.Qltb x y') eqn:H.
  - apply Qltb_true. apply Qltb_true in H. by rewrite E.
  - apply Qltb_false. apply Qltb_false in H. by rewrite E.
Qed.

End rounding_properties.

(** ** rule_engine: the aggregate score *)

Section aggregate_properties.
Import rule_engine.

(** The loop over the enabled rules accumulates the two sums, and the
    entries of the results in the order of the rules. *)
Lemma fold_evaluate_rule (h : Heap.t) (d : OutfitData.t) (rs : list loc) :
  ∀ (entries : list ResultEntry.t) (s w : Q),
    ∃ s' w',
      fold_left (RuleEvaluator.evaluate_rule h d) rs (entries, s, w)
      = (entries ++ map (entry_of h d) rs, s', w')
      ∧ (s' == s + weighted_sum (scored h d rs))%Q
      ∧ (w' == w + total_weight (scored h d rs))%Q.
Proof.
  induction rs as [|r rs IH]; intros entries s w.
  - exists s, w. simpl. rewrite app_nil_r. repeat split; ring.
  - cbn [fold_left]. unfold RuleEvaluator.evaluate_rule at 2.
    fold (entry_of h d r).
    destruct (IH (entries ++ [entry_of h d r])
       (s + RuleResult.score (evaluate (Heap.object h r) d)
            * BaseRule.weight (Heap.object h r))%Q
       (w + BaseRule.weight (Heap.object h r))%Q)
      as (s' & w' & Hfold & Hs & Hw).
    exists s', w'. split; [| split].
    + rewrite Hfold. cbn [map]. by rewrite <- app_assoc.
    + rewrite Hs. simpl. ring.
    + rewrite Hw. simpl. ring.
Qed.

(** The score of the report, over the sums of the specification, and the
    results, one entry for each enabled rule in registration order. *)
Lemma report_score (self : RuleEvaluator.t) (h : Heap.t)
    (colors : option (list ColorItem))
    (styles context : option (gmap string string))
    (top bottom : option (list ColorItem)) :
  let d := RuleEvaluator.build_outfit_data colors styles context top bottom in
  let enabled :=
    RuleLibrary.get_enabled_rules (RuleEvaluator.rule_library self) h in
  let sw := scored h d enabled in
  Report.score
    (RuleEvaluator.evaluate_outfit self h colors styles context top bottom)
  = py.round (if py.Qltb 0 (total_weight sw) then weighted_average sw else 0) 2
  ∧ Report.results
      (RuleEvaluator.evaluate_outfit self h colors styles context top bottom)
    = map (entry_of h d) enabled.
Proof.
  cbv zeta. unfold RuleEvaluator.evaluate_outfit.
  destruct (fold_evaluate_rule h
              (RuleEvaluator.build_outfit_data colors styles context top bottom)
              (RuleLibrary.get_enabled_rules (RuleEvaluator.rule_library self) h)
              [] 0%Q 0%Q)
    as (s & w & -> & Hs & Hw).
  destruct (fold_left RuleEvaluator.collect _ _) as [[sugg e] wn].
  cbn [Report.score Report.results]. split; [| reflexivity].
  rewrite Qplus_0_l in Hs, Hw.
  rewrite (Qltb_comp 0 w _ Hw). apply round_comp.
  destruct (py.Qltb 0 _); [| reflexivity].
  unfold weighted_average. rewrite Hs, Hw. reflexivity.
Qed.

(** Positive weights and scores between 0 and 100 bound the two sums. *)
Lemma weighted_sum_bounds (sw : list (Q * Q)) :
  (∀ p, p ∈ sw → (0 < p.2 ∧ 0 <= p.1 ∧ p.1 <= 100)%Q) →
  (0 <= weighted_sum sw)%Q
  ∧ (weighted_sum sw <= 100 * total_weight sw)%Q
  ∧ (0 <= total_weight sw)%Q
  ∧ (sw ≠ [] → (0 < total_weight sw)%Q).
Proof.
  induction sw as [|[s w] sw IH]; intros Hall.
  - simpl. repeat split; try lra. done.
  - destruct IH as (H1 & H2 & H3 & _).
    { intros p Hp. apply Hall. by right. }
    destruct (Hall (s, w)) as (Hw & Hs0 & Hs100); [left |]. simpl in *.
    assert (0 <= s * w)%Q by (apply Qmult_le_0_compat; lra).
    assert (s * w <= 100 * w)%Q by (apply Qmult_le_compat_r; lra).
    repeat split; try lra.
Qed.


Lemma weighted_average_bounds (sw : list (Q * Q)) :
  (∀ p, p ∈ sw → (0 < p.2 ∧ 0 <= p.1 ∧ p.1 <= 100)%Q) →
  let overall :=
    if py.Qltb 0 (total_weight sw) then weighted_average sw else 0%Q in
  (0 <= overall)%Q ∧ (overall <= 100)%Q.
Proof.
  intros Hall. destruct (weighted_sum_bounds sw Hall) as (H1 & H2 & H3 & _).
  cbv zeta. destruct (py.Qltb 0 (total_weight sw)) eqn:Hpos.
  - apply Qltb_true in Hpos. unfold weighted_average. split.
    + apply Qle_shift_div_l; [done | lra].
    + apply Qle_shift_div_r; [done | lra].
  - split; lra.
Qed.

End aggregate_properties.

(** ** rule_engine: the scores of the five concrete rules *)

Section concrete_rule_properties.
Import rule_engine.

(** A branch that returns a literal score. *)
Ltac constant_score := split; cbn [RuleResult.score]; lra.

Lemma ColorRule_evaluate_bounds f (d : OutfitData.t) :
  (∀ colors, in_0_100 (f colors d)) → in_0_100 (ColorRule_evaluate f d).
Proof.
  intros Hf. unfold ColorRule_evaluate.
  destruct (is_empty _); [| apply Hf]. split; simpl; lra.
Qed.

Lemma StyleRule_evaluate_bounds f (d : OutfitData.t) :
  (∀ styles, in_0_100 (f styles d)) → in_0_100 (StyleRule_evaluate f d).
Proof.
  intros Hf. unfold StyleRule_evaluate.
  destruct (bool_decide _); [| apply Hf]. split; simpl; lra.
Qed.

Lemma ContextRule_evaluate_bounds f (d : OutfitData.t) :
  (∀ context, in_0_100 (f context d)) → in_0_100 (ContextRule_evaluate f d).
Proof.
  intros Hf. unfold ContextRule_evaluate.
  destruct (bool_decide _); [| apply Hf]. split; simpl; lra.
Qed.

Lemma ThreeColorRule_bounds (max_colors : Z) (w : Q) colors (d : OutfitData.t) :
  in_0_100 (ThreeColorRule_evaluate_colors max_colors w colors d).
Proof.
  unfold ThreeColorRule_evaluate_colors, in_0_100.
  destruct (Z.leb_spec (py.len (main_colors_of colors)) max_colors) as [Hle | Hgt];
    simpl; [split; lra |].
  change 0%Q with (inject_Z 0). change 100%Q with (inject_Z 100).
  rewrite <- !Zle_Qle. lia.
Qed.

Lemma LightTopDarkBottomRule_bounds (w : Q) colors (d : OutfitData.t) :
  in_0_100 (LightTopDarkBottomRule_evaluate_colors w colors d).
Proof.
  unfold LightTopDarkBottomRule_evaluate_colors, in_0_100.
  set (t := average_brightness (default [] (OutfitData.top_colors d))).
  set (b := average_brightness (default [] (OutfitData.bottom_colors d))).
  destruct (_ || _); [split; simpl; lra |].
  destruct (py.Qgeb t b) eqn:Hge; [split; simpl; lra |].
  assert (Hlt : (t < b)%Q).
  { apply Qnot_le_lt. intros Hle. apply Qle_bool_iff in Hle.
    unfold py.Qgeb in Hge. congruence. }
  cbn [RuleResult.score]. unfold py.Qmax.
  destruct (py.Qltb 0 (100 - (b - t) / 2)) eqn:Hpos.
  - apply Qltb_true in Hpos. split; [lra |].
    assert (0 <= (b - t) / 2)%Q by (apply Qle_shift_div_l; lra). lra.
  - split; lra.
Qed.

Lemma ForbiddenColorComboRule_bounds (w : Q) colors (d : OutfitData.t) :
  in_0_100 (ForbiddenColorComboRule_evaluate_colors w colors d).
Proof.
  unfold ForbiddenColorComboRule_evaluate_colors, in_0_100.
  destruct (is_empty _); constant_score.
Qed.

Lemma StyleCoordinationRule_bounds (w : Q) styles (d : OutfitData.t) :
  in_0_100 (StyleCoordinationRule_evaluate_styles w styles d).
Proof.
  unfold StyleCoordinationRule_evaluate_styles, in_0_100.
  destruct (is_empty _); [constant_score |].
  destruct (_ =? _)%nat; [constant_score |].
  destruct (_ =? _)%nat; constant_score.
Qed.

Lemma ContextAppropriateRule_bounds (w : Q) context (d : OutfitData.t) :
  in_0_100 (ContextAppropriateRule_evaluate_context w context d).
Proof.
  unfold ContextAppropriateRule_evaluate_context, in_0_100.
  repeat (destruct (bool_decide _); [constant_score |]).
  destruct (_ || _); [constant_score |].
  destruct (bool_decide _); constant_score.
Qed.

(** Every rule of one of the five concrete classes scores in [0, 100]. *)
Lemma concrete_rule_bounds (self : BaseRule.t) (d : OutfitData.t) :
  is_concrete (BaseRule.class self) = true → in_0_100 (evaluate self d).
Proof.
  unfold evaluate. destruct (BaseRule.class self); simpl; try discriminate;
    intros _.
  - apply ColorRule_evaluate_bounds. intros. apply ThreeColorRule_bounds.
  - apply ColorRule_evaluate_bounds. intros. apply LightTopDarkBottomRule_bounds.
  - apply ColorRule_evaluate_bounds. intros. apply ForbiddenColorComboRule_bounds.
  - apply StyleRule_evaluate_bounds. intros. apply StyleCoordinationRule_bounds.
  - apply ContextRule_evaluate_bounds. intros. apply ContextAppropriateRule_bounds.
Qed.

(** An evaluator whose enabled rules are of the concrete classes, with
    positive weights, reports a score in [0, 100]. *)
Lemma evaluate_outfit_bounds (self : RuleEvaluator.t) (h : Heap.t)
    (colors : option (list ColorItem))
    (styles context : option (gmap string string))
    (top bottom : option (list ColorItem)) :
  (∀ r, r ∈ RuleLibrary.get_enabled_rules (RuleEvaluator.rule_library self) h →
        (0 < BaseRule.weight (Heap.object h r))%Q
        ∧ is_concrete (BaseRule.class (Heap.object h r)) = true) →
  let report :=
    RuleEvaluator.evaluate_outfit self h colors styles context top bottom in
  (0 <= Report.score report)%Q ∧ (Report.score report <= 100)%Q.
Proof.
  intros Hall. cbv zeta.
  destruct (report_score self h colors styles context top bottom) as [-> _].
  apply round_bounds_0_100; apply weighted_average_bounds;
    intros p Hp; unfold scored in Hp; apply list_elem_of_fmap in Hp;
    destruct Hp as (r & -> & Hr); destruct (Hall r Hr) as [Hw Hc]; simpl;
    (split; [exact Hw | by apply concrete_rule_bounds]).
Qed.

End concrete_rule_properties.

(** ** The claims on the scores *)

Section score_claims.
Import rule_engine.

(** C5: the score of [evaluate_color_combo] lies in [0, 100] for every list
    of colours, and so does the score of the report of [evaluate_outfit],
    which evaluates with a library as constructed, for every input. *)
Theorem scores_within_0_100 :
  (∀ colors_list : list color_analyzer.Color,
     0 ≤ color_analyzer.score (color_analyzer.evaluate_color_combo colors_list)
       ≤ 100)
  ∧ (∀ (h : Heap.t) (colors : option (list ColorItem))
       (styles context : option (gmap string string))
       (top_colors bottom_colors : option (list ColorItem)),
       let report :=
         rule_engine.evaluate_outfit h colors styles context
                                     top_colors bottom_colors in
       (0 <= Report.score report)%Q ∧ (Report.score report <= 100)%Q).
Proof.
  split; [exact evaluate_color_combo_score_bounds |].
  intros h colors styles context top bottom.
  unfold rule_engine.evaluate_outfit, create_evaluator, RuleEvaluator.__init__.
  pose proof (default_library h) as Hlib. cbv zeta in Hlib.
  destruct (RuleLibrary.__init__ h) as [lib h'].
  destruct Hlib as (Hrules & H1 & H2 & H3 & H4 & H5).
  apply evaluate_outfit_bounds. cbn [RuleEvaluator.rule_library].
  intros r Hr. unfold RuleLibrary.get_enabled_rules in Hr.
  apply list_elem_of_filter in Hr as [_ Hr]. rewrite Hrules in Hr.
  rewrite !elem_of_cons, elem_of_nil in Hr.
  destruct Hr as [-> | [-> | [-> | [-> | [-> | []]]]]];
    rewrite ?H1, ?H2, ?H3, ?H4, ?H5; split; reflexivity.
Qed.


(** When the weights of the enabled rules do not sum to a positive number,
    the report holds 0 whatever the weighted average is: with the
    three-colour rule alone enabled, under the weight -1, the average of the
    scores is 100 and the report holds 0. *)
Lemma negative_weight_scores_0 :
  let self := (create_evaluator Heap.empty).1 in
  let h := (create_evaluator Heap.empty).2 in
  let h := RuleEvaluator.configure_rule "三色原则" (Some (-1)%Q) None self h in
  let h := RuleEvaluator.configure_rule "上浅下深原则" None (Some false) self h in
  let h := RuleEvaluator.configure_rule "禁忌颜色组合" None (Some false) self h in
  let h := RuleEvaluator.configure_rule "款式协调" None (Some false) self h in
  let h := RuleEvaluator.configure_rule "场景适宜" None (Some false) self h in
  let sw :=
    scored h (RuleEvaluator.build_outfit_data None None None None None)
      (RuleLibrary.get_enabled_rules (RuleEvaluator.rule_library self) h) in
  sw = [(100, -1)]%Q
  ∧ (weighted_average sw == 100)%Q
  ∧ (Report.score
       (RuleEvaluator.evaluate_outfit self h None None None None None) == 0)%Q.
Proof. cbv zeta. repeat split; vm_compute; reflexivity. Qed.



End score_claims.

(** ** The colour rules without colours *)

Section color_rule_claims.
Import rule_engine.

Lemma Qgeb_refl (x : Q) : py.Qgeb x x = true.
Proof. unfold py.Qgeb. apply Qle_bool_iff. apply Qle_refl. Qed.

(** C10: when [evaluate_outfit] gets no colours ([None] or an empty list),
    every colour rule answers the passing result of [ColorRule.evaluate]
    (score 100, severity info), whatever top and bottom colours are given;
    so a colour rule that answers anything else was given colours; and when
    the top and bottom colours are both left to default to the colours, the
    light-top-dark-bottom rule passes with score 100. *)
Theorem color_rules_without_colors (self : BaseRule.t)
    (colors : option (list ColorItem))
    (styles context : option (gmap string string))
    (top_colors bottom_colors : option (list ColorItem))
    (Hcolor : is_ColorRule (BaseRule.class self) = true) :
  let d :=
    RuleEvaluator.build_outfit_data colors styles context
                                    top_colors bottom_colors in
  (colors = None ∨ colors = Some [] →
   evaluate self d = ColorRule_skipped
   ∧ RuleResult.passed (evaluate self d) = true
   ∧ RuleResult.score (evaluate self d) = 100%Q
   ∧ RuleResult.severity (evaluate self d) = INFO)
  ∧ (evaluate self d ≠ ColorRule_skipped → ∃ c cs, colors = Some (c :: cs))
  ∧ (∀ (w : Q) (top bottom : option (list ColorItem)),
       top = None ∨ top = Some [] → bottom = None ∨ bottom = Some [] →
       let result :=
         evaluate (new_LightTopDarkBottomRule w)
           (RuleEvaluator.build_outfit_data colors styles context top bottom) in
       RuleResult.passed result = true
       ∧ RuleResult.score result = 100%Q
       ∧ RuleResult.severity result = INFO).
Proof.
  cbv zeta.
  assert (Hskip : colors = None ∨ colors = Some [] →
                  evaluate self
                    (RuleEvaluator.build_outfit_data colors styles context
                                                     top_colors bottom_colors)
                  = ColorRule_skipped).
  { intros Hc. unfold evaluate.
    destruct (BaseRule.class self); try discriminate Hcolor;
      destruct Hc as [-> | ->]; reflexivity. }
  split; [| split].
  - intros Hc. rewrite (Hskip Hc). repeat split.
  - intros Hne. destruct colors as [[|c cs] |].
    + exfalso. apply Hne, Hskip. by right.
    + by exists c, cs.
    + exfalso. apply Hne, Hskip. by left.
  - intros w top bottom Htop Hbottom. unfold evaluate.
    cbn [BaseRule.class new_LightTopDarkBottomRule].
    assert (Hdefault : ∀ x : option (list ColorItem),
              x = None ∨ x = Some [] →
              or_list x (or_list colors []) = or_list colors [])
      by (intros x [-> | ->]; reflexivity).
    unfold ColorRule_evaluate, RuleEvaluator.build_outfit_data.
    rewrite (Hdefault top Htop), (Hdefault bottom Hbottom).
    destruct colors as [[|c cs] |]; [repeat split | | repeat split].
    cbn [OutfitData.colors or_list default is_empty].
    unfold LightTopDarkBottomRule_evaluate_colors.
    cbn [OutfitData.top_colors OutfitData.bottom_colors default is_empty orb].
    rewrite Qgeb_refl. repeat split.
Qed.

Lemma color_rules_without_colors_witness :
  let d :=
    RuleEvaluator.build_outfit_data None None None
      (Some [Str "黑"]) (Some [Str "白"]) in
  is_ColorRule (BaseRule.class (new_LightTopDarkBottomRule 1.2)) = true
  ∧ evaluate (new_LightTopDarkBottomRule 1.2) d = ColorRule_skipped
  ∧ RuleResult.passed
      (LightTopDarkBottomRule_evaluate_colors 1.2 [Str "灰"] d) = false.
Proof.
  cbv zeta. split; [reflexivity |]. split; [| vm_compute; reflexivity].
  apply (color_rules_without_colors (new_LightTopDarkBottomRule 1.2)
           None None None (Some [Str "黑"]) (Some [Str "白"]) eq_refl).
  by left.
Defined.

End color_rule_claims.

(** ** color_analyzer: the classifier and the distance *)

Section classifier_properties.
Import color_analyzer.

(** Splits on the conditions of the classifier, outermost first. *)
Ltac classify_cases :=
  unfold classify_color_type;
  repeat match goal with
         | |- context [if ?c then _ else _] => destruct c eqn:?
         end.

(** Turns the boolean tests of the hypotheses into arithmetic. *)
Ltac tests_to_Z :=
  repeat match goal with
         | H : _ && _ = true |- _ => apply andb_true_iff in H; destruct H
         | H : (_ <? _) = true |- _ => apply Z.ltb_lt in H
         | H : (_ <? _) = false |- _ => apply Z.ltb_ge in H
         | H : (_ =? _) = true |- _ => apply Z.eqb_eq in H
         | H : (_ =? _) = false |- _ => apply Z.eqb_neq in H
         end.

(** X1: the classifier answers with a name of the palette, under the tone that
    the palette gives to that name. *)
Theorem classify_in_palette (rgb : Color) :
  classify_color_type rgb ∈ palette.
Proof.
  destruct rgb as [[r g] b]. classify_cases; unfold palette;
    repeat constructor.
Qed.

(** X2: a colour is classified neutral exactly when its channels spread by less
    than 30, or sum to 0. *)
Theorem classify_neutral_iff (r g b : Z) :
  tone (classify_color_type (r, g, b)) = neutral
  ↔ Z.max (Z.max r g) b - Z.min (Z.min r g) b < 30 ∨ r + g + b = 0.
Proof.
  unfold classify_color_type.
  destruct (_ <? 30) eqn:Hspread.
  - apply Z.ltb_lt in Hspread.
    repeat match goal with
           | |- context [if ?c then _ else _] => destruct c
           end; (split; [intros _; by left | reflexivity]).
  - apply Z.ltb_ge in Hspread.
    destruct (_ =? 0) eqn:Hzero.
    + apply Z.eqb_eq in Hzero. split; [intros _; by right | reflexivity].
    + apply Z.eqb_neq in Hzero.
      repeat match goal with
             | |- context [if ?c then _ else _] => destruct c
             end; (split; [discriminate | intros [? | ?]; lia]).
Qed.

(** Decides a membership hypothesis among literal names. *)
Ltac name_cases H :=
  rewrite ?elem_of_cons, elem_of_nil in H;
  repeat (destruct H as [H | H]); try discriminate H; try (exfalso; exact H).

(** X3: the family of the name tells the order of the channels: no channel
    exceeds red in the red family, green in the green family, blue in the
    blue family; blue is the least channel of a brown, orange or yellow, and
    green the least channel of a purple. *)
Theorem classify_channel_order (r g b : Z) :
  let n := name (classify_color_type (r, g, b)) in
  (n ∈ [red; deep_red; pink] → g ≤ r ∧ b ≤ r)
  ∧ (n ∈ [green; deep_green; pale_green] → r ≤ g ∧ b ≤ g)
  ∧ (n ∈ [blue; deep_blue; pale_blue] → r ≤ b ∧ g ≤ b)
  ∧ (n ∈ [brown; orange; yellow; pale_yellow] → b < r ∧ b < g)
  ∧ (n ∈ [purple; deep_purple; pale_purple] → g < r ∧ g < b).
Proof.
  cbv zeta. classify_cases; cbn [name]; tests_to_Z;
    repeat match goal with |- _ ∧ _ => split end;
    intros Hn; name_cases Hn; lia.
Qed.

Lemma classify_channel_order_witness :
  name (classify_color_type (200, 30, 40)) ∈ [red; deep_red; pink]
  ∧ 30 ≤ 200 ∧ 40 ≤ 200.
Proof.
  split; [vm_compute; repeat constructor |].
  apply (classify_channel_order 200 30 40). vm_compute. repeat constructor.
Defined.

(** X4: the distance does not depend on the order of the two colours, it is 0
    only between a colour and itself, and between two colours with channels
    in 0..255 it is at most sqrt(3 * 255^2), under 442. *)
Theorem distance_properties (c1 c2 : Color) :
  calculate_color_distance c1 c2 = calculate_color_distance c2 c1
  ∧ (calculate_color_distance c1 c2 = Sqrt 0 ↔ c1 = c2)
  ∧ (in_range c1 → in_range c2 →
     ∃ n, calculate_color_distance c1 c2 = Sqrt n
          ∧ 0 ≤ n ≤ 3 * 255 ^ 2 ∧ n < 442 ^ 2
          ∧ Dist_gtb (calculate_color_distance c1 c2) 442 = false).
Proof.
  destruct c1 as [[r1 g1] b1], c2 as [[r2 g2] b2].
  unfold calculate_color_distance, in_range. split; [| split].
  - f_equal. ring.
  - split.
    + intros H. injection H as H.
      assert (r1 = r2 ∧ g1 = g2 ∧ b1 = b2) as (-> & -> & ->) by nia.
      reflexivity.
    + intros H. injection H as -> -> ->. f_equal. ring.
  - intros (Hr1 & Hg1 & Hb1) (Hr2 & Hg2 & Hb2).
    eexists. split; [reflexivity |].
    assert ((r1 - r2) ^ 2 ≤ 255 ^ 2) by nia.
    assert ((g1 - g2) ^ 2 ≤ 255 ^ 2) by nia.
    assert ((b1 - b2) ^ 2 ≤ 255 ^ 2) by nia.
    assert (0 ≤ (r1 - r2) ^ 2) by nia.
    assert (0 ≤ (g1 - g2) ^ 2) by nia.
    assert (0 ≤ (b1 - b2) ^ 2) by nia.
    repeat split; try lia. unfold Dist_gtb. apply Z.ltb_ge. lia.
Qed.

Lemma distance_properties_witness :
  in_range (0, 0, 0) ∧ in_range (255, 255, 255)
  ∧ ∃ n, calculate_color_distance (0, 0, 0) (255, 255, 255) = Sqrt n
         ∧ 0 ≤ n ≤ 3 * 255 ^ 2 ∧ n < 442 ^ 2
         ∧ Dist_gtb (calculate_color_distance (0, 0, 0) (255, 255, 255)) 442
           = false.
Proof.
  assert (H1 : in_range (0, 0, 0)) by (unfold in_range; lia).
  assert (H2 : in_range (255, 255, 255)) by (unfold in_range; lia).
  split; [exact H1 |]. split; [exact H2 |].
  exact (proj2 (proj2 (distance_properties (0, 0, 0) (255, 255, 255))) H1 H2).
Defined.

End classifier_properties.

(** ** color_analyzer: the score of a combination *)

Section combo_properties.
Import color_analyzer.

Lemma snoc_nonempty {A} (l : list A) (x : A) : l ++ [x] ≠ [].
Proof. destruct l; discriminate. Qed.

(** One check of [evaluate_color_combo]: names the new score and
    suggestions, and proves [combo_state] of them by cases on the
    conditions of the check. *)
Ltac combo_check low :=
  match goal with
  | |- context [let '(_, _) := ?e in _] =>
      let s := fresh "s" in
      let g := fresh "g" in
      let E := fresh "E" in
      destruct e as [s g] eqn:E;
      assert (combo_state low s g);
      [ repeat match goal with
               | H : combo_state _ _ _ |- _ => destruct H as (? & ? & ?)
               end;
        repeat match type of E with
               | context [if ?c then _ else _] => destruct c
               end;
        injection E as <- <-;
        (split; [lia | split; [Z.to_euclidean_division_equations; lia |]]);
        first [ intros _; apply snoc_nonempty | intros ?; auto with lia ]
      | clear E ]
  end.

(** After its five checks [evaluate_color_combo] holds a multiple of 5
    between 20 and 100, with a suggestion unless the score is 100. *)
Lemma combo_state_at_end (c1 c2 : Color) (l : list Color) :
  let r := evaluate_color_combo (c1 :: c2 :: l) in
  20 ≤ score r ≤ 100 ∧ score r mod 5 = 0 ∧ suggestions r ≠ [].
Proof.
  unfold evaluate_color_combo. cbv zeta.
  combo_check 80. combo_check 65. combo_check 45. combo_check 35.
  combo_check 20.
  match goal with H : combo_state 20 _ _ |- _ => destruct H as (Hs & Hm & Hg) end.
  cbn [score suggestions].
  rewrite Z.min_r, Z.max_r by lia.
  split; [exact Hs | split; [exact Hm |]].
  match goal with
  | |- (if ?c then _ else _) ≠ [] => destruct c eqn:Hfinal
  end; [apply snoc_nonempty |].
  apply andb_false_iff in Hfinal as [Hlow | Hsome].
  - apply Z.leb_gt in Hlow.
    repeat match goal with
           | |- context [if ?c then _ else _] => destruct c
           end;
      first [apply snoc_nonempty | apply Hg; lia].
  - by apply bool_decide_eq_false in Hsome.
Qed.

(** X5: [evaluate_color_combo] always returns at least one suggestion. *)
Theorem evaluate_color_combo_suggests (colors_list : list Color) :
  suggestions (evaluate_color_combo colors_list) ≠ [].
Proof.
  destruct colors_list as [|c1 [|c2 l]]; [discriminate | discriminate |].
  apply combo_state_at_end.
Qed.

(** X6: only the empty list scores 0: a list with at least one colour scores a
    multiple of 5 between 20 and 100, so the final clamp of the score to
    0..100 never changes it; and 20 is reached, when all five deductions
    apply. *)
Theorem evaluate_color_combo_score_range (colors_list : list Color) :
  (score (evaluate_color_combo colors_list) = 0 ↔ colors_list = [])
  ∧ (colors_list ≠ [] →
     20 ≤ score (evaluate_color_combo colors_list) ≤ 100
     ∧ score (evaluate_color_combo colors_list) mod 5 = 0)
  ∧ score (evaluate_color_combo
             [(255, 255, 0); (0, 0, 255); (0, 0, 250); (255, 0, 0)]) = 20.
Proof.
  split; [| split; [| vm_compute; reflexivity]];
    destruct colors_list as [|c1 [|c2 l]].
  - done.
  - split; discriminate.
  - destruct (combo_state_at_end c1 c2 l) as (Hs & _). cbv zeta in Hs.
    split; [intros H; lia | discriminate].
  - intros H. by destruct H.
  - intros _. simpl. split; [lia | reflexivity].
  - intros _. destruct (combo_state_at_end c1 c2 l) as (Hs & Hm & _). done.
Qed.

Lemma evaluate_color_combo_score_range_witness :
  [(10, 10, 10); (12, 12, 12); (250, 250, 250); (255, 0, 0); (0, 255, 0)]
  ≠ ([] : list Color)
  ∧ 20 ≤ score (evaluate_color_combo
                  [(10, 10, 10); (12, 12, 12); (250, 250, 250);
                   (255, 0, 0); (0, 255, 0)]) ≤ 100.
Proof.
  split; [discriminate |].
  apply (evaluate_color_combo_score_range
           [(10, 10, 10); (12, 12, 12); (250, 250, 250);
            (255, 0, 0); (0, 255, 0)]).
  discriminate.
Defined.

(** The contrasts are the distances of the pairs of positions [i < j]. *)
Lemma elem_of_pairwise_contrasts (d : Dist) (l : list Color) :
  d ∈ pairwise_contrasts l
  ↔ ∃ (i j : nat) (a b : Color),
      (i < j)%nat ∧ l !! i = Some a ∧ l !! j = Some b
      ∧ d = calculate_color_distance a b.
Proof.
  induction l as [|c rest IH]; cbn [pairwise_contrasts].
  - split; [intros H; inversion H | intros (i & j & a & b & _ & H & _)].
    discriminate H.
  - rewrite elem_of_app, list_elem_of_fmap, IH. split.
    + intros [(b & -> & Hb) | (i & j & a & b & Hij & Ha & Hb & ->)].
      * apply list_elem_of_lookup in Hb as [k Hk].
        exists 0%nat, (S k), c, b. repeat split; [lia | done].
      * exists (S i), (S j), a, b. repeat split; [lia | done | done].
    + intros (i & j & a & b & Hij & Ha & Hb & ->).
      destruct j as [|j]; [lia |]. destruct i as [|i].
      * left. injection Ha as ->. exists b. split; [done |].
        apply list_elem_of_lookup. by exists j.
      * right. exists i, j, a, b. repeat split; [lia | done | done].
Qed.

Lemma length_pairwise_contrasts (l : list Color) :
  (2 * length (pairwise_contrasts l) = length l * (length l - 1))%nat.
Proof.
  induction l as [|c rest IH]; [reflexivity |].
  cbn [pairwise_contrasts]. rewrite length_app, length_map.
  cbn [length]. nia.
Qed.

(** X7: for two colours or more, the analysis holds the number of colours, the
    name and the tone of each colour in order, and one contrast for each
    pair of positions [i < j], n(n-1)/2 of them. *)
Theorem evaluate_color_combo_analysis (colors_list : list Color)
    (Hlen : (2 ≤ length colors_list)%nat) :
  analysis (evaluate_color_combo colors_list)
  = mkAnalysis (Some (py.len colors_list))
      (Some (map (λ c, name (classify_color_type c)) colors_list))
      (Some (map (λ c, tone (classify_color_type c)) colors_list))
      (Some (pairwise_contrasts colors_list))
  ∧ (2 * length (pairwise_contrasts colors_list)
     = length colors_list * (length colors_list - 1))%nat
  ∧ ∀ d, d ∈ pairwise_contrasts colors_list
         ↔ ∃ (i j : nat) (a b : Color),
             (i < j)%nat ∧ colors_list !! i = Some a
             ∧ colors_list !! j = Some b
             ∧ d = calculate_color_distance a b.
Proof.
  split; [| split; [apply length_pairwise_contrasts |
                    intros d; apply elem_of_pairwise_contrasts]].
  destruct colors_list as [|c1 [|c2 l]]; [simpl in Hlen; lia .. |].
  unfold evaluate_color_combo. cbv zeta.
  repeat match goal with
         | |- context [let '(_, _) := ?e in _] => destruct e
         end.
  reflexivity.
Qed.

Lemma evaluate_color_combo_analysis_witness :
  let colors_list : list Color := [(255, 0, 0); (0, 255, 0); (0, 0, 255)] in
  (2 ≤ length colors_list)%nat
  ∧ (2 * length (pairwise_contrasts colors_list)
     = length colors_list * (length colors_list - 1))%nat.
Proof.
  cbv zeta.
  assert (H : (2 ≤ length ([(255, 0, 0); (0, 255, 0); (0, 0, 255)]%Z
                           : list Color))%nat)
    by (simpl; lia).
  split; [exact H |].
  exact (proj1 (proj2 (evaluate_color_combo_analysis _ H))).
Defined.

End combo_properties.

(** ** color_analyzer: what a close pair and a neutral colour do *)

Section combo_deduction_properties.
Import color_analyzer.

Lemma fold_min_from_Sqrt (l : list Dist) (a : Z) :
  ∃ n, fold_left Dist_min l (Sqrt a) = Sqrt n
       ∧ n ≤ a ∧ ∀ m, Sqrt m ∈ l → n ≤ m.
Proof.
  revert a. induction l as [|d l IH]; intros a.
  - exists a. repeat split; [lia |]. intros m H. inversion H.
  - cbn [fold_left]. destruct d as [x |]; cbn [Dist_min].
    + destruct (Z.ltb_spec x a) as [Hlt | Hge].
      * destruct (IH x) as (n & -> & Hn & Hall). exists n.
        repeat split; [lia |]. intros m Hm.
        apply elem_of_cons in Hm as [Hm | Hm]; [injection Hm as ->; lia |].
        by apply Hall.
      * destruct (IH a) as (n & -> & Hn & Hall). exists n.
        repeat split; [lia |]. intros m Hm.
        apply elem_of_cons in Hm as [Hm | Hm]; [injection Hm as ->; lia |].
        by apply Hall.
    + destruct (IH a) as (n & -> & Hn & Hall). exists n.
      repeat split; [lia |]. intros m Hm.
      apply elem_of_cons in Hm as [Hm | Hm]; [discriminate Hm |].
      by apply Hall.
Qed.

(** The least contrast is under every contrast of the list. *)
Lemma fold_min_from_Inf (l : list Dist) (m : Z) :
  Sqrt m ∈ l → ∃ n, fold_left Dist_min l Inf = Sqrt n ∧ n ≤ m.
Proof.
  induction l as [|d l IH]; intros Hm; [inversion Hm |].
  cbn [fold_left]. destruct d as [x |]; cbn [Dist_min].
  - destruct (fold_min_from_Sqrt l x) as (n & -> & Hn & Hall).
    exists n. split; [done |].
    apply elem_of_cons in Hm as [Hm | Hm]; [injection Hm as ->; lia |].
    by apply Hall.
  - apply elem_of_cons in Hm as [Hm | Hm]; [discriminate Hm |]. by apply IH.
Qed.

(** One check of [evaluate_color_combo], for a property of the score
    alone. *)
Ltac score_check P :=
  match goal with
  | |- context [let '(_, _) := ?e in _] =>
      let s := fresh "s" in
      let g := fresh "g" in
      let E := fresh "E" in
      let H := fresh "H" in
      destruct e as [s g] eqn:E;
      assert (H : P s);
      [ repeat match type of E with
               | context [if ?c then _ else _] => destruct c
               end;
        injection E as <- <-; cbv beta in *; lia
      | clear E; cbv beta in H ]
  end.

Lemma close_pair_bound (c1 c2 : Color) (l : list Color) (k : Z) :
  Dist_ltb (fold_left Dist_min (pairwise_contrasts (c1 :: c2 :: l)) Inf) k
  = true →
  (k = 50 → score (evaluate_color_combo (c1 :: c2 :: l)) ≤ 80)
  ∧ (k = 100 → score (evaluate_color_combo (c1 :: c2 :: l)) ≤ 90).
Proof.
  intros Hclose. split; intros ->.
  - unfold evaluate_color_combo. cbv zeta. rewrite Hclose. cbv iota.
    score_check (λ s, s ≤ 100). score_check (λ s, s ≤ 100).
    score_check (λ s, s ≤ 80). score_check (λ s, s ≤ 80).
    cbn [score]. lia.
  - unfold evaluate_color_combo. cbv zeta. rewrite Hclose. cbv iota.
    score_check (λ s, s ≤ 100). score_check (λ s, s ≤ 100).
    score_check (λ s, s ≤ 90). score_check (λ s, s ≤ 90).
    score_check (λ s, s ≤ 90). cbn [score]. lia.
Qed.

(** X8: two colours of the list at a distance under 50 (the same colour twice,
    for one) cap the score at 80; at a distance under 100, at 90. *)
Theorem close_pair_caps_score (colors_list : list Color) (i j : nat)
    (a b : Color) (n : Z)
    (Hij : (i < j)%nat)
    (Ha : colors_list !! i = Some a) (Hb : colors_list !! j = Some b)
    (Hd : calculate_color_distance a b = Sqrt n) :
  (n < 50 ^ 2 → score (evaluate_color_combo colors_list) ≤ 80)
  ∧ (n < 100 ^ 2 → score (evaluate_color_combo colors_list) ≤ 90).
Proof.
  assert (Hin : Sqrt n ∈ pairwise_contrasts colors_list).
  { apply elem_of_pairwise_contrasts. exists i, j, a, b. by rewrite Hd. }
  destruct (fold_min_from_Inf _ n Hin) as (m & Hm & Hle).
  destruct colors_list as [|c1 [|c2 l]]; [inversion Hin .. |].
  split; intros Hn.
  - apply (close_pair_bound c1 c2 l 50); [| reflexivity].
    rewrite Hm. apply Z.ltb_lt. lia.
  - apply (close_pair_bound c1 c2 l 100); [| reflexivity].
    rewrite Hm. apply Z.ltb_lt. lia.
Qed.

Lemma close_pair_caps_score_witness :
  let colors_list : list Color := [(255, 255, 255); (0, 0, 0); (255, 255, 255)] in
  ((0 < 2)%nat ∧ colors_list !! 0%nat = Some (255, 255, 255)
   ∧ colors_list !! 2%nat = Some (255, 255, 255)
   ∧ calculate_color_distance (255, 255, 255) (255, 255, 255) = Sqrt 0
   ∧ 0 < 50 ^ 2)
  ∧ score (evaluate_color_combo colors_list) ≤ 80.
Proof.
  cbv zeta. split; [repeat split; lia |].
  apply (close_pair_caps_score
           [(255, 255, 255); (0, 0, 0); (255, 255, 255)] 0%nat 2%nat
           (255, 255, 255) (255, 255, 255) 0);
    [lia | reflexivity | reflexivity | reflexivity | lia].
Defined.

Lemma count_pos (x : string) (l : list string) : x ∈ l → 0 < py.count x l.
Proof.
  intros Hx. unfold py.count.
  assert (Hf : x ∈ filter (λ y, y = x) l) by (by apply list_elem_of_filter).
  destruct (filter _ l); [inversion Hf | simpl; lia].
Qed.

(** One check of [evaluate_color_combo], for a property of the score and
    the suggestions. *)
Ltac not_suggested :=
  rewrite ?elem_of_app, ?elem_of_cons, ?elem_of_nil;
  let Hin := fresh "Hin" in
  intros Hin;
  repeat match type of Hin with
         | _ ∨ _ => destruct Hin as [Hin | Hin]
         end;
  first [ contradiction | cbn in Hin; discriminate Hin ].

Ltac state_check P :=
  match goal with
  | |- context [let '(_, _) := ?e in _] =>
      let s := fresh "s" in
      let g := fresh "g" in
      let E := fresh "E" in
      let H := fresh "H" in
      destruct e as [s g] eqn:E;
      assert (H : P s g);
      [ repeat match type of E with
               | context [if ?c then _ else _] => destruct c
               end;
        injection E as <- <-; cbv beta in *;
        repeat match goal with
               | H' : _ ∧ _ |- _ => destruct H'
               end;
        repeat match goal with
               | |- _ ∧ _ => split
               end;
        first [ lia | assumption | not_suggested ]
      | clear E; cbv beta in H ]
  end.

(** X9: a neutral colour in the list switches off the two deductions for
    tones and complementary colours: their suggestions are not made, and
    the score is 100 less the deductions for the number of colours and for
    the contrasts alone, which leaves at least 50. *)
Theorem neutral_colour_buffers (colors_list : list Color) (c : Color)
    (Hc : c ∈ colors_list)
    (Hneutral : tone (classify_color_type c) = neutral) :
  let contrasts := pairwise_contrasts colors_list in
  let min_contrast := fold_left Dist_min contrasts Inf in
  let max_contrast := fold_left Dist_max contrasts (Sqrt 0) in
  let result := evaluate_color_combo colors_list in
  score result
  = 100 - (if 3 <? py.len colors_list then 20 else 0)
        - (if Dist_ltb min_contrast 50 then 20
           else if Dist_ltb min_contrast 100 then 10 else 0)
        - (if Dist_gtb max_contrast 400 then 10 else 0)
  ∧ ("冷暖色搭配时，建议加入中性色（黑/白/灰）作为过渡" ∉ suggestions result)
  ∧ ("检测到互补色搭配，建议加入中性色（黑/白/灰）来平衡" ∉ suggestions result)
  ∧ 50 ≤ score result.
Proof.
  cbv zeta.
  destruct colors_list as [|c1 [|c2 l]]; [inversion Hc | |].
  { cbn. repeat split; try lia; not_suggested. }
  assert (Hcount :
    (py.count neutral
       (map (λ color, tone (classify_color_type color)) (c1 :: c2 :: l))
     =? 0) = false).
  { apply Z.eqb_neq.
    cut (0 < py.count neutral
               (map (λ color, tone (classify_color_type color))
                    (c1 :: c2 :: l))); [lia |].
    apply count_pos. rewrite <- Hneutral.
    apply (list_elem_of_fmap_2 (λ color, tone (classify_color_type color))).
    exact Hc. }
  unfold evaluate_color_combo. cbv zeta. rewrite Hcount, andb_false_r.
  cbv iota.
  set (n := py.len (c1 :: c2 :: l)).
  set (min_contrast :=
         fold_left Dist_min (pairwise_contrasts (c1 :: c2 :: l)) Inf).
  set (max_contrast :=
         fold_left Dist_max (pairwise_contrasts (c1 :: c2 :: l)) (Sqrt 0)).
  set (m1 := "冷暖色搭配时，建议加入中性色（黑/白/灰）作为过渡").
  set (m2 := "检测到互补色搭配，建议加入中性色（黑/白/灰）来平衡").
  state_check (λ (s : Z) (g : list string),
    s = 100 - (if 3 <? n then 20 else 0) ∧ (m1 ∉ g) ∧ (m2 ∉ g)).
  state_check (λ (s : Z) (g : list string),
    s = 100 - (if 3 <? n then 20 else 0) ∧ (m1 ∉ g) ∧ (m2 ∉ g)).
  state_check (λ (s : Z) (g : list string),
    s = 100 - (if 3 <? n then 20 else 0)
            - (if Dist_ltb min_contrast 50 then 20
               else if Dist_ltb min_contrast 100 then 10 else 0)
    ∧ (m1 ∉ g) ∧ (m2 ∉ g)).
  state_check (λ (s : Z) (g : list string),
    s = 100 - (if 3 <? n then 20 else 0)
            - (if Dist_ltb min_contrast 50 then 20
               else if Dist_ltb min_contrast 100 then 10 else 0)
            - (if Dist_gtb max_contrast 400 then 10 else 0)
    ∧ (m1 ∉ g) ∧ (m2 ∉ g)).
  state_check (λ (s : Z) (g : list string),
    s = 100 - (if 3 <? n then 20 else 0)
            - (if Dist_ltb min_contrast 50 then 20
               else if Dist_ltb min_contrast 100 then 10 else 0)
            - (if Dist_gtb max_contrast 400 then 10 else 0)
    ∧ (m1 ∉ g) ∧ (m2 ∉ g)).
  cbn [score suggestions].
  lazymatch goal with
  | Hlast : ?s = _ ∧ _ ∧ _ |- context [Z.min 100 ?s] =>
      destruct Hlast as (Hs & Hm1 & Hm2);
      assert (Hrange : 50 ≤ s ≤ 100)
  end.
  { rewrite Hs.
    repeat match goal with
           | |- context [if ?c then _ else _] => destruct c
           end; lia. }
  rewrite <- Hs.
  split; [lia |]. split; [| split; [| lia]];
    repeat match goal with
           | |- context [if ?c then _ else _] => destruct c
           end; not_suggested.
Qed.

Lemma neutral_colour_buffers_witness :
  let colors_list : list Color := [(255, 0, 0); (0, 255, 0); (128, 128, 128)] in
  ((128, 128, 128) ∈ colors_list
   ∧ tone (classify_color_type (128, 128, 128)) = neutral)
  ∧ score (evaluate_color_combo colors_list) = 100
  ∧ 50 ≤ score (evaluate_color_combo colors_list).
Proof.
  cbv zeta.
  assert (H1 : ((128, 128, 128) : Color)
               ∈ ([(255, 0, 0); (0, 255, 0); (128, 128, 128)] : list Color))
    by (repeat constructor).
  assert (H2 : tone (classify_color_type (128, 128, 128)) = neutral)
    by (vm_compute; reflexivity).
  split; [split; [exact H1 | exact H2] |].
  pose proof (neutral_colour_buffers _ _ H1 H2) as T. cbv zeta in T.
  destruct T as (Hs & _ & _ & H50).
  split; [| exact H50]. rewrite Hs. vm_compute. reflexivity.
Defined.

End combo_deduction_properties.

(** ** rule_engine: the three-colour rule *)

Section three_color_properties.
Import rule_engine.

Lemma main_colors_from (colors : list ColorItem) :
  ∀ acc : list string,
    NoDup acc →
    let main :=
      fold_left
        (λ main_colors color,
           let color_name := color_name_of color in
           if negb (bool_decide (color_name ∈ neutral_colors)) then
             if negb (bool_decide (color_name ∈ main_colors))
             then main_colors ++ [color_name] else main_colors
           else main_colors)
        colors acc in
    NoDup main
    ∧ ∀ x, x ∈ main
           ↔ x ∈ acc ∨ (x ∈ map color_name_of colors ∧ x ∉ neutral_colors).
Proof.
  induction colors as [|c colors IH]; intros acc Hacc; cbn [fold_left map].
  - split; [done |]. intros x. split; [by left | intros [H | [H _]]; [done |]].
    inversion H.
  - cbv zeta. case_bool_decide as Hneutral; cbn [negb].
    + destruct (IH acc Hacc) as [Hnd Hin]. split; [done |].
      intros x. rewrite Hin, elem_of_cons. split; [tauto |].
      intros [H | [[-> | H] Hx]]; tauto.
    + case_bool_decide as Hseen; cbn [negb].
      * destruct (IH acc Hacc) as [Hnd Hin]. split; [done |].
        intros x. rewrite Hin, elem_of_cons. split; [tauto |].
        intros [H | [[-> | H] Hx]]; tauto.
      * destruct (IH (acc ++ [color_name_of c])) as [Hnd Hin].
        { apply NoDup_app. split; [done |]. split; [| apply NoDup_singleton].
          intros y Hy Hy'. apply list_elem_of_singleton in Hy'. by subst y. }
        split; [done |]. intros x.
        rewrite Hin, elem_of_app, list_elem_of_singleton, elem_of_cons.
        split; [| tauto]. intros [[H | ->] | H]; tauto.
Qed.

(** [main_colors] is the list of the distinct names that are not neutral. *)
Lemma main_colors_of_spec (colors : list ColorItem) :
  NoDup (main_colors_of colors)
  ∧ ∀ x, x ∈ main_colors_of colors
         ↔ x ∈ map color_name_of colors ∧ x ∉ neutral_colors.
Proof.
  destruct (main_colors_from colors [] (NoDup_nil_2)) as [Hnd Hin].
  split; [exact Hnd |]. intros x. unfold main_colors_of. rewrite Hin.
  split; [intros [H | H]; [inversion H | done] | by right].
Qed.

Lemma len_main_colors_of (colors : list ColorItem) :
  py.len (main_colors_of colors)
  = Z.of_nat (size ((list_to_set (map color_name_of colors) : gset string)
                    ∖ neutral_colors)).
Proof.
  destruct (main_colors_of_spec colors) as [Hnd Hin].
  unfold py.len. f_equal.
  rewrite <- (size_list_to_set (C:=gset string) _ Hnd). f_equal.
  apply set_eq. intros x.
  rewrite elem_of_list_to_set, Hin, elem_of_difference, elem_of_list_to_set.
  reflexivity.
Qed.

(** X10: the three-colour rule counts the distinct names of the colours that are
    not black, white or gray: it passes with score 100 when there are at
    most [max_colors] of them, and else fails with severity warning and 20
    points off for each name in excess, down to 0.  So only the set of the
    names matters, not their order or how often a name occurs. *)
Theorem three_color_rule_counts_distinct_names (max_colors : Z) (w : Q)
    (colors : list ColorItem) (d : OutfitData.t) :
  let k :=
    Z.of_nat (size ((list_to_set (map color_name_of colors) : gset string)
                    ∖ neutral_colors)) in
  let result := ThreeColorRule_evaluate_colors max_colors w colors d in
  (k ≤ max_colors →
   RuleResult.passed result = true ∧ RuleResult.score result = 100%Q
   ∧ RuleResult.severity result = INFO)
  ∧ (max_colors < k →
     RuleResult.passed result = false
     ∧ RuleResult.score result
       = inject_Z (Z.max 0 (100 - (k - max_colors) * 20))
     ∧ RuleResult.severity result = WARNING)
  ∧ (∀ (colors' : list ColorItem) (d' : OutfitData.t),
       (∀ x, x ∈ map color_name_of colors ↔ x ∈ map color_name_of colors') →
       RuleResult.passed (ThreeColorRule_evaluate_colors max_colors w colors' d')
       = RuleResult.passed result
       ∧ RuleResult.score (ThreeColorRule_evaluate_colors max_colors w colors' d')
         = RuleResult.score result).
Proof.
  cbv zeta. unfold ThreeColorRule_evaluate_colors.
  rewrite len_main_colors_of. split; [| split].
  - intros Hle. apply Z.leb_le in Hle. rewrite Hle. done.
  - intros Hgt. apply Z.leb_gt in Hgt. rewrite Hgt. done.
  - intros colors' d' Hsame. rewrite len_main_colors_of.
    assert (Hset : (list_to_set (map color_name_of colors') : gset string)
                   = list_to_set (map color_name_of colors)).
    { apply set_eq. intros x. rewrite !elem_of_list_to_set. by rewrite Hsame. }
    rewrite Hset. by destruct (_ <=? _).
Qed.

Lemma three_color_rule_counts_distinct_names_witness :
  let colors := [Str "红"; Str "黑"; Str "红"; Str "绿"; Str "蓝"; Str "黄";
                 Tuple (255, 255, 255)] in
  3 < Z.of_nat (size ((list_to_set (map color_name_of colors) : gset string)
                      ∖ neutral_colors))
  ∧ RuleResult.passed
      (ThreeColorRule_evaluate_colors 3 1.5 colors
         (OutfitData.mk None None None None None)) = false.
Proof.
  cbv zeta.
  assert (H : 3 < Z.of_nat
                (size ((list_to_set
                          (map color_name_of
                             [Str "红"; Str "黑"; Str "红"; Str "绿"; Str "蓝";
                              Str "黄"; Tuple (255, 255, 255)]) : gset string)
                       ∖ neutral_colors)))
    by (vm_compute; reflexivity).
  split; [exact H |].
  apply (three_color_rule_counts_distinct_names 3 1.5 _
           (OutfitData.mk None None None None None)).
  exact H.
Defined.

End three_color_properties.

(** ** rule_engine: the light-top-dark-bottom rule *)

Section light_top_properties.
Import rule_engine.

Lemma brightness_map_range (s : string) (v : Q) :
  brightness_map !! s = Some v → (0 <= v)%Q ∧ (v <= 255)%Q.
Proof.
  unfold brightness_map. intros H. apply elem_of_list_to_map_2 in H.
  rewrite !elem_of_cons, elem_of_nil in H.
  repeat (destruct H as [H | H]; [injection H as _ ->; split; lra |]).
  destruct H.
Qed.

Lemma get_brightness_range (c : ColorItem) :
  item_in_range c →
  (0 <= get_brightness c)%Q ∧ (get_brightness c <= 255)%Q.
Proof.
  destruct c as [[[r g] b] | s]; cbn [item_in_range get_brightness].
  - unfold in_range, color_analyzer.brightness_of.
    intros (Hr & Hg & Hb). rewrite !Zle_Qle in Hr, Hg, Hb.
    change (inject_Z 0) with 0%Q in *. change (inject_Z 255) with 255%Q in *.
    split; lra.
  - intros _. destruct (brightness_map !! s) as [v |] eqn:E; cbn [default].
    + by apply brightness_map_range in E.
    + split; lra.
Qed.

Lemma sum_range (xs : list Q) :
  ∀ a : Q,
    (∀ x, x ∈ xs → (0 <= x)%Q ∧ (x <= 255)%Q) →
    (a <= fold_left Qplus xs a)%Q
    ∧ (fold_left Qplus xs a <= a + 255 * inject_Z (py.len xs))%Q.
Proof.
  induction xs as [|x xs IH]; intros a Hall.
  - cbn [fold_left]. change (inject_Z (py.len (@nil Q))) with 0%Q.
    split; lra.
  - cbn [fold_left]. destruct (IH (a + x)%Q) as [H1 H2].
    { intros y Hy. apply Hall. by right. }
    destruct (Hall x) as [Hx0 Hx255]; [left |].
    assert (Hlen : (inject_Z (py.len (x :: xs)) == inject_Z (py.len xs) + 1)%Q).
    { unfold py.len. cbn [length]. rewrite Nat2Z.inj_succ, <- Z.add_1_r.
      rewrite inject_Z_plus. reflexivity. }
    rewrite Hlen. split; lra.
Qed.

(** The average brightness of named colours and RGB colours with channels
    in 0..255 lies in 0..255. *)
Lemma average_brightness_range (cs : list ColorItem) :
  cs ≠ [] → (∀ c, c ∈ cs → item_in_range c) →
  (0 <= average_brightness cs)%Q ∧ (average_brightness cs <= 255)%Q.
Proof.
  intros Hne Hall. unfold average_brightness, py.sum.
  destruct (sum_range (map get_brightness cs) 0) as [H1 H2].
  { intros x Hx. apply list_elem_of_fmap in Hx as (c & -> & Hc).
    apply get_brightness_range. by apply Hall. }
  assert (Hlen : py.len (map get_brightness cs) = py.len cs)
    by (unfold py.len; by rewrite length_map).
  rewrite Hlen in H2.
  assert (Hpos : (0 < inject_Z (py.len cs))%Q).
  { change 0%Q with (inject_Z 0). rewrite <- Zlt_Qlt. unfold py.len.
    destruct cs; [done | cbn [length]; lia]. }
  split.
  - apply Qle_shift_div_l; [done | lra].
  - apply Qle_shift_div_r; [done | lra].
Qed.



(** X12: for named colours and RGB colours with channels in 0..255, both averages
    lie in 0..255; when the rule fails, with the bottom brighter than the top
    by [diff], at most 255, the score is 100 minus half of [diff], and 0
    from a difference of 200 on; it lies in 0..100.  Floats are compared
    with these exact values up to the rounding error of doubles. *)
Theorem light_top_rule_failing_score (w : Q) (colors : list ColorItem)
    (all : option (list ColorItem))
    (styles context : option (gmap string string))
    (top bottom : list ColorItem)
    (Htop : top ≠ []) (Hbottom : bottom ≠ [])
    (Hrange : ∀ c, c ∈ top ++ bottom → item_in_range c) :
  let result :=
    LightTopDarkBottomRule_evaluate_colors w colors
      (OutfitData.mk all styles context (Some top) (Some bottom)) in
  let diff := (average_brightness bottom - average_brightness top)%Q in
  (0 <= average_brightness top)%Q
  ∧ (average_brightness top <= 255 + tolerance)%Q
  ∧ (0 <= average_brightness bottom)%Q
  ∧ (average_brightness bottom <= 255 + tolerance)%Q
  ∧ (RuleResult.passed result = false →
     (- tolerance <= diff)%Q ∧ (diff <= 255 + tolerance)%Q
     ∧ (0 <= RuleResult.score result)%Q ∧ (RuleResult.score result <= 100)%Q
     ∧ ((diff <= 200)%Q → near tolerance (100 - diff / 2) (RuleResult.score result))
     ∧ ((200 <= diff)%Q → near tolerance 0 (RuleResult.score result))).
Proof.
  cbv zeta.
  destruct (average_brightness_range top Htop) as [Ht0 Ht255].
  { intros c Hc. apply Hrange. apply elem_of_app. by left. }
  destruct (average_brightness_range bottom Hbottom) as [Hb0 Hb255].
  { intros c Hc. apply Hrange. apply elem_of_app. by right. }
  unfold near, tolerance.
  repeat match goal with |- _ ∧ _ => split end; try done; try lra.
  unfold LightTopDarkBottomRule_evaluate_colors.
  cbn [OutfitData.top_colors OutfitData.bottom_colors default from_option id].
  destruct top as [|t top]; [done |]. destruct bottom as [|b bottom]; [done |].
  cbn [is_empty orb]. unfold py.Qgeb.
  set (T := average_brightness (t :: top)) in *.
  set (B := average_brightness (b :: bottom)) in *.
  destruct (Qle_bool B T) eqn:E; cbn [RuleResult.passed RuleResult.score];
    [discriminate |]. intros _.
  assert (Hlt : (T < B)%Q).
  { apply Qnot_le_lt. intros H. apply Qle_bool_iff in H. congruence. }
  assert (Hhalf : ((B - T) / 2 == (B - T) * (1 # 2))%Q) by (field).
  unfold py.Qmax.
  destruct (py.Qltb 0 (100 - (B - T) / 2)) eqn:Hpos.
  - apply Qltb_true in Hpos. rewrite Hhalf in *.
    repeat split; try lra.
  - apply Qltb_false in Hpos. rewrite Hhalf in *.
    repeat split; try lra.
Qed.

Lemma light_top_rule_failing_score_witness :
  let top := [Str "黑"] in
  let bottom := [Tuple (255, 255, 255)] in
  let result :=
    LightTopDarkBottomRule_evaluate_colors 1.2 top
      (OutfitData.mk None None None (Some top) (Some bottom)) in
  (top ≠ [] ∧ bottom ≠ [] ∧ (∀ c, c ∈ top ++ bottom → item_in_range c)
   ∧ RuleResult.passed result = false
   ∧ (200 <= average_brightness bottom - average_brightness top)%Q)
  ∧ near tolerance 0 (RuleResult.score result).
Proof.
  cbv zeta.
  assert (H1 : [Str "黑"] ≠ []) by discriminate.
  assert (H2 : [Tuple (255, 255, 255)] ≠ []) by discriminate.
  assert (H3 : ∀ c, c ∈ [Str "黑"] ++ [Tuple (255, 255, 255)] →
                    item_in_range c).
  { intros c Hc. cbn [app] in Hc. rewrite !elem_of_cons, elem_of_nil in Hc.
    destruct Hc as [-> | [-> | []]]; cbn; [exact I | lia]. }
  assert (H4 : RuleResult.passed
       (LightTopDarkBottomRule_evaluate_colors 1.2 [Str "黑"]
          (OutfitData.mk None None None (Some [Str "黑"])
                         (Some [Tuple (255, 255, 255)]))) = false)
    by (vm_compute; reflexivity).
  assert (H5 : (200 <= average_brightness [Tuple (255, 255, 255)%Z]
                       - average_brightness [Str "黑"])%Q)
    by (vm_compute; discriminate).
  split; [repeat split; assumption |].
  destruct (light_top_rule_failing_score 1.2 [Str "黑"] None None None
              [Str "黑"] [Tuple (255, 255, 255)] H1 H2 H3)
    as (_ & _ & _ & _ & Hfail).
  destruct (Hfail H4) as (_ & _ & _ & _ & _ & Hzero).
  exact (Hzero H5).
Defined.

End light_top_properties.

(** ** rule_engine: the report *)

Section report_properties.
Import rule_engine.

Lemma fold_collect (entries : list ResultEntry.t) :
  ∀ (sg : list SuggestionEntry.t) (e w : Z),
    fold_left RuleEvaluator.collect entries (sg, e, w)
    = (sg ++ omap suggestion_of entries,
       e + count_severity "error" entries,
       w + count_severity "warning" entries).
Proof.
  unfold count_severity, py.len.
  induction entries as [|x entries IH]; intros sg e w.
  - cbn. by rewrite app_nil_r, !Z.add_0_r.
  - cbn [fold_left omap list_omap]. rewrite !filter_cons.
    unfold RuleEvaluator.collect at 2, suggestion_of at 1.
    destruct (ResultEntry.suggestion x) as [s |];
      [destruct (bool_decide (s = "")) |];
      (case_bool_decide as Herr;
       [ rewrite Herr, IH; rewrite decide_True by done;
         rewrite decide_False by discriminate
       | case_bool_decide as Hwarn;
         [ rewrite Hwarn, IH; rewrite decide_False by discriminate;
           rewrite decide_True by done
         | rewrite IH; rewrite !decide_False by done ] ]);
      cbn [length]; rewrite <- ?app_assoc; cbn [app];
      (apply (f_equal2 pair); [apply (f_equal2 pair) |]);
      first [reflexivity | lia].
Qed.

(** The fields of the report other than the score, from the results. *)
Lemma report_fields (self : RuleEvaluator.t) (h : Heap.t)
    (colors : option (list ColorItem))
    (styles context : option (gmap string string))
    (top bottom : option (list ColorItem)) :
  let d := RuleEvaluator.build_outfit_data colors styles context top bottom in
  let entries :=
    map (entry_of h d)
        (RuleLibrary.get_enabled_rules (RuleEvaluator.rule_library self) h) in
  let report :=
    RuleEvaluator.evaluate_outfit self h colors styles context top bottom in
  Report.results report = entries
  ∧ Report.passed report = (count_severity "error" entries =? 0)
  ∧ Report.suggestions report = omap suggestion_of entries
  ∧ Report.summary report
    = Summary.mk (py.len entries)
        (py.len (filter (λ r, ResultEntry.passed r = true) entries))
        (py.len (filter (λ r, ResultEntry.passed r = false) entries))
        (count_severity "error" entries)
        (count_severity "warning" entries).
Proof.
  cbv zeta. unfold RuleEvaluator.evaluate_outfit.
  destruct (fold_evaluate_rule h
              (RuleEvaluator.build_outfit_data colors styles context top bottom)
              (RuleLibrary.get_enabled_rules (RuleEvaluator.rule_library self) h)
              [] 0%Q 0%Q)
    as (s & w & -> & _ & _).
  rewrite fold_collect. cbn [app]. rewrite !Z.add_0_l. done.
Qed.

Lemma count_severity_zero (v : string) (entries : list ResultEntry.t) :
  count_severity v entries = 0
  ↔ ∀ e, e ∈ entries → ResultEntry.severity e ≠ v.
Proof.
  unfold count_severity, py.len.
  induction entries as [|x entries IH].
  - split; [intros _ e H; inversion H | reflexivity].
  - rewrite filter_cons. destruct (decide (ResultEntry.severity x = v)) as [E | E].
    + cbn [length]. split; [lia |]. intros H. exfalso. apply (H x); [left | done].
    + rewrite IH. split.
      * intros H e He. apply elem_of_cons in He as [-> | He]; [done | by apply H].
      * intros H e He. apply H. by right.
Qed.

Lemma len_filter_split {A} (P Q : A → Prop)
    `{∀ x, Decision (P x)} `{∀ x, Decision (Q x)} (l : list A) :
  (∀ x, P x → Q x → False) →
  py.len (filter P l) + py.len (filter Q l) ≤ py.len l
  ∧ ((∀ x, P x ∨ Q x) →
     py.len (filter P l) + py.len (filter Q l) = py.len l).
Proof.
  intros Hdisj. unfold py.len. induction l as [|x l [IH1 IH2]].
  - cbn. split; [lia | reflexivity].
  - rewrite !filter_cons.
    destruct (decide (P x)) as [HP | HP], (decide (Q x)) as [HQ | HQ];
      cbn [length]; try (by destruct (Hdisj x)).
    + split; [lia | intros Hall; specialize (IH2 Hall); lia].
    + split; [lia | intros Hall; specialize (IH2 Hall); lia].
    + split; [lia | intros Hall; destruct (Hall x); done].
Qed.

Lemma length_omap_le {A B} (f : A → option B) (l : list A) :
  (length (omap f l) ≤ length l)%nat.
Proof.
  induction l as [|x l IH]; [reflexivity |]. cbn [omap list_omap].
  destruct (f x); cbn [length]; lia.
Qed.

(** X13: the verdict and the summary of a report agree with its results, which
    are the entries of the enabled rules: the outfit passes exactly when no
    result has severity "error"; the summary counts the results, splits them
    into passed and failed, and counts those of severity "error" and
    "warning", which are never more than the results. *)
Theorem report_agrees_with_results (self : RuleEvaluator.t) (h : Heap.t)
    (colors : option (list ColorItem))
    (styles context : option (gmap string string))
    (top bottom : option (list ColorItem)) :
  let report :=
    RuleEvaluator.evaluate_outfit self h colors styles context top bottom in
  let summary := Report.summary report in
  (Report.passed report = true
   ↔ ∀ e, e ∈ Report.results report → ResultEntry.severity e ≠ "error")
  ∧ Summary.total_rules summary
    = py.len (RuleLibrary.get_enabled_rules (RuleEvaluator.rule_library self) h)
  ∧ Summary.total_rules summary
    = Summary.passed_rules summary + Summary.failed_rules summary
  ∧ Summary.errors summary = count_severity "error" (Report.results report)
  ∧ Summary.warnings summary = count_severity "warning" (Report.results report)
  ∧ 0 ≤ Summary.errors summary ∧ 0 ≤ Summary.warnings summary
  ∧ Summary.errors summary + Summary.warnings summary
    ≤ Summary.total_rules summary.
Proof.
  cbv zeta.
  destruct (report_fields self h colors styles context top bottom)
    as (-> & -> & _ & ->).
  cbn [Summary.total_rules Summary.passed_rules Summary.failed_rules
       Summary.errors Summary.warnings].
  repeat match goal with |- _ ∧ _ => split end.
  - rewrite Z.eqb_eq. apply count_severity_zero.
  - unfold py.len. by rewrite length_map.
  - symmetry. apply len_filter_split; [congruence |].
    intros x. destruct (ResultEntry.passed x); [by left | by right].
  - reflexivity.
  - reflexivity.
  - unfold count_severity, py.len. lia.
  - unfold count_severity, py.len. lia.
  - unfold count_severity. apply len_filter_split. intros x -> H.
    discriminate H.
Qed.

(** X14: the suggestions of a report are those of its results that are neither
    absent nor empty, in the order of the results, each under the name of
    its rule and the severity of its result. *)
Theorem report_suggestions_from_results (self : RuleEvaluator.t) (h : Heap.t)
    (colors : option (list ColorItem))
    (styles context : option (gmap string string))
    (top bottom : option (list ColorItem)) :
  let d := RuleEvaluator.build_outfit_data colors styles context top bottom in
  let report :=
    RuleEvaluator.evaluate_outfit self h colors styles context top bottom in
  Report.suggestions report = omap suggestion_of (Report.results report)
  ∧ (length (Report.suggestions report) ≤ length (Report.results report))%nat
  ∧ ∀ sg, sg ∈ Report.suggestions report →
      SuggestionEntry.suggestion sg ≠ ""
      ∧ ∃ r, r ∈ RuleLibrary.get_enabled_rules
                   (RuleEvaluator.rule_library self) h
             ∧ SuggestionEntry.rule sg = BaseRule.name (Heap.object h r)
             ∧ RuleResult.suggestion (evaluate (Heap.object h r) d)
               = Some (SuggestionEntry.suggestion sg)
             ∧ SuggestionEntry.severity sg
               = RuleSeverity_value
                   (RuleResult.severity (evaluate (Heap.object h r) d)).
Proof.
  cbv zeta.
  destruct (report_fields self h colors styles context top bottom)
    as (-> & _ & -> & _).
  split; [reflexivity |]. split; [apply length_omap_le |].
  intros sg Hsg. apply list_elem_of_omap in Hsg as (e & He & Hsome).
  apply list_elem_of_fmap in He as (r & -> & Hr).
  unfold suggestion_of, entry_of in Hsome.
  cbn [ResultEntry.suggestion ResultEntry.rule_name ResultEntry.severity]
    in Hsome.
  destruct (RuleResult.suggestion _) as [s |] eqn:Es; [| discriminate].
  case_bool_decide as Hempty; [discriminate |].
  injection Hsome as <-. cbn [SuggestionEntry.suggestion SuggestionEntry.rule
                              SuggestionEntry.severity].
  split; [done |]. exists r. done.
Qed.

Lemma report_suggestions_from_results_witness :
  let self := (create_evaluator Heap.empty).1 in
  let h := (create_evaluator Heap.empty).2 in
  let report :=
    RuleEvaluator.evaluate_outfit self h (Some [Str "红"; Str "绿"])
                                  None None None None in
  ∃ sg, sg ∈ Report.suggestions report ∧ SuggestionEntry.suggestion sg ≠ "".
Proof.
  cbv zeta.
  assert (H : ∃ sg, sg ∈ Report.suggestions
                (RuleEvaluator.evaluate_outfit (create_evaluator Heap.empty).1
                   (create_evaluator Heap.empty).2 (Some [Str "红"; Str "绿"])
                   None None None None)).
  { vm_compute. eexists. apply list_elem_of_here. }
  destruct H as [sg Hsg]. exists sg. split; [exact Hsg |].
  pose proof (report_suggestions_from_results (create_evaluator Heap.empty).1
                (create_evaluator Heap.empty).2 (Some [Str "红"; Str "绿"])
                None None None None) as T.
  cbv zeta in T. destruct T as (_ & _ & T).
  exact (proj1 (T sg Hsg)).
Defined.

(** X15: with no rule enabled the report holds score 0 and no result, and the
    outfit passes. *)
Theorem report_without_enabled_rules (self : RuleEvaluator.t) (h : Heap.t)
    (colors : option (list ColorItem))
    (styles context : option (gmap string string))
    (top bottom : option (list ColorItem))
    (Hnone : RuleLibrary.get_enabled_rules (RuleEvaluator.rule_library self) h
             = []) :
  let report :=
    RuleEvaluator.evaluate_outfit self h colors styles context top bottom in
  (Report.score report == 0)%Q
  ∧ Report.passed report = true
  ∧ Report.results report = []
  ∧ Report.suggestions report = []
  ∧ Report.summary report = Summary.mk 0 0 0 0 0.
Proof.
  cbv zeta. unfold RuleEvaluator.evaluate_outfit. rewrite Hnone.
  cbn [fold_left]. cbv beta iota. cbn [Report.score Report.passed
    Report.results Report.suggestions Report.summary].
  split; [apply round_zero | repeat split].
Qed.

Lemma report_without_enabled_rules_witness :
  let self := (create_evaluator Heap.empty).1 in
  let h := (create_evaluator Heap.empty).2 in
  let self := RuleEvaluator.mk (RuleLibrary.remove_rule "三色原则"
                 (RuleLibrary.remove_rule "上浅下深原则"
                    (RuleLibrary.remove_rule "禁忌颜色组合"
                       (RuleLibrary.remove_rule "款式协调"
                          (RuleLibrary.remove_rule "场景适宜"
                             (RuleEvaluator.rule_library self) h) h) h) h) h) in
  RuleLibrary.get_enabled_rules (RuleEvaluator.rule_library self) h = []
  ∧ Report.passed
      (RuleEvaluator.evaluate_outfit self h
         (Some [Tuple (255, 0, 0); Tuple (0, 255, 0)]) None None None None)
    = true.
Proof.
  cbv zeta. split; [vm_compute; reflexivity |].
  apply report_without_enabled_rules. vm_compute. reflexivity.
Defined.

End report_properties.

(** ** rule_engine: what the concrete rules answer *)

Section concrete_result_properties.
Import rule_engine.

(** A branch that returns a literal result. *)
Ltac literal_result :=
  unfold consistent_result;
  cbn [RuleResult.severity RuleResult.suggestion RuleResult.passed
       RuleResult.score];
  repeat match goal with |- _ ∧ _ => split end;
  try (split; intros; discriminate);
  try (split; intros; reflexivity);
  try (intros; discriminate);
  try (intros; split; [discriminate | lra]);
  try (intros; split; reflexivity);
  try lra;
  try (intros s Hs; injection Hs as <-; cbn; discriminate).

Lemma ColorRule_skipped_consistent : consistent_result ColorRule_skipped.
Proof. unfold ColorRule_skipped. literal_result. Qed.

Lemma ThreeColorRule_consistent (max_colors : Z) (w : Q) colors d :
  consistent_result (ThreeColorRule_evaluate_colors max_colors w colors d).
Proof.
  unfold ThreeColorRule_evaluate_colors.
  destruct (Z.leb_spec (py.len (main_colors_of colors)) max_colors)
    as [Hle | Hgt]; [literal_result |].
  unfold consistent_result.
  cbn [RuleResult.severity RuleResult.suggestion RuleResult.passed
       RuleResult.score].
  assert (H0 : (0 <= inject_Z (Z.max 0 (100 - (py.len (main_colors_of colors)
                                               - max_colors) * 20)))%Q)
    by (change 0%Q with (inject_Z 0); rewrite <- Zle_Qle; lia).
  assert (H100 : (inject_Z (Z.max 0 (100 - (py.len (main_colors_of colors)
                                            - max_colors) * 20)) <= 100)%Q)
    by (change 100%Q with (inject_Z 100); rewrite <- Zle_Qle; lia).
  repeat match goal with |- _ ∧ _ => split end;
    try (intros; discriminate); try done; try lra.
  intros s Hs. injection Hs as <-. cbn. discriminate.
Qed.

Lemma LightTopDarkBottomRule_consistent (w : Q) colors d :
  consistent_result (LightTopDarkBottomRule_evaluate_colors w colors d).
Proof.
  unfold LightTopDarkBottomRule_evaluate_colors.
  set (t := average_brightness (default [] (OutfitData.top_colors d))).
  set (b := average_brightness (default [] (OutfitData.bottom_colors d))).
  destruct (_ || _); [literal_result |].
  destruct (py.Qgeb t b) eqn:Hge; [literal_result |].
  assert (Hlt : (t < b)%Q).
  { apply Qnot_le_lt. intros Hle. apply Qle_bool_iff in Hle.
    unfold py.Qgeb in Hge. congruence. }
  assert (Hhalf : ((b - t) / 2 == (b - t) * (1 # 2))%Q) by field.
  unfold consistent_result.
  cbn [RuleResult.severity RuleResult.suggestion RuleResult.passed
       RuleResult.score].
  assert (Hs : (0 <= py.Qmax 0 (100 - (b - t) / 2))%Q
               ∧ (py.Qmax 0 (100 - (b - t) / 2) <= 100)%Q).
  { unfold py.Qmax. destruct (py.Qltb 0 (100 - (b - t) / 2)) eqn:Hpos.
    - apply Qltb_true in Hpos. rewrite Hhalf in *. split; lra.
    - split; lra. }
  destruct Hs as [Hs0 Hs100].
  repeat match goal with |- _ ∧ _ => split end;
    try (intros; discriminate); try done; try lra.
  intros s Hs. injection Hs as <-. discriminate.
Qed.

Lemma ForbiddenColorComboRule_consistent (w : Q) colors d :
  consistent_result (ForbiddenColorComboRule_evaluate_colors w colors d).
Proof.
  unfold ForbiddenColorComboRule_evaluate_colors.
  destruct (is_empty _); literal_result.
Qed.

Lemma StyleCoordinationRule_consistent (w : Q) styles d :
  consistent_result (StyleCoordinationRule_evaluate_styles w styles d).
Proof.
  destruct (style_result_by_distinct_types w styles d)
    as [[_ ->] | [[_ ->] | [_ ->]]]; literal_result.
Qed.

Lemma ContextAppropriateRule_consistent (w : Q) context d :
  consistent_result (ContextAppropriateRule_evaluate_context w context d).
Proof.
  unfold ContextAppropriateRule_evaluate_context. cbv zeta.
  repeat match goal with
         | |- context [if ?c then _ else _] => destruct c
         end;
    literal_result.
Qed.

Lemma concrete_rule_consistent (self : BaseRule.t) (d : OutfitData.t) :
  is_concrete (BaseRule.class self) = true →
  consistent_result (evaluate self d).
Proof.
  unfold evaluate, ColorRule_evaluate, StyleRule_evaluate,
    ContextRule_evaluate.
  destruct (BaseRule.class self); try discriminate; intros _;
    match goal with
    | |- context [if ?c then _ else _] => destruct c
    end;
    first [ by literal_result
          | apply ThreeColorRule_consistent
          | apply LightTopDarkBottomRule_consistent
          | apply ForbiddenColorComboRule_consistent
          | apply StyleCoordinationRule_consistent
          | apply ContextAppropriateRule_consistent ].
Qed.

(** Among the concrete rules, only the forbidden-combination rule answers
    with severity error. *)
Lemma concrete_rule_error (self : BaseRule.t) (d : OutfitData.t) :
  is_concrete (BaseRule.class self) = true →
  RuleResult.severity (evaluate self d) = ERROR →
  BaseRule.class self = ForbiddenColorComboRule
  ∧ RuleResult.passed (evaluate self d) = false.
Proof.
  unfold evaluate, ColorRule_evaluate, StyleRule_evaluate,
    ContextRule_evaluate.
  destruct (BaseRule.class self); try discriminate; intros _.
  - unfold ThreeColorRule_evaluate_colors.
    repeat match goal with
           | |- context [if ?c then _ else _] => destruct c
           end; discriminate.
  - unfold LightTopDarkBottomRule_evaluate_colors.
    repeat match goal with
           | |- context [if ?c then _ else _] => destruct c
           end; discriminate.
  - unfold ForbiddenColorComboRule_evaluate_colors.
    repeat match goal with
           | |- context [if ?c then _ else _] => destruct c
           end; try discriminate. done.
  - destruct (bool_decide _); [discriminate |].
    destruct (style_result_by_distinct_types (BaseRule.weight self)
                (default ∅ (OutfitData.styles d)) d)
      as [[_ ->] | [[_ ->] | [_ ->]]]; discriminate.
  - unfold ContextAppropriateRule_evaluate_context. cbv zeta.
    repeat match goal with
           | |- context [if ?c then _ else _] => destruct c
           end; discriminate.
Qed.

(** Among the concrete rules, a failure scores 80 or less, but for the
    light-top-dark-bottom rule, whose failing score starts at 100. *)
Lemma concrete_rule_failure (self : BaseRule.t) (d : OutfitData.t) :
  is_concrete (BaseRule.class self) = true →
  BaseRule.class self ≠ LightTopDarkBottomRule →
  RuleResult.passed (evaluate self d) = false →
  (RuleResult.score (evaluate self d) <= 80)%Q.
Proof.
  unfold evaluate, ColorRule_evaluate, StyleRule_evaluate,
    ContextRule_evaluate.
  destruct (BaseRule.class self); try discriminate; intros _ Hclass;
    try done.
  - unfold ThreeColorRule_evaluate_colors.
    destruct (is_empty _); [discriminate |].
    destruct (Z.leb_spec (py.len (main_colors_of
                                    (default [] (OutfitData.colors d))))
                         max_colors) as [Hle | Hgt]; [discriminate |].
    intros _. cbn [RuleResult.score].
    change 80%Q with (inject_Z 80). rewrite <- Zle_Qle. lia.
  - unfold ForbiddenColorComboRule_evaluate_colors.
    repeat match goal with
           | |- context [if ?c then _ else _] => destruct c
           end;
      first [ discriminate | intros _; cbn [RuleResult.score]; lra ].
  - destruct (bool_decide _); [discriminate |].
    destruct (style_result_by_distinct_types (BaseRule.weight self)
                (default ∅ (OutfitData.styles d)) d)
      as [[_ ->] | [[_ ->] | [_ ->]]]; discriminate.
  - unfold ContextAppropriateRule_evaluate_context. cbv zeta.
    repeat match goal with
           | |- context [if ?c then _ else _] => destruct c
           end;
      first [ discriminate | intros _; cbn [RuleResult.score]; lra ].
Qed.

(** X16: every result of a rule of the five concrete classes is consistent:
    severity info goes with a passing score 100 and no suggestion, any other
    severity with a non-empty suggestion, a failure with a severity other
    than info; the score is in 0..100.  Severity error comes from the
    forbidden-combination rule alone, the style-coordination rule never
    fails an outfit, and a failure of a rule other than the
    light-top-dark-bottom rule scores 80 or less. *)
Theorem concrete_results_are_consistent (self : BaseRule.t)
    (d : OutfitData.t)
    (Hclass : is_concrete (BaseRule.class self) = true) :
  consistent_result (evaluate self d)
  ∧ (RuleResult.severity (evaluate self d) = ERROR →
     BaseRule.class self = ForbiddenColorComboRule
     ∧ RuleResult.passed (evaluate self d) = false)
  ∧ (BaseRule.class self = StyleCoordinationRule →
     RuleResult.passed (evaluate self d) = true)
  ∧ (BaseRule.class self ≠ LightTopDarkBottomRule →
     RuleResult.passed (evaluate self d) = false →
     (RuleResult.score (evaluate self d) <= 80)%Q).
Proof.
  split; [by apply concrete_rule_consistent |].
  split; [by apply concrete_rule_error |].
  split; [| by apply concrete_rule_failure].
  intros Hstyle. unfold evaluate, StyleRule_evaluate. rewrite Hstyle.
  destruct (bool_decide _); [reflexivity |].
  destruct (style_result_by_distinct_types (BaseRule.weight self)
              (default ∅ (OutfitData.styles d)) d)
    as [[_ ->] | [[_ ->] | [_ ->]]]; reflexivity.
Qed.

Lemma concrete_results_are_consistent_witness :
  let self := new_ForbiddenColorComboRule 1.8 in
  let d := OutfitData.mk (Some [Str "红"; Str "绿"]) None None None None in
  (is_concrete (BaseRule.class self) = true
   ∧ RuleResult.severity (evaluate self d) = ERROR
   ∧ BaseRule.class self ≠ LightTopDarkBottomRule)
  ∧ consistent_result (evaluate self d)
  ∧ RuleResult.passed (evaluate self d) = false
  ∧ (RuleResult.score (evaluate self d) <= 80)%Q.
Proof.
  cbv zeta.
  assert (H1 : is_concrete (BaseRule.class (new_ForbiddenColorComboRule 1.8))
               = true) by reflexivity.
  assert (H2 : RuleResult.severity
                 (evaluate (new_ForbiddenColorComboRule 1.8)
                    (OutfitData.mk (Some [Str "红"; Str "绿"])
                                   None None None None)) = ERROR)
    by (vm_compute; reflexivity).
  assert (H3 : BaseRule.class (new_ForbiddenColorComboRule 1.8)
               ≠ LightTopDarkBottomRule) by discriminate.
  split; [split; [exact H1 | split; [exact H2 | exact H3]] |].
  destruct (concrete_results_are_consistent (new_ForbiddenColorComboRule 1.8)
              (OutfitData.mk (Some [Str "红"; Str "绿"]) None None None None)
              H1) as (Hc & Herr & _ & Hfail).
  split; [exact Hc |].
  split; [exact (proj2 (Herr H2)) | exact (Hfail H3 (proj2 (Herr H2)))].
Defined.

End concrete_result_properties.

(** ** rule_engine: the library as constructed and its verdict *)

Section default_library_properties.
Import rule_engine.

Lemma default_library_fresh (h : Heap.t) :
  let lib := (RuleLibrary.__init__ h).1 in
  let h' := (RuleLibrary.__init__ h).2 in
  RuleLibrary.rules lib = seq (Heap.next h) 5
  ∧ map (Heap.object h') (RuleLibrary.rules lib) = default_rules
  ∧ Heap.next h' = (Heap.next h + 5)%nat
  ∧ (∀ l, (l < Heap.next h)%nat → Heap.object h' l = Heap.object h l)
  ∧ RuleLibrary.get_enabled_rules lib h' = RuleLibrary.rules lib.
Proof.
  cbv zeta. pose proof (default_library h) as H. cbv zeta in H.
  destruct (RuleLibrary.__init__ h) as [lib h'] eqn:E.
  destruct H as (Hr & H1 & H2 & H3 & H4 & H5). cbn [fst snd].
  split; [exact Hr |]. split; [| split; [| split]].
  - rewrite Hr. cbn [map]. rewrite H1, H2, H3, H4, H5. reflexivity.
  - unfold RuleLibrary.__init__, RuleLibrary._load_default_rules, Heap.alloc
      in E. cbn in E. injection E as _ <-. cbn. lia.
  - intros l Hl.
    unfold RuleLibrary.__init__, RuleLibrary._load_default_rules, Heap.alloc
      in E. cbn in E. injection E as _ <-. cbn.
    rewrite !fn_lookup_insert_ne by lia. reflexivity.
  - unfold RuleLibrary.get_enabled_rules. rewrite Hr.
    rewrite !filter_cons, filter_nil. rewrite H1, H2, H3, H4, H5.
    reflexivity.
Qed.

(** X17: constructing a library creates five new rule objects, at the five next
    addresses: the five concrete rules under their names and weights, all
    enabled; the rule objects that existed are not touched. *)
Theorem library_constructor_allocates (h : Heap.t) :
  let lib := (RuleLibrary.__init__ h).1 in
  let h' := (RuleLibrary.__init__ h).2 in
  RuleLibrary.rules lib = seq (Heap.next h) 5
  ∧ map (Heap.object h') (RuleLibrary.rules lib) = default_rules
  ∧ map BaseRule.weight default_rules = [1.5; 1.2; 1.8; 1.5; 1.3]%Q
  ∧ Heap.next h' = (Heap.next h + 5)%nat
  ∧ (∀ l, (l < Heap.next h)%nat → Heap.object h' l = Heap.object h l)
  ∧ RuleLibrary.get_enabled_rules lib h' = RuleLibrary.rules lib.
Proof.
  cbv zeta. destruct (default_library_fresh h) as (H1 & H2 & H3 & H4 & H5).
  repeat split; done.
Qed.

Lemma library_constructor_allocates_witness :
  let h := (RuleLibrary.__init__ Heap.empty).2 in
  (0 < Heap.next h)%nat
  ∧ Heap.object (RuleLibrary.__init__ h).2 0%nat = Heap.object h 0%nat.
Proof.
  cbv zeta.
  assert (H : (0 < Heap.next (RuleLibrary.__init__ Heap.empty).2)%nat)
    by (vm_compute; lia).
  split; [exact H |].
  pose proof (library_constructor_allocates
                (RuleLibrary.__init__ Heap.empty).2) as T.
  cbv zeta in T. destruct T as (_ & _ & _ & _ & T & _).
  exact (T 0%nat H).
Defined.

(** The entries of the results of the default evaluation. *)
Lemma default_results (h : Heap.t) (d : OutfitData.t) :
  let lib := (RuleLibrary.__init__ h).1 in
  let h' := (RuleLibrary.__init__ h).2 in
  map (entry_of h' d) (RuleLibrary.get_enabled_rules lib h')
  = map (λ self,
           ResultEntry.mk (BaseRule.name self) (BaseRule.description self)
             (RuleResult.passed (evaluate self d))
             (RuleResult.score (evaluate self d))
             (RuleResult.message (evaluate self d))
             (RuleResult.suggestion (evaluate self d))
             (RuleSeverity_value (RuleResult.severity (evaluate self d)))
             (BaseRule.weight self))
        default_rules
  ∧ scored h' d (RuleLibrary.get_enabled_rules lib h')
    = map (λ self, (RuleResult.score (evaluate self d), BaseRule.weight self))
          default_rules.
Proof.
  cbv zeta. destruct (default_library_fresh h) as (_ & H2 & _ & _ & H5).
  rewrite H5, <- H2. unfold scored. rewrite !map_map. done.
Qed.

Lemma severity_value_error (s : RuleSeverity) :
  RuleSeverity_value s = "error" ↔ s = ERROR.
Proof. destruct s; split; try discriminate; reflexivity. Qed.

Lemma forbidden_rule_severity (w : Q) (d : OutfitData.t) :
  RuleResult.severity (evaluate (new_ForbiddenColorComboRule w) d) = ERROR
  ↔ is_empty (violations_of
                (list_to_set (map color_name_of
                                  (default [] (OutfitData.colors d)))))
    = false.
Proof.
  unfold evaluate, ColorRule_evaluate,
    ForbiddenColorComboRule_evaluate_colors.
  cbn [BaseRule.class new_ForbiddenColorComboRule]. cbv zeta.
  destruct (default [] (OutfitData.colors d)) as [|c l] eqn:E.
  - cbn [is_empty]. split; [discriminate |]. intros H.
    exfalso. revert H. vm_compute. discriminate.
  - cbn [is_empty]. destruct (is_empty (violations_of _)); split;
      try discriminate; reflexivity.
Qed.

(** X18: the evaluation with a library as constructed fails an outfit exactly
    when its colours hold a forbidden combination: no style, context, top or
    bottom colour changes the verdict. *)
Theorem default_verdict_is_forbidden_combo (h : Heap.t)
    (colors : option (list ColorItem))
    (styles context : option (gmap string string))
    (top_colors bottom_colors : option (list ColorItem)) :
  Report.passed
    (rule_engine.evaluate_outfit h colors styles context
                                 top_colors bottom_colors)
  = is_empty (violations_of
                (list_to_set (map color_name_of (or_list colors [])))).
Proof.
  unfold rule_engine.evaluate_outfit, create_evaluator, RuleEvaluator.__init__.
  pose proof (default_results h
    (RuleEvaluator.build_outfit_data colors styles context
                                     top_colors bottom_colors)) as [Hres _].
  cbv zeta in Hres.
  destruct (RuleLibrary.__init__ h) as [lib h'].
  destruct (report_fields (RuleEvaluator.mk lib) h' colors styles context
              top_colors bottom_colors) as (_ & -> & _).
  cbn [RuleEvaluator.rule_library fst snd] in *. rewrite Hres.
  set (d := RuleEvaluator.build_outfit_data colors styles context
                                            top_colors bottom_colors).
  pose proof (forbidden_rule_severity 1.8 d) as Hforbidden.
  change (default [] (OutfitData.colors d)) with (or_list colors [])
    in Hforbidden.
  unfold count_severity, default_rules. cbn [map].
  rewrite !filter_cons, filter_nil. cbn [ResultEntry.severity].
  assert (Hno : ∀ self, is_concrete (BaseRule.class self) = true →
                        BaseRule.class self ≠ ForbiddenColorComboRule →
                        RuleSeverity_value (RuleResult.severity (evaluate self d))
                        ≠ "error").
  { intros self Hc Hnf Herr. apply severity_value_error in Herr.
    by destruct (concrete_rule_error self d Hc Herr). }
  rewrite (decide_False (P := RuleSeverity_value
      (RuleResult.severity (evaluate (new_ThreeColorRule 3 1.5) d)) = "error"))
    by (by apply Hno).
  rewrite (decide_False (P := RuleSeverity_value
      (RuleResult.severity (evaluate (new_LightTopDarkBottomRule 1.2) d))
      = "error")) by (by apply Hno).
  rewrite (decide_False (P := RuleSeverity_value
      (RuleResult.severity (evaluate (new_StyleCoordinationRule 1.5) d))
      = "error")) by (by apply Hno).
  rewrite (decide_False (P := RuleSeverity_value
      (RuleResult.severity (evaluate (new_ContextAppropriateRule 1.3) d))
      = "error")) by (by apply Hno).
  destruct (decide (RuleSeverity_value
      (RuleResult.severity (evaluate (new_ForbiddenColorComboRule 1.8) d))
      = "error")) as [Herr | Hok].
  - apply severity_value_error, Hforbidden in Herr. rewrite Herr. reflexivity.
  - destruct (is_empty _) eqn:E; [reflexivity |].
    exfalso. apply Hok, severity_value_error, Hforbidden. reflexivity.
Qed.

(** X19: the evaluation with a library as constructed, given no colours, no
    styles and no context (absent or empty): every rule is skipped with
    score 100 and severity info, so the report holds score 100, the outfit
    passes, and there is no suggestion, whatever top and bottom colours are
    given. *)
Theorem default_evaluation_without_data (h : Heap.t)
    (colors : option (list ColorItem))
    (styles context : option (gmap string string))
    (top_colors bottom_colors : option (list ColorItem))
    (Hcolors : no_list colors) (Hstyles : no_dict styles)
    (Hcontext : no_dict context) :
  let report :=
    rule_engine.evaluate_outfit h colors styles context
                                top_colors bottom_colors in
  (Report.score report == 100)%Q
  ∧ Report.passed report = true
  ∧ Report.suggestions report = []
  ∧ Report.summary report = Summary.mk 5 5 0 0 0
  ∧ map (λ e, (ResultEntry.score e, ResultEntry.passed e,
               ResultEntry.severity e))
        (Report.results report)
    = replicate 5 (100%Q, true, "info").
Proof.
  cbv zeta.
  unfold rule_engine.evaluate_outfit, create_evaluator, RuleEvaluator.__init__.
  pose proof (default_results h
    (RuleEvaluator.build_outfit_data colors styles context
                                     top_colors bottom_colors)) as [Hres Hsw].
  cbv zeta in Hres, Hsw.
  destruct (RuleLibrary.__init__ h) as [lib h'].
  destruct (report_fields (RuleEvaluator.mk lib) h' colors styles context
              top_colors bottom_colors) as (-> & -> & -> & ->).
  destruct (report_score (RuleEvaluator.mk lib) h' colors styles context
              top_colors bottom_colors) as [-> _].
  cbn [RuleEvaluator.rule_library fst snd] in *. rewrite Hres, Hsw.
  destruct Hcolors as [-> | ->], Hstyles as [-> | ->],
    Hcontext as [-> | ->];
    (split; [vm_compute; reflexivity | repeat split; vm_compute; reflexivity]).
Qed.

Lemma default_evaluation_without_data_witness :
  (no_list (None : option (list ColorItem)) ∧ no_dict (Some ∅) ∧ no_dict None)
  ∧ (Report.score
       (rule_engine.evaluate_outfit Heap.empty None (Some ∅) None
          (Some [Str "黑"]) (Some [Str "白"])) == 100)%Q.
Proof.
  assert (H1 : no_list (None : option (list ColorItem))) by (by left).
  assert (H2 : no_dict (Some ∅)) by (by right).
  assert (H3 : no_dict None) by (by left).
  split; [done |].
  apply (default_evaluation_without_data Heap.empty None (Some ∅) None
           (Some [Str "黑"]) (Some [Str "白"]) H1 H2 H3).
Defined.

End default_library_properties.

(** ** rule_engine: registering, looking up and removing rules *)

Section registry_properties.
Import rule_engine.

Lemma find_app {A} (f : A → bool) (l1 l2 : list A) :
  List.find f (l1 ++ l2)
  = match List.find f l1 with
    | Some x => Some x
    | None => List.find f l2
    end.
Proof.
  induction l1 as [|a l1 IH]; [reflexivity |]. cbn [app List.find].
  destruct (f a); [reflexivity | exact IH].
Qed.

Lemma get_rule_None (x : string) (lib : RuleLibrary.t) (h : Heap.t) :
  RuleLibrary.get_rule x lib h = None ↔ x ∉ names lib h.
Proof.
  unfold RuleLibrary.get_rule, names.
  induction (RuleLibrary.rules lib) as [|r rs IH]; cbn [List.find map].
  - split; [intros _ H; inversion H | reflexivity].
  - case_bool_decide as Hn.
    + split; [discriminate |]. intros H. exfalso. apply H. rewrite Hn. left.
    + rewrite IH, not_elem_of_cons. split; [by intros ? | by intros [_ ?]].
Qed.

(** X20: [get_rule] after [add_rule]: a rule already registered under the name
    keeps answering; otherwise the new rule answers, under its own name. *)
Theorem get_rule_after_add_rule (lib : RuleLibrary.t) (h : Heap.t) (r : loc)
    (x : string) :
  RuleLibrary.get_rule x (RuleLibrary.add_rule r lib) h
  = match RuleLibrary.get_rule x lib h with
    | Some r0 => Some r0
    | None => if bool_decide (BaseRule.name (Heap.object h r) = x)
              then Some r else None
    end
  ∧ (BaseRule.name (Heap.object h r) ∉ names lib h →
     RuleLibrary.get_rule (BaseRule.name (Heap.object h r))
                          (RuleLibrary.add_rule r lib) h = Some r)
  ∧ (∀ r0, RuleLibrary.get_rule x lib h = Some r0 →
           RuleLibrary.get_rule x (RuleLibrary.add_rule r lib) h = Some r0).
Proof.
  assert (Hmain : ∀ y,
    RuleLibrary.get_rule y (RuleLibrary.add_rule r lib) h
    = match RuleLibrary.get_rule y lib h with
      | Some r0 => Some r0
      | None => if bool_decide (BaseRule.name (Heap.object h r) = y)
                then Some r else None
      end).
  { intros y. unfold RuleLibrary.get_rule, RuleLibrary.add_rule.
    cbn [RuleLibrary.rules]. rewrite find_app. cbn [List.find].
    destruct (List.find _ _); [reflexivity |]. by destruct (bool_decide _). }
  split; [apply Hmain |]. split.
  - intros Hnew. rewrite Hmain. apply get_rule_None in Hnew. rewrite Hnew.
    by rewrite bool_decide_eq_true_2.
  - intros r0 Hr0. by rewrite Hmain, Hr0.
Qed.

Lemma get_rule_after_add_rule_witness :
  let lib := (RuleLibrary.__init__ Heap.empty).1 in
  let h := (RuleLibrary.__init__ Heap.empty).2 in
  let r := (Heap.alloc (BaseRule.mk "自定义" "" 1 true ForbiddenColorComboRule) h).1 in
  let h := (Heap.alloc (BaseRule.mk "自定义" "" 1 true ForbiddenColorComboRule) h).2 in
  (BaseRule.name (Heap.object h r) ∉ names lib h)
  ∧ RuleLibrary.get_rule "自定义" (RuleLibrary.add_rule r lib) h = Some r.
Proof.
  cbv zeta.
  assert (H : BaseRule.name
                (Heap.object
                   (Heap.alloc (BaseRule.mk "自定义" "" 1 true ForbiddenColorComboRule)
                      (RuleLibrary.__init__ Heap.empty).2).2
                   (Heap.alloc (BaseRule.mk "自定义" "" 1 true ForbiddenColorComboRule)
                      (RuleLibrary.__init__ Heap.empty).2).1)
              ∉ names (RuleLibrary.__init__ Heap.empty).1
                  (Heap.alloc (BaseRule.mk "自定义" "" 1 true ForbiddenColorComboRule)
                     (RuleLibrary.__init__ Heap.empty).2).2).
  { intros Hin. apply (bool_decide_pack _) in Hin. vm_compute in Hin.
    exact Hin. }
  split; [exact H |].
  exact (proj1 (proj2 (get_rule_after_add_rule _ _ _ "自定义")) H).
Defined.

Lemma remove_rule_rules (x : string) (lib : RuleLibrary.t) (h : Heap.t) :
  x ∉ names lib h → RuleLibrary.remove_rule x lib h = lib.
Proof.
  unfold names, RuleLibrary.remove_rule. destruct lib as [rs].
  cbn [RuleLibrary.rules]. intros Hx. f_equal.
  induction rs as [|r rs IH]; [reflexivity |]. cbn [map] in Hx.
  apply not_elem_of_cons in Hx as [Hr Hrs]. rewrite filter_cons.
  rewrite decide_True by done. f_equal. by apply IH.
Qed.

(** X21: [remove_rule] removes every rule registered under the name, so that
    [get_rule] no longer finds one, and leaves the rules of other names in
    place; a name that no rule has changes nothing, removing twice is
    removing once, and removing a rule just added under a new name gives the
    library back. *)
Theorem remove_rule_properties (lib : RuleLibrary.t) (h : Heap.t)
    (x : string) :
  (x ∉ names (RuleLibrary.remove_rule x lib h) h)
  ∧ RuleLibrary.get_rule x (RuleLibrary.remove_rule x lib h) h = None
  ∧ (∀ y, y ≠ x →
          RuleLibrary.get_rule y (RuleLibrary.remove_rule x lib h) h
          = RuleLibrary.get_rule y lib h)
  ∧ RuleLibrary.remove_rule x (RuleLibrary.remove_rule x lib h) h
    = RuleLibrary.remove_rule x lib h
  ∧ (x ∉ names lib h → RuleLibrary.remove_rule x lib h = lib)
  ∧ (∀ r, BaseRule.name (Heap.object h r) = x → x ∉ names lib h →
          RuleLibrary.remove_rule x (RuleLibrary.add_rule r lib) h = lib).
Proof.
  assert (Hgone : x ∉ names (RuleLibrary.remove_rule x lib h) h).
  { rewrite names_remove_rule. intros H.
    apply list_elem_of_filter in H as [H _]. done. }
  split; [exact Hgone |]. split; [by apply get_rule_None |].
  split; [| split; [by apply remove_rule_rules |
                    split; [apply remove_rule_rules |]]].
  - intros y Hy. unfold RuleLibrary.get_rule, RuleLibrary.remove_rule.
    cbn [RuleLibrary.rules].
    induction (RuleLibrary.rules lib) as [|r rs IH]; [reflexivity |].
    rewrite filter_cons. destruct (decide (_ ≠ x)) as [Hne | He].
    + cbn [List.find]. destruct (bool_decide _); [reflexivity | exact IH].
    + cbn [List.find]. rewrite IH. apply dec_stable in He.
      rewrite bool_decide_eq_false_2; [reflexivity | congruence].
  - intros r Hr Hx. unfold RuleLibrary.remove_rule, RuleLibrary.add_rule.
    cbn [RuleLibrary.rules]. rewrite filter_app, filter_cons, filter_nil.
    rewrite decide_False by (intros H; by apply H). rewrite app_nil_r.
    by apply remove_rule_rules.
Qed.

Lemma remove_rule_properties_witness :
  let lib := (RuleLibrary.__init__ Heap.empty).1 in
  let h := (RuleLibrary.__init__ Heap.empty).2 in
  ("五色原则" ∉ names lib h)
  ∧ RuleLibrary.remove_rule "五色原则" lib h = lib.
Proof.
  cbv zeta.
  assert (H : "五色原则" ∉ names (RuleLibrary.__init__ Heap.empty).1
                                  (RuleLibrary.__init__ Heap.empty).2).
  { intros Hin. apply (bool_decide_pack _) in Hin. vm_compute in Hin.
    exact Hin. }
  split; [exact H |].
  exact (proj1 (proj2 (proj2 (proj2 (proj2
           (remove_rule_properties _ _ "五色原则"))))) H).
Defined.

End registry_properties.

(** ** rule_engine: enabling, disabling and configuring rules *)

Section configuration_properties.
Import rule_engine.

Lemma update_elsewhere (l l' : loc) (f : BaseRule.t → BaseRule.t)
    (h : Heap.t) :
  l ≠ l' → Heap.object (Heap.update l f h) l' = Heap.object h l'.
Proof. intros Hne. rewrite object_update. by rewrite decide_False. Qed.

Lemma update_here (l : loc) (f : BaseRule.t → BaseRule.t) (h : Heap.t) :
  Heap.object (Heap.update l f h) l = f (Heap.object h l).
Proof. rewrite object_update. by rewrite decide_True. Qed.

(** What [enable_rule] (for [b = true]) and [disable_rule] (for
    [b = false]) do to the store. *)
Lemma set_rule_enabled (b : bool) (x : string) (lib : RuleLibrary.t)
    (h : Heap.t) :
  let h' := if b then RuleLibrary.enable_rule x lib h
            else RuleLibrary.disable_rule x lib h in
  match RuleLibrary.get_rule x lib h with
  | Some r =>
      Heap.object h' r = BaseRule.set_enabled b (Heap.object h r)
      ∧ ∀ l, l ≠ r → Heap.object h' l = Heap.object h l
  | None => h' = h
  end.
Proof.
  cbv zeta. unfold RuleLibrary.enable_rule, RuleLibrary.disable_rule.
  destruct (RuleLibrary.get_rule x lib h) as [r |]; [| by destruct b].
  destruct b; (split; [apply update_here |]);
    intros l Hl; by apply update_elsewhere.
Qed.

(** X22: [enable_rule] and [disable_rule] reach the first rule registered under
    the name and no other object: they set its flag and keep its name,
    description, weight and class; the rule found is afterwards listed by
    [get_enabled_rules] exactly when it was enabled; a name that no rule has
    leaves the store as it is; and a second call changes nothing more. *)
Theorem enable_disable_effect (b : bool) (x : string) (lib : RuleLibrary.t)
    (h : Heap.t) :
  let set x h := if b then RuleLibrary.enable_rule x lib h
                 else RuleLibrary.disable_rule x lib h in
  (∀ r, RuleLibrary.get_rule x lib h = Some r →
        BaseRule.enabled (Heap.object (set x h) r) = b
        ∧ BaseRule.name (Heap.object (set x h) r) = x
        ∧ BaseRule.description (Heap.object (set x h) r)
          = BaseRule.description (Heap.object h r)
        ∧ BaseRule.weight (Heap.object (set x h) r)
          = BaseRule.weight (Heap.object h r)
        ∧ BaseRule.class (Heap.object (set x h) r)
          = BaseRule.class (Heap.object h r)
        ∧ (∀ l, l ≠ r → Heap.object (set x h) l = Heap.object h l)
        ∧ (r ∈ RuleLibrary.get_enabled_rules lib (set x h) ↔ b = true))
  ∧ (RuleLibrary.get_rule x lib h = None → set x h = h)
  ∧ (∀ l, Heap.object (set x (set x h)) l = Heap.object (set x h) l)
  ∧ Heap.next (set x h) = Heap.next h.
Proof.
  cbv zeta. pose proof (set_rule_enabled b x lib h) as Hset. cbv zeta in Hset.
  split; [| split; [| split]].
  - intros r Hr. rewrite Hr in Hset. destruct Hset as [Hhere Helse].
    destruct (get_rule_Some x lib h r Hr) as [Hin Hname].
    rewrite Hhere.
    repeat match goal with |- _ ∧ _ => split end; try done.
    unfold RuleLibrary.get_enabled_rules. rewrite list_elem_of_filter, Hhere.
    cbn [BaseRule.enabled BaseRule.set_enabled]. tauto.
  - intros Hnone. by rewrite Hnone in Hset.
  - intros l.
    assert (Hget : RuleLibrary.get_rule x lib
                     (if b then RuleLibrary.enable_rule x lib h
                      else RuleLibrary.disable_rule x lib h)
                   = RuleLibrary.get_rule x lib h).
    { unfold RuleLibrary.enable_rule, RuleLibrary.disable_rule.
      destruct (RuleLibrary.get_rule x lib h) as [r |] eqn:Hr;
        destruct b; rewrite ?get_rule_update_enabled; done. }
    pose proof (set_rule_enabled b x lib
                  (if b then RuleLibrary.enable_rule x lib h
                   else RuleLibrary.disable_rule x lib h)) as Hagain.
    cbv zeta in Hagain. rewrite Hget in Hagain.
    destruct (RuleLibrary.get_rule x lib h) as [r |] eqn:Hr.
    + destruct Hset as [Hhere Helse], Hagain as [Hhere' Helse'].
      destruct (decide (l = r)) as [-> | Hne]; [| by apply Helse'].
      destruct b; rewrite Hhere', Hhere; reflexivity.
    + destruct b; by rewrite Hagain.
  - unfold RuleLibrary.enable_rule, RuleLibrary.disable_rule.
    destruct (RuleLibrary.get_rule x lib h); by destruct b.
Qed.

(** X23: [configure_rule] with a flag alone is [enable_rule] or [disable_rule];
    with nothing to set, or for a name that no rule has, it leaves the store
    as it is; with a weight it sets the weight of the first rule registered
    under the name and changes no other object and nothing else of that
    rule. *)
Theorem configure_rule_effect (x : string) (self : RuleEvaluator.t)
    (h : Heap.t) :
  let lib := RuleEvaluator.rule_library self in
  RuleEvaluator.configure_rule x None (Some true) self h
  = RuleLibrary.enable_rule x lib h
  ∧ RuleEvaluator.configure_rule x None (Some false) self h
    = RuleLibrary.disable_rule x lib h
  ∧ RuleEvaluator.configure_rule x None None self h = h
  ∧ (RuleLibrary.get_rule x lib h = None →
     ∀ w b, RuleEvaluator.configure_rule x w b self h = h)
  ∧ (∀ (w : Q) r,
       RuleLibrary.get_rule x lib h = Some r →
       let h' := RuleEvaluator.configure_rule x (Some w) None self h in
       Heap.object h' r = BaseRule.set_weight w (Heap.object h r)
       ∧ BaseRule.weight (Heap.object h' r) = w
       ∧ BaseRule.enabled (Heap.object h' r)
         = BaseRule.enabled (Heap.object h r)
       ∧ (∀ l, l ≠ r → Heap.object h' l = Heap.object h l)
       ∧ RuleLibrary.get_enabled_rules lib h'
         = RuleLibrary.get_enabled_rules lib h
       ∧ names lib h' = names lib h).
Proof.
  cbv zeta. unfold RuleEvaluator.configure_rule, RuleLibrary.enable_rule,
    RuleLibrary.disable_rule.
  repeat match goal with |- _ ∧ _ => split end.
  - by destruct (RuleLibrary.get_rule _ _ _).
  - by destruct (RuleLibrary.get_rule _ _ _).
  - by destruct (RuleLibrary.get_rule _ _ _).
  - intros Hnone w b. by rewrite Hnone.
  - intros w r Hr. rewrite Hr.
    assert (Hhere : Heap.object (Heap.update r (BaseRule.set_weight w) h) r
                    = BaseRule.set_weight w (Heap.object h r))
      by apply update_here.
    assert (Helse : ∀ l, l ≠ r →
              Heap.object (Heap.update r (BaseRule.set_weight w) h) l
              = Heap.object h l)
      by (intros l Hl; by apply update_elsewhere).
    repeat match goal with |- _ ∧ _ => split end; try done.
    + by rewrite Hhere.
    + by rewrite Hhere.
    + unfold RuleLibrary.get_enabled_rules. apply filter_ext_elem_of.
      intros l _. destruct (decide (l = r)) as [-> | Hne].
      * by rewrite Hhere.
      * by rewrite Helse.
    + unfold names. apply map_ext. intros l.
      destruct (decide (l = r)) as [-> | Hne].
      * by rewrite Hhere.
      * by rewrite Helse.
Qed.

Lemma configure_rule_effect_witness :
  let self := (create_evaluator Heap.empty).1 in
  let h := (create_evaluator Heap.empty).2 in
  RuleLibrary.get_rule "款式协调" (RuleEvaluator.rule_library self) h
  = Some 3%nat
  ∧ BaseRule.weight
      (Heap.object
         (RuleEvaluator.configure_rule "款式协调" (Some 2%Q) None self h) 3%nat)
    = 2%Q.
Proof.
  cbv zeta.
  assert (H : RuleLibrary.get_rule "款式协调"
                (RuleEvaluator.rule_library (create_evaluator Heap.empty).1)
                (create_evaluator Heap.empty).2 = Some 3%nat)
    by (vm_compute; reflexivity).
  split; [exact H |].
  destruct (configure_rule_effect "款式协调" (create_evaluator Heap.empty).1
              (create_evaluator Heap.empty).2) as (_ & _ & _ & _ & Hw).
  exact (proj1 (proj2 (Hw 2%Q 3%nat H))).
Defined.

Lemma enable_disable_effect_witness :
  let lib := (RuleLibrary.__init__ Heap.empty).1 in
  let h := (RuleLibrary.__init__ Heap.empty).2 in
  RuleLibrary.get_rule "三色原则" lib h = Some 0%nat
  ∧ BaseRule.enabled
      (Heap.object (RuleLibrary.disable_rule "三色原则" lib h) 0%nat) = false.
Proof.
  cbv zeta.
  assert (H : RuleLibrary.get_rule "三色原则"
                (RuleLibrary.__init__ Heap.empty).1
                (RuleLibrary.__init__ Heap.empty).2 = Some 0%nat)
    by (vm_compute; reflexivity).
  split; [exact H |].
  destruct (enable_disable_effect false "三色原则"
              (RuleLibrary.__init__ Heap.empty).1
              (RuleLibrary.__init__ Heap.empty).2) as [Hfound _].
  exact (proj1 (Hfound 0%nat H)).
Defined.

(** The outcome of a concrete rule does not depend on its weight. *)
Lemma outcome_set_weight (w : Q) (self : BaseRule.t) (d : OutfitData.t) :
  is_concrete (BaseRule.class self) = true →
  outcome (evaluate (BaseRule.set_weight w self) d) = outcome (evaluate self d).
Proof.
  unfold evaluate. cbn [BaseRule.class BaseRule.weight BaseRule.set_weight].
  unfold ColorRule_evaluate, StyleRule_evaluate, ContextRule_evaluate.
  destruct (BaseRule.class self); try discriminate; intros _;
    unfold ThreeColorRule_evaluate_colors,
      LightTopDarkBottomRule_evaluate_colors,
      ForbiddenColorComboRule_evaluate_colors,
      StyleCoordinationRule_evaluate_styles,
      ContextAppropriateRule_evaluate_context; cbv zeta;
    repeat match goal with
           | |- context [if ?c then _ else _] => destruct c
           end; reflexivity.
Qed.

Lemma entry_reweight (f : loc → Q) (h : Heap.t) (d : OutfitData.t)
    (r : loc) :
  is_concrete (BaseRule.class (Heap.object h r)) = true →
  entry_of (reweight f h) d r = with_weight (f r) (entry_of h d r).
Proof.
  intros Hc. unfold entry_of, with_weight. cbv zeta.
  cbn [reweight Heap.object].
  pose proof (outcome_set_weight (f r) (Heap.object h r) d Hc) as Ho.
  unfold outcome in Ho. injection Ho as -> -> -> -> ->. reflexivity.
Qed.

Lemma entries_reweight (f : loc → Q) (h : Heap.t) (d : OutfitData.t)
    (rs : list loc) :
  (∀ r, r ∈ rs → is_concrete (BaseRule.class (Heap.object h r)) = true) →
  map (entry_of (reweight f h) d) rs
  = map (λ r, with_weight (f r) (entry_of h d r)) rs.
Proof.
  intros Hc. apply map_ext_in. intros r Hr. apply entry_reweight.
  apply Hc. by apply list_elem_of_In.
Qed.

(** What the report reads off the entries does not look at their
    weights. *)
Lemma report_parts_with_weight (f : loc → Q) (g : loc → ResultEntry.t)
    (rs : list loc) :
  let es := map g rs in
  let es' := map (λ r, with_weight (f r) (g r)) rs in
  map (with_weight 0) es' = map (with_weight 0) es
  ∧ map ResultEntry.weight es' = map f rs
  ∧ omap suggestion_of es' = omap suggestion_of es
  ∧ py.len es' = py.len es
  ∧ (∀ v, count_severity v es' = count_severity v es)
  ∧ (∀ b, py.len (filter (λ e, ResultEntry.passed e = b) es')
          = py.len (filter (λ e, ResultEntry.passed e = b) es)).
Proof.
  cbv zeta. unfold count_severity, py.len.
  induction rs as [|r rs (IH1 & IH2 & IH3 & IH4 & IH5 & IH6)].
  - repeat split.
  - cbn [map omap list_omap length].
    repeat match goal with |- _ ∧ _ => split end.
    + by rewrite IH1.
    + by rewrite IH2.
    + change (suggestion_of (with_weight (f r) (g r)))
        with (suggestion_of (g r)).
      fold (omap suggestion_of (map (λ r0, with_weight (f r0) (g r0)) rs)).
      fold (omap suggestion_of (map g rs)).
      by rewrite IH3.
    + lia.
    + intros v. specialize (IH5 v). rewrite !filter_cons.
      change (ResultEntry.severity (with_weight (f r) (g r)))
        with (ResultEntry.severity (g r)).
      destruct (decide (ResultEntry.severity (g r) = v));
        cbn [length]; lia.
    + intros b. specialize (IH6 b). rewrite !filter_cons.
      change (ResultEntry.passed (with_weight (f r) (g r)))
        with (ResultEntry.passed (g r)).
      destruct (decide (ResultEntry.passed (g r) = b));
        cbn [length]; lia.
Qed.

(** X24: the weights of the rules bear on the score of the report and on
    nothing else: when the weights of the rule objects are set anew, in any
    way, an evaluator whose enabled rules are of the concrete classes
    reports the same results but for the weight that each carries, the same
    verdict, the same suggestions and the same summary. *)
Theorem weights_bear_on_the_score_only (f : loc → Q)
    (self : RuleEvaluator.t)
    (h : Heap.t) (colors : option (list ColorItem))
    (styles context : option (gmap string string))
    (top_colors bottom_colors : option (list ColorItem))
    (Hconcrete : ∀ r,
        r ∈ RuleLibrary.get_enabled_rules (RuleEvaluator.rule_library self) h →
        is_concrete (BaseRule.class (Heap.object h r)) = true) :
  let enabled :=
    RuleLibrary.get_enabled_rules (RuleEvaluator.rule_library self) h in
  let report :=
    RuleEvaluator.evaluate_outfit self h colors styles context
                                  top_colors bottom_colors in
  let report' :=
    RuleEvaluator.evaluate_outfit self (reweight f h) colors styles context
                                  top_colors bottom_colors in
  map (with_weight 0) (Report.results report')
  = map (with_weight 0) (Report.results report)
  ∧ map ResultEntry.weight (Report.results report') = map f enabled
  ∧ Report.passed report' = Report.passed report
  ∧ Report.suggestions report' = Report.suggestions report
  ∧ Report.summary report' = Report.summary report.
Proof.
  cbv zeta.
  set (lib := RuleEvaluator.rule_library self) in *.
  set (d := RuleEvaluator.build_outfit_data colors styles context
                                            top_colors bottom_colors).
  assert (Hen : RuleLibrary.get_enabled_rules lib (reweight f h)
                = RuleLibrary.get_enabled_rules lib h) by reflexivity.
  destruct (report_fields self (reweight f h) colors styles context
              top_colors bottom_colors) as (-> & -> & -> & ->).
  destruct (report_fields self h colors styles context
              top_colors bottom_colors) as (-> & -> & -> & ->).
  fold lib d. rewrite Hen, (entries_reweight f h d _ Hconcrete).
  destruct (report_parts_with_weight f (entry_of h d)
              (RuleLibrary.get_enabled_rules lib h))
    as (H1 & H2 & H3 & H4 & H5 & H6).
  cbv zeta in H1, H2, H3, H4, H5, H6.
  rewrite H1, H2, H3, H4, !H5, !H6. done.
Qed.

Lemma weights_bear_on_the_score_only_witness :
  let self := (create_evaluator Heap.empty).1 in
  let h := (create_evaluator Heap.empty).2 in
  let colors := Some [Str "红"; Str "绿"] in
  (∀ r, r ∈ RuleLibrary.get_enabled_rules (RuleEvaluator.rule_library self) h →
        is_concrete (BaseRule.class (Heap.object h r)) = true)
  ∧ Report.passed
      (RuleEvaluator.evaluate_outfit self (reweight (λ _, 1%Q) h) colors
                                     None None None None)
    = Report.passed
        (RuleEvaluator.evaluate_outfit self h colors None None None None).
Proof.
  cbv zeta.
  assert (Hc : ∀ r,
    r ∈ RuleLibrary.get_enabled_rules
          (RuleEvaluator.rule_library (create_evaluator Heap.empty).1)
          (create_evaluator Heap.empty).2 →
    is_concrete (BaseRule.class (Heap.object (create_evaluator Heap.empty).2 r))
    = true).
  { intros r Hr. change (r ∈ [0; 1; 2; 3; 4]%nat) in Hr.
    rewrite !elem_of_cons, elem_of_nil in Hr.
    destruct Hr as [-> | [-> | [-> | [-> | [-> | []]]]]]; reflexivity. }
  split; [exact Hc |].
  pose proof (weights_bear_on_the_score_only (λ _, 1%Q) _ _
                (Some [Str "红"; Str "绿"]) None None None None Hc) as T.
  cbv zeta in T. exact (proj1 (proj2 (proj2 T))).
Defined.

End configuration_properties.

(** ** rule_engine: the context rule *)

Section context_rule_properties.
Import rule_engine.

Lemma formal_not_casual (s : string) :
  s ∈ formal_styles → s ∈ casual_styles → False.
Proof.
  unfold formal_styles, casual_styles.
  rewrite !elem_of_union, !elem_of_singleton.
  intros [[-> | ->] | ->] [[[[H | H] | H] | H] | H]; discriminate H.
Qed.

Ltac slot_cases s :=
  let F := fresh "F" in let C := fresh "C" in
  destruct (bool_decide (s ∈ formal_styles)) eqn:F;
  destruct (bool_decide (s ∈ casual_styles)) eqn:C;
  [ exfalso; apply bool_decide_eq_true in F; apply bool_decide_eq_true in C;
    exact (formal_not_casual s F C) | | | ].

(** [current_formal] and [current_casual] in terms of the style types. *)
Lemma current_types (styles : gmap string string) :
  let slots := [default "" (styles !! "top"); default "" (styles !! "bottom");
                default "" (styles !! "shoes")] in
  existsb (λ s, bool_decide (s ∈ formal_styles)) slots
  = bool_decide ("formal" ∈ known_types styles)
  ∧ existsb (λ s, bool_decide (s ∈ casual_styles)) slots
    = bool_decide ("casual" ∈ known_types styles)
  ∧ is_empty (known_types styles)
    = negb (bool_decide ("formal" ∈ known_types styles))
      && negb (bool_decide ("casual" ∈ known_types styles)).
Proof.
  cbv zeta. unfold known_types, get_style_type. cbn [existsb].
  slot_cases (default "" (styles !! "top"));
    slot_cases (default "" (styles !! "bottom"));
    slot_cases (default "" (styles !! "shoes"));
    vm_compute; auto.
Qed.

(** The table [context_styles], read at any context type. *)
Lemma context_styles_lookup (t : string) :
  (t ∈ ["正式场合"; "商务"] ∧ context_styles !! t = Some {[ "formal" ]})
  ∨ (t ∈ ["休闲"; "运动"] ∧ context_styles !! t = Some {[ "casual" ]})
  ∨ (t ∈ ["工作"; "聚会"]
     ∧ context_styles !! t = Some {[ "formal"; "casual" ]})
  ∨ ((t ∉ ["正式场合"; "商务"; "工作"; "休闲"; "运动"; "聚会"])
     ∧ context_styles !! t = None).
Proof.
  destruct (decide (t = "正式场合")) as [-> | H1];
    [left; split; [rewrite !elem_of_cons; auto | vm_compute; reflexivity] |].
  destruct (decide (t = "商务")) as [-> | H2];
    [left; split; [rewrite !elem_of_cons; auto | vm_compute; reflexivity] |].
  destruct (decide (t = "工作")) as [-> | H3];
    [right; right; left; split; [rewrite !elem_of_cons; auto | vm_compute; reflexivity] |].
  destruct (decide (t = "休闲")) as [-> | H4];
    [right; left; split; [rewrite !elem_of_cons; auto | vm_compute; reflexivity] |].
  destruct (decide (t = "运动")) as [-> | H5];
    [right; left; split; [rewrite !elem_of_cons; auto | vm_compute; reflexivity] |].
  destruct (decide (t = "聚会")) as [-> | H6];
    [right; right; left; split; [rewrite !elem_of_cons; auto | vm_compute; reflexivity] |].
  right; right; right. split.
  - rewrite !elem_of_cons, elem_of_nil. tauto.
  - unfold context_styles. cbn [list_to_map foldr].
    rewrite !lookup_insert_ne by done. apply lookup_empty.
Qed.

(** What [_evaluate_context] answers, by the style types that the context
    recommends. *)
Lemma context_rule_cases (w : Q) (context : gmap string string)
    (d : OutfitData.t) :
  let t := default "" (context !! "type") in
  let styles := default ∅ (OutfitData.styles d) in
  let formal := bool_decide ("formal" ∈ known_types styles) in
  let casual := bool_decide ("casual" ∈ known_types styles) in
  let result := ContextAppropriateRule_evaluate_context w context d in
  let outcome := (RuleResult.passed result, RuleResult.score result,
                  RuleResult.severity result, RuleResult.suggestion result) in
  let pass := (true, 100%Q, INFO, None) in
  let wants_formal :=
    (false, 60%Q, WARNING, Some "建议选择衬衫、外套、皮鞋等正装单品") in
  let wants_casual :=
    (false, 60%Q, WARNING, Some "建议选择T恤、牛仔裤、运动鞋等休闲单品") in
  (t ∈ ["正式场合"; "商务"]
   ∧ outcome = if formal then pass else wants_formal)
  ∨ (t ∈ ["休闲"; "运动"]
     ∧ outcome = if casual then pass else wants_casual)
  ∨ (t ∈ ["工作"; "聚会"]
     ∧ outcome = if formal || casual then pass else wants_formal)
  ∨ ((t ∉ ["正式场合"; "商务"; "工作"; "休闲"; "运动"; "聚会"])
     ∧ outcome = pass).
Proof.
  cbv zeta. unfold ContextAppropriateRule_evaluate_context. cbv zeta.
  set (t := default "" (context !! "type")).
  set (styles := default ∅ (OutfitData.styles d)).
  destruct (current_types styles) as (-> & -> & _).
  set (formal := bool_decide ("formal" ∈ known_types styles)).
  set (casual := bool_decide ("casual" ∈ known_types styles)).
  clearbody formal casual.
  destruct (context_styles_lookup t) as [[Ht E] | [[Ht E] | [[Ht E] | [Ht E]]]].
  - left. split; [exact Ht |].
    rewrite bool_decide_eq_false_2
      by (intros Hn; rewrite Hn in Ht; revert Ht;
          rewrite !elem_of_cons, elem_of_nil; intros [? | [? | []]];
          discriminate).
    rewrite E. cbn [default from_option id].
    destruct formal, casual; vm_compute; reflexivity.
  - right; left. split; [exact Ht |].
    rewrite bool_decide_eq_false_2
      by (intros Hn; rewrite Hn in Ht; revert Ht;
          rewrite !elem_of_cons, elem_of_nil; intros [? | [? | []]];
          discriminate).
    rewrite E. cbn [default from_option id].
    destruct formal, casual; vm_compute; reflexivity.
  - right; right; left. split; [exact Ht |].
    rewrite bool_decide_eq_false_2
      by (intros Hn; rewrite Hn in Ht; revert Ht;
          rewrite !elem_of_cons, elem_of_nil; intros [? | [? | []]];
          discriminate).
    rewrite E. cbn [default from_option id].
    destruct formal, casual; vm_compute; reflexivity.
  - right; right; right. split; [exact Ht |].
    rewrite E. cbn [default from_option id].
    destruct (bool_decide (t = "")); vm_compute; reflexivity.
Qed.

(** X25: the context rule fails an outfit in three cases only: none of the three
    slots holds a formal style and the context is [正式场合] or [商务];
    none holds a casual style and the context is [休闲] or [运动]; none
    holds a known style and the context is [工作] or [聚会].  A failure
    scores 60 with severity warning; anything else, an unknown or missing
    context included, passes with score 100.  One item of the recommended
    type is enough, whatever the other slots hold. *)
Theorem context_rule_verdict (w : Q) (context : gmap string string)
    (d : OutfitData.t) :
  let t := default "" (context !! "type") in
  let styles := default ∅ (OutfitData.styles d) in
  let result := ContextAppropriateRule_evaluate_context w context d in
  (RuleResult.passed result = false
   ↔ (t ∈ ["正式场合"; "商务"] ∧ ("formal" ∉ known_types styles))
     ∨ (t ∈ ["休闲"; "运动"] ∧ ("casual" ∉ known_types styles))
     ∨ (t ∈ ["工作"; "聚会"] ∧ known_types styles = []))
  ∧ (RuleResult.passed result = true →
     RuleResult.score result = 100%Q ∧ RuleResult.severity result = INFO
     ∧ RuleResult.suggestion result = None)
  ∧ (RuleResult.passed result = false →
     RuleResult.score result = 60%Q ∧ RuleResult.severity result = WARNING
     ∧ RuleResult.suggestion result
       = Some (if bool_decide (t ∈ ["休闲"; "运动"])
               then "建议选择T恤、牛仔裤、运动鞋等休闲单品"
               else "建议选择衬衫、外套、皮鞋等正装单品")).
Proof.
  cbv zeta.
  pose proof (context_rule_cases w context d) as Hcases. cbv zeta in Hcases.
  set (t := default "" (context !! "type")) in *.
  set (styles := default ∅ (OutfitData.styles d)) in *.
  destruct (current_types styles) as (_ & _ & Hnil).
  assert (Hempty : known_types styles = []
                   ↔ is_empty (known_types styles) = true).
  { destruct (known_types styles); split; try discriminate; reflexivity. }
  rewrite Hempty, Hnil. clear Hempty Hnil.
  assert (Hdisj : ∀ x, x ∈ ["正式场合"; "商务"] → x ∈ ["休闲"; "运动"] → False).
  { intros x. rewrite !elem_of_cons, !elem_of_nil.
    intros [-> | [-> | []]] [H | [H | []]]; discriminate H. }
  assert (Hdisj2 : ∀ x, x ∈ ["工作"; "聚会"] → x ∈ ["休闲"; "运动"] → False).
  { intros x. rewrite !elem_of_cons, !elem_of_nil.
    intros [-> | [-> | []]] [H | [H | []]]; discriminate H. }
  assert (Hdisj3 : ∀ x, x ∈ ["工作"; "聚会"] → x ∈ ["正式场合"; "商务"] → False).
  { intros x. rewrite !elem_of_cons, !elem_of_nil.
    intros [-> | [-> | []]] [H | [H | []]]; discriminate H. }
  assert (Hin : ∀ x, x ∈ ["正式场合"; "商务"] ∨ x ∈ ["休闲"; "运动"]
                     ∨ x ∈ ["工作"; "聚会"] →
                     x ∈ ["正式场合"; "商务"; "工作"; "休闲"; "运动"; "聚会"]).
  { intros x. rewrite !elem_of_cons, !elem_of_nil. tauto. }
  destruct (bool_decide ("formal" ∈ known_types styles)) eqn:F;
    destruct (bool_decide ("casual" ∈ known_types styles)) eqn:C;
    [ apply bool_decide_eq_true in F | apply bool_decide_eq_true in F
    | apply bool_decide_eq_false in F | apply bool_decide_eq_false in F ];
    [ apply bool_decide_eq_true in C | apply bool_decide_eq_false in C
    | apply bool_decide_eq_true in C | apply bool_decide_eq_false in C ];
    cbn [negb andb orb] in *;
    destruct Hcases as [[Ht E] | [[Ht E] | [[Ht E] | [Ht E]]]];
    injection E as -> -> -> ->;
    (split; [| split]);
    try (intros; discriminate);
    try (split; [discriminate |]);
    try (split; [intros _ |]);
    try (intros [[? ?] | [[? ?] | [? ?]]]; exfalso;
         first [ contradiction | discriminate
               | eapply Hdisj; eassumption | eapply Hdisj2; eassumption
               | eapply Hdisj3; eassumption
               | apply Ht, Hin; tauto ]);
    try (intros _; repeat split; try reflexivity);
    try tauto.
  all: try (rewrite bool_decide_eq_true_2 by exact Ht; reflexivity).
  all: try (rewrite bool_decide_eq_false_2; [reflexivity |];
            intros Hc; first [ exact (Hdisj _ Ht Hc) | exact (Hdisj2 _ Ht Hc) ]).
Qed.

Lemma context_rule_verdict_witness :
  let context : gmap string string := {[ "type" := "商务" ]} in
  let styles : gmap string string :=
    list_to_map [("top", "T恤"); ("bottom", "牛仔裤"); ("shoes", "运动鞋")] in
  let d := OutfitData.mk None (Some styles) (Some context) None None in
  let result := ContextAppropriateRule_evaluate_context 1.3 context d in
  RuleResult.passed result = false
  ∧ RuleResult.score result = 60%Q.
Proof.
  cbv zeta.
  set (context := {[ "type" := "商务" ]} : gmap string string).
  set (styles := list_to_map [("top", "T恤"); ("bottom", "牛仔裤");
                              ("shoes", "运动鞋")] : gmap string string).
  set (d := OutfitData.mk None (Some styles) (Some context) None None).
  destruct (context_rule_verdict 1.3 context d) as (Hfail & _ & Hscore).
  assert (H : RuleResult.passed
                (ContextAppropriateRule_evaluate_context 1.3 context d)
              = false).
  { apply Hfail. left.
    split; apply (bool_decide_unpack _); vm_compute; exact I. }
  split; [exact H | exact (proj1 (Hscore H))].
Defined.

(** X26: the warning of the style rule and the failure of the context rule
    exclude each other: when the style rule scores 70, a formal and a
    casual style are both worn and the context rule passes, in every
    context. *)
Theorem mixed_styles_fit_every_context (w w' : Q)
    (styles context : gmap string string) (d : OutfitData.t)
    (Hstyles : OutfitData.styles d = Some styles)
    (Hmixed : RuleResult.score (StyleCoordinationRule_evaluate_styles w styles d)
              = 70%Q) :
  RuleResult.passed (ContextAppropriateRule_evaluate_context w' context d)
  = true.
Proof.
  pose proof (context_rule_cases w' context d) as Hcases. cbv zeta in Hcases.
  rewrite Hstyles in Hcases. cbn [default from_option id] in Hcases.
  assert (Htwo : distinct_types styles = 2%nat).
  { destruct (style_result_by_distinct_types w styles d)
      as [[_ E] | [[_ E] | [H _]]]; [| | exact H];
      rewrite E in Hmixed; discriminate Hmixed. }
  apply two_types_iff_formal_and_casual in Htwo as [F C].
  rewrite (bool_decide_eq_true_2 _ F), (bool_decide_eq_true_2 _ C) in Hcases.
  cbn [orb] in Hcases.
  destruct Hcases as [[_ E] | [[_ E] | [[_ E] | [_ E]]]];
    by injection E as -> _ _ _.
Qed.

Lemma mixed_styles_fit_every_context_witness :
  let styles : gmap string string :=
    list_to_map [("top", "衬衫"); ("bottom", "牛仔裤"); ("shoes", "皮鞋")] in
  let d := OutfitData.mk None (Some styles) None None None in
  (OutfitData.styles d = Some styles
   ∧ RuleResult.score (StyleCoordinationRule_evaluate_styles 1.5 styles d)
     = 70%Q)
  ∧ RuleResult.passed
      (ContextAppropriateRule_evaluate_context 1.3 {[ "type" := "运动" ]} d)
    = true.
Proof.
  cbv zeta.
  assert (H1 : OutfitData.styles
                 (OutfitData.mk None
                    (Some (list_to_map [("top", "衬衫"); ("bottom", "牛仔裤");
                                        ("shoes", "皮鞋")]))
                    None None None)
               = Some (list_to_map [("top", "衬衫"); ("bottom", "牛仔裤");
                                    ("shoes", "皮鞋")])) by reflexivity.
  assert (H2 : RuleResult.score
                 (StyleCoordinationRule_evaluate_styles 1.5
                    (list_to_map [("top", "衬衫"); ("bottom", "牛仔裤");
                                  ("shoes", "皮鞋")])
                    (OutfitData.mk None
                       (Some (list_to_map [("top", "衬衫"); ("bottom", "牛仔裤");
                                           ("shoes", "皮鞋")]))
                       None None None))
               = 70%Q) by (vm_compute; reflexivity).
  split; [split; [exact H1 | exact H2] |].
  exact (mixed_styles_fit_every_context 1.5 1.3 _ {[ "type" := "运动" ]} _
           H1 H2).
Defined.

End context_rule_properties.

(** ** model_utils: the class names *)

Section class_name_properties.
Import rule_engine model_utils.

(** X27: [get_class_name] returns for the indices 0 to 7 and for no other: it
    returns the name at that position of [CLASS_NAMES], different indices
    give different names, and outside of the range, negative indices
    included, it raises the [ValueError] whose message spells the index and
    the bound 7. *)
Theorem get_class_name_range (i : Z) :
  NUM_CLASSES = 8
  ∧ (0 ≤ i < NUM_CLASSES →
     ∃ name, get_class_name i = Return name
             ∧ CLASS_NAMES !! Z.to_nat i = Some name
             ∧ ∀ j, get_class_name j = Return name → j = i)
  ∧ (¬ (0 ≤ i < NUM_CLASSES) →
     get_class_name i
     = ValueError ("无效的类别索引: " +:+ pretty i +:+ ", 应该在0-7之间")).
Proof.
  split; [reflexivity |].
  assert (Hout : ∀ j, ¬ (0 ≤ j < 8) →
            get_class_name j
            = ValueError ("无效的类别索引: " +:+ pretty j +:+ ", 应该在0-7之间")).
  { intros j Hj. unfold get_class_name.
    change (py.len CLASS_NAMES) with 8.
    destruct (bool_decide (0 ≤ j)) eqn:E1;
      destruct (bool_decide (j < 8)) eqn:E2; try reflexivity.
    apply bool_decide_eq_true in E1, E2. lia. }
  change NUM_CLASSES with 8. split; [| apply Hout].
  intros Hi.
  assert (Hcases : i = 0 ∨ i = 1 ∨ i = 2 ∨ i = 3 ∨ i = 4 ∨ i = 5 ∨ i = 6
                   ∨ i = 7) by lia.
  assert (Hinj : ∀ j name, get_class_name j = Return name →
            0 ≤ j < 8 ∧ CLASS_NAMES !! Z.to_nat j = Some name).
  { intros j name Hj.
    destruct (decide (0 ≤ j < 8)) as [Hr | Hr];
      [| rewrite (Hout j Hr) in Hj; discriminate Hj].
    split; [exact Hr |].
    assert (Hc : j = 0 ∨ j = 1 ∨ j = 2 ∨ j = 3 ∨ j = 4 ∨ j = 5 ∨ j = 6
                 ∨ j = 7) by lia.
    destruct Hc as [-> | [-> | [-> | [-> | [-> | [-> | [-> | ->]]]]]]];
      vm_compute in Hj; injection Hj as <-; reflexivity. }
  destruct Hcases as [-> | [-> | [-> | [-> | [-> | [-> | [-> | ->]]]]]]];
    (eexists; split; [vm_compute; reflexivity |]; split; [reflexivity |];
     intros j Hj; apply Hinj in Hj as [Hr Hj];
     assert (Hc : j = 0 ∨ j = 1 ∨ j = 2 ∨ j = 3 ∨ j = 4 ∨ j = 5 ∨ j = 6
                  ∨ j = 7) by lia;
     destruct Hc as [-> | [-> | [-> | [-> | [-> | [-> | [-> | ->]]]]]]];
     first [ reflexivity | exfalso; vm_compute in Hj; discriminate Hj ]).
Qed.

Lemma get_class_name_range_witness :
  0 ≤ 3 < NUM_CLASSES ∧ get_class_name 3 = Return "外套".
Proof.
  assert (H : 0 ≤ 3 < NUM_CLASSES) by (change NUM_CLASSES with 8; lia).
  split; [exact H |].
  destruct (get_class_name_range 3) as (_ & Hin & _).
  destruct (Hin H) as (name & Hn & Hl & _).
  vm_compute in Hl. injection Hl as <-. exact Hn.
Defined.

(** X28: the classes of the classifier are exactly the styles that the style
    rules know: a string is a class name if and only if [get_style_type]
    gives it a type, formal or casual; so every class that
    [get_class_name] returns takes part in the style and context rules. *)
Theorem class_names_are_the_known_styles (s : string) :
  (s ∈ CLASS_NAMES ↔ get_style_type s ≠ "unknown")
  ∧ (s ∈ CLASS_NAMES ↔ s ∈ formal_styles ∨ s ∈ casual_styles)
  ∧ (∀ i, get_class_name i = Return s → get_style_type s ≠ "unknown").
Proof.
  assert (H : s ∈ CLASS_NAMES ↔ s ∈ formal_styles ∨ s ∈ casual_styles).
  { unfold CLASS_NAMES, formal_styles, casual_styles.
    rewrite !elem_of_cons, elem_of_nil, !elem_of_union, !elem_of_singleton.
    tauto. }
  assert (H' : s ∈ CLASS_NAMES ↔ get_style_type s ≠ "unknown").
  { rewrite H. unfold get_style_type.
    destruct (bool_decide (s ∈ formal_styles)) eqn:F;
      [apply bool_decide_eq_true in F; split; [discriminate | tauto] |].
    destruct (bool_decide (s ∈ casual_styles)) eqn:C;
      [apply bool_decide_eq_true in C; split; [discriminate | tauto] |].
    apply bool_decide_eq_false in F, C. split; [tauto | congruence]. }
  split; [exact H' |]. split; [exact H |].
  intros i Hi. apply H'. unfold get_class_name in Hi.
  destruct (_ && _); [| discriminate Hi].
  destruct (CLASS_NAMES !! Z.to_nat i) as [name |] eqn:E; [| discriminate Hi].
  injection Hi as ->. by apply list_elem_of_lookup_2 in E.
Qed.

Lemma class_names_are_the_known_styles_witness :
  get_class_name 7 = Return "皮鞋" ∧ get_style_type "皮鞋" ≠ "unknown".
Proof.
  assert (H : get_class_name 7 = Return "皮鞋") by (vm_compute; reflexivity).
  split; [exact H |].
  exact (proj2 (proj2 (class_names_are_the_known_styles "皮鞋")) 7 H).
Defined.

End class_name_properties.

(** ** web/app: the recommendations under the default rules *)

Section recommendation_properties.
Import rule_engine.

(** A context type outside of [context_styles] passes the context rule. *)
Lemma context_rule_unlisted (w : Q) (t : string)
    (styles : gmap string string) (d : OutfitData.t) :
  OutfitData.context d = Some {[ "type" := t ]} →
  context_styles !! t = None →
  ∃ m, evaluate (new_ContextAppropriateRule w) d
       = RuleResult.mk true 100 (Text m) None INFO w.
Proof.
  intros Hd Ht. unfold evaluate, ContextRule_evaluate.
  cbn [BaseRule.class BaseRule.weight new_ContextAppropriateRule].
  cbv zeta. rewrite Hd. cbn [default from_option id].
  rewrite (bool_decide_eq_false_2 _ (map_non_empty_singleton "type" t)).
  unfold ContextAppropriateRule_evaluate_context. cbv zeta.
  rewrite lookup_singleton_eq. cbn [default from_option id].
  rewrite Ht. cbn [default from_option id].
  destruct (bool_decide (t = "")); [eexists; reflexivity |].
  rewrite bool_decide_eq_true_2 by reflexivity. eexists; reflexivity.
Qed.

(** The report of the default evaluation, from what each of the five
    rules answers. *)
Lemma default_report (h : Heap.t) (colors : option (list ColorItem))
    (styles context : option (gmap string string))
    (top_colors bottom_colors : option (list ColorItem)) :
  let d := RuleEvaluator.build_outfit_data colors styles context
                                           top_colors bottom_colors in
  let entries :=
    map (λ self,
           ResultEntry.mk (BaseRule.name self) (BaseRule.description self)
             (RuleResult.passed (evaluate self d))
             (RuleResult.score (evaluate self d))
             (RuleResult.message (evaluate self d))
             (RuleResult.suggestion (evaluate self d))
             (RuleSeverity_value (RuleResult.severity (evaluate self d)))
             (BaseRule.weight self))
        default_rules in
  let sw :=
    map (λ self, (RuleResult.score (evaluate self d), BaseRule.weight self))
        default_rules in
  let report :=
    rule_engine.evaluate_outfit h colors styles context
                                top_colors bottom_colors in
  Report.results report = entries
  ∧ Report.passed report = (count_severity "error" entries =? 0)
  ∧ Report.score report
    = py.round (if py.Qltb 0 (total_weight sw) then weighted_average sw
                else 0) 2.
Proof.
  cbv zeta.
  unfold rule_engine.evaluate_outfit, create_evaluator, RuleEvaluator.__init__.
  pose proof (default_results h
    (RuleEvaluator.build_outfit_data colors styles context
                                     top_colors bottom_colors)) as [Hres Hsw].
  cbv zeta in Hres, Hsw.
  destruct (RuleLibrary.__init__ h) as [lib h'].
  destruct (report_fields (RuleEvaluator.mk lib) h' colors styles context
              top_colors bottom_colors) as (-> & -> & _).
  destruct (report_score (RuleEvaluator.mk lib) h' colors styles context
              top_colors bottom_colors) as [-> _].
  cbn [RuleEvaluator.rule_library fst snd] in *. by rewrite Hres, Hsw.
Qed.

(** A row of the table is what the lookup of its key gives. *)
Lemma rec_of_rows (t : string) (r casual : app.Recommendation.t)
    (rows : list (string * app.Recommendation.t)) :
  app.context_recommendations = list_to_map rows →
  NoDup rows.*1 →
  ("休闲", casual) ∈ rows →
  (t, r) ∈ rows ∨ ((t ∉ rows.*1) ∧ r = casual) →
  app.rec t = Some r.
Proof.
  intros Hrows Hnd Hcasual Hr. unfold app.rec. rewrite Hrows.
  rewrite (elem_of_list_to_map_1 rows "休闲" casual Hnd Hcasual).
  destruct Hr as [Hr | [Hr ->]].
  - by rewrite (elem_of_list_to_map_1 rows t r Hnd Hr).
  - by rewrite (not_elem_of_list_to_map_1 _ _ Hr).
Qed.

Ltac find_row :=
  repeat first [ apply list_elem_of_here | apply list_elem_of_further ].

Ltac table_row :=
  eapply rec_of_rows;
  [ reflexivity
  | apply (bool_decide_unpack _); vm_compute; exact I
  | find_row
  | left; find_row ].

(** X29: what the page recommends for a context is in order under the default
    rules, evaluated in that context: for every context type, in the table
    or not, the recommended colours and styles pass every rule.  Each rule
    scores 100 but the style rule on the three recommendations that put
    casual trousers between a shirt and leather shoes, those for
    [正式场合], [商务] and [工作]: there it warns with score 70, and the
    report holds 93.84 instead of 100. *)
Theorem recommendations_under_default_rules (h : Heap.t)
    (context_type : string) :
  ∃ r, app.rec context_type = Some r
  ∧ let report :=
      rule_engine.evaluate_outfit h
        (Some (map Str (app.Recommendation.colors r)))
        (Some (app.Recommendation.styles r))
        (Some {[ "type" := context_type ]}) None None in
    let mixed := bool_decide (context_type ∈ ["正式场合"; "商务"; "工作"]) in
    map (λ e, (ResultEntry.passed e, ResultEntry.score e,
               ResultEntry.severity e))
        (Report.results report)
    = [ (true, 100%Q, "info"); (true, 100%Q, "info"); (true, 100%Q, "info");
        (true, if mixed then 70%Q else 100%Q,
         if mixed then "warning" else "info");
        (true, 100%Q, "info") ]
    ∧ Report.passed report = true
    ∧ (Report.score report == if mixed then 93.84 else 100)%Q.
Proof.
  destruct (context_styles_lookup context_type)
    as [[Ht _] | [[Ht _] | [[Ht _] | [Ht Hnone]]]].
  1-3: rewrite !elem_of_cons, elem_of_nil in Ht.
  1-3: destruct Ht as [-> | [-> | []]].
  1-5: eexists; (split; [table_row |]); cbv zeta;
    match goal with
    | |- context [rule_engine.evaluate_outfit _ ?c ?s ?x None None] =>
        destruct (default_report h c s x None None) as (H1 & H2 & H3)
    end;
    cbv zeta in H1, H2, H3;
    (split; [rewrite H1 | split; [rewrite H2 | rewrite H3]]);
    vm_compute; reflexivity.
  - eexists. split.
    { eapply rec_of_rows;
        [ reflexivity
        | apply (bool_decide_unpack _); vm_compute; exact I
        | find_row
        | right; split;
          [ apply (bool_decide_unpack _); vm_compute; exact I
          | reflexivity ] ]. }
    cbv zeta.
    match goal with
    | |- context [rule_engine.evaluate_outfit _ ?c ?s ?x None None] =>
        destruct (default_report h c s x None None) as (H1 & H2 & H3)
    end.
    cbv zeta in H1, H2, H3.
    (split; [rewrite H1 | split; [rewrite H2 | rewrite H3]]);
      vm_compute; reflexivity.
  - assert (Hmixed : bool_decide (context_type ∈ ["正式场合"; "商务"; "工作"])
                     = false).
    { apply bool_decide_eq_false_2. intros Hin. apply Ht. revert Hin.
      rewrite !elem_of_cons, !elem_of_nil. tauto. }
    eexists. split.
    { eapply rec_of_rows;
        [ reflexivity
        | apply (bool_decide_unpack _); vm_compute; exact I
        | find_row
        | right; split; [| reflexivity] ].
      cbn [fmap list_fmap fst]. revert Ht.
      rewrite !elem_of_cons, !elem_of_nil. tauto. }
    cbv zeta. rewrite Hmixed.
    match goal with
    | |- context [rule_engine.evaluate_outfit _ ?c (Some ?s) ?x None None] =>
        destruct (default_report h c (Some s) x None None) as (H1 & H2 & H3);
        destruct (context_rule_unlisted 1.3 context_type s
                    (RuleEvaluator.build_outfit_data c (Some s) x None None)
                    eq_refl Hnone) as [m Hm];
        set (d := RuleEvaluator.build_outfit_data c (Some s) x None None) in *
    end.
    cbv zeta in H1, H2, H3.
    unfold default_rules in H1, H2, H3. cbn [map] in H1, H2, H3.
    rewrite Hm in H1, H2, H3. clear Hm Hnone Ht Hmixed.
    subst d.
    (split; [rewrite H1 | split; [rewrite H2 | rewrite H3]]);
      clear H1 H2 H3; revert m; generalize context_type; intros t m;
      vm_compute; reflexivity.
Qed.

End recommendation_properties.
